(** * dSyncPay: the payment and subscription lifecycle engine

    A shallow embedding of [src/index.mjs]: the PayPal adapter (access
    token cache, orders, plans, subscriptions), the Coinbase adapter
    (charges, webhook signatures), the metadata cache with its one-hour
    timers and the event dispatcher.

    - What the providers send is kept dynamic ([JS.value]), with the
      truthiness, the optional chaining and the TypeErrors of the
      program; numbers are IEEE 754 binary64 ([spec_float]); strings are
      byte strings (UTF-8).  What the host passes in is typed: titles and
      identifiers are strings, prices and quantities are Numbers, absent
      when [None].
    - An asynchronous method is a function in a state-and-exception
      monad over [World].  The network is a script of replies held in the
      world; while a method waits for a reply the clock moves and the
      timers that are due run.  Calls of the host run one after another;
      callbacks return or throw at once.
    - [crypto.createHmac('sha256', _)] is HMAC (RFC 2104) over SHA-256
      (FIPS 180-4), written out on bytes.
    - The constructor and the routes it registers come after the
      adapters: a handler is a function from the request to an answer
      (a redirect, a status with a JSON body, a file) in the same monad.
      Query strings and [JSON.stringify] are written out on byte
      strings. *)

From Stdlib Require Import ZArith NArith List String Ascii Bool Lia.
From Stdlib Require Import Decimal DecimalString DecimalN DecimalPos SpecFloat.
Import ListNotations.
Set Warnings "-register-all".
Local Open Scope string_scope.
Local Open Scope Z_scope.

(* ================================================================== *)
(** ** JavaScript values *)

Module JS.

(** A JavaScript Number: binary64, precision 53, infinities at 2^1024. *)
Definition number := spec_float.

Definition mul : number -> number -> number := SFmul 53 1024.

Definition of_Z (z : Z) : number := binary_normalize 53 1024 z 0 false.

Inductive value :=
| Undefined
| Null
| Bool (b : bool)
| Num (x : number)
| Str (s : string)
| Arr (items : list value)
| Obj (props : list (string * value)).

(** ToBoolean. *)
Definition num_truthy (x : number) : bool :=
  match x with
  | S754_zero _ | S754_nan => false
  | _ => true
  end.

Definition truthy (v : value) : bool :=
  match v with
  | Undefined | Null => false
  | Bool b => b
  | Num x => num_truthy x
  | Str s => negb (String.eqb s EmptyString)
  | Arr _ | Obj _ => true
  end.

(** [a || b] *)
Definition or_else (a b : value) : value := if truthy a then a else b.

Definition nullish (v : value) : bool :=
  match v with
  | Undefined | Null => true
  | _ => false
  end.

(** [v === 'lit'] for a string literal. *)
Definition str_is (v : value) (lit : string) : bool :=
  match v with
  | Str s => String.eqb s lit
  | _ => false
  end.

(** Own properties of an object, first binding first. *)
Fixpoint assoc (k : string) (ps : list (string * value)) : value :=
  match ps with
  | [] => Undefined
  | (k', v) :: r => if String.eqb k k' then v else assoc k r
  end.

(** [v.k] on a receiver that is neither undefined nor null.  The names
    read by the program ([status], [id], [links], ...) are on no
    prototype, so only objects answer; arrays and strings answer
    [length]. *)
Definition get (v : value) (k : string) : value :=
  match v with
  | Obj ps => assoc k ps
  | Arr l => if String.eqb k "length" then Num (of_Z (Z.of_nat (List.length l))) else Undefined
  | Str s => if String.eqb k "length" then Num (of_Z (Z.of_nat (String.length s))) else Undefined
  | _ => Undefined
  end.

(** [v?.k] *)
Definition opt_get (v : value) (k : string) : value :=
  if nullish v then Undefined else get v k.

(** [v[0]] on a receiver that is neither undefined nor null. *)
Definition item0 (v : value) : value :=
  match v with
  | Arr l => hd Undefined l
  | Str (String c _) => Str (String c EmptyString)
  | Obj ps => assoc "0" ps
  | _ => Undefined
  end.

(** [v?.[0]] *)
Definition opt_item0 (v : value) : value :=
  if nullish v then Undefined else item0 v.

Fixpoint last_char (s : string) : value :=
  match s with
  | EmptyString => Undefined
  | String c EmptyString => Str (String c EmptyString)
  | String _ r => last_char r
  end.

(** The exact integer held by a Number, when it is a positive one. *)
Definition pos_integer (x : number) : option Z :=
  match x with
  | S754_finite false m (Z0 as e) | S754_finite false m (Zpos _ as e) =>
      Some (Z.pos m * 2 ^ e)
  | S754_finite false m (Zneg p) =>
      if Z.eqb (Z.pos m mod 2 ^ Z.pos p) 0 then Some (Z.pos m / 2 ^ Z.pos p) else None
  | _ => None
  end.

(** [v[v.length - 1]] on a receiver that is neither undefined nor null:
    the last element of an array.  On an object the key is the decimal
    numeral of [length - 1]; a [length] that is not a positive integer
    Number selects no element here. *)
Definition last_item (v : value) : value :=
  match v with
  | Arr l => last l Undefined
  | Str s => last_char s
  | Obj ps =>
      match assoc "length" ps with
      | Num x =>
          match pos_integer x with
          | Some z => assoc (NilZero.string_of_uint (N.to_uint (Z.to_N (z - 1)))) ps
          | None => Undefined
          end
      | _ => Undefined
      end
  | _ => Undefined
  end.

(** Structural equality, used for the keys of a [Map]. *)
Definition num_eqb (x y : number) : bool :=
  match x, y with
  | S754_zero a, S754_zero b => Bool.eqb a b
  | S754_infinity a, S754_infinity b => Bool.eqb a b
  | S754_nan, S754_nan => true
  | S754_finite a m e, S754_finite b m' e' =>
      Bool.eqb a b && Pos.eqb m m' && Z.eqb e e'
  | _, _ => false
  end.

Fixpoint eqb (a b : value) {struct a} : bool :=
  match a, b with
  | Undefined, Undefined => true
  | Null, Null => true
  | Bool x, Bool y => Bool.eqb x y
  | Num x, Num y => num_eqb x y
  | Str x, Str y => String.eqb x y
  | Arr l, Arr l' =>
      (fix all2 (l l' : list value) {struct l} : bool :=
         match l, l' with
         | [], [] => true
         | x :: r, y :: r' => eqb x y && all2 r r'
         | _, _ => false
         end) l l'
  | Obj ps, Obj ps' =>
      (fix all2 (ps ps' : list (string * value)) {struct ps} : bool :=
         match ps, ps' with
         | [], [] => true
         | (k, x) :: r, (k', y) :: r' => String.eqb k k' && eqb x y && all2 r r'
         | _, _ => false
         end) ps ps'
  | _, _ => false
  end.

(* ------------------------------------------------------------------ *)
(** *** Numbers and their decimal numerals *)

(** A finite nonzero Number [m * 2^e] as the fraction
    [exact_num m e / exact_den e]. *)
Definition exact_num (m : positive) (e : Z) : Z :=
  match e with
  | Zneg _ => Z.pos m
  | _ => Z.pos m * 2 ^ e
  end.

Definition exact_den (e : Z) : Z :=
  match e with
  | Zneg p => 2 ^ Z.pos p
  | _ => 1
  end.

(** The Number nearest to [mant * 10^exp10] (ties to even), with the
    sign [neg]: the value of a decimal numeral. *)
Definition of_decimal (neg : bool) (mant : Z) (exp10 : Z) : number :=
  match mant with
  | Zpos p =>
      match exp10 with
      | Zneg q => SFdiv 53 1024 (S754_finite neg p 0) (S754_finite false (Pos.pow 10 q) 0)
      | _ => binary_round 53 1024 neg (Z.to_pos (Z.pos p * 10 ^ exp10)) 0
      end
  | _ => S754_zero neg
  end.

Definition print_nat (n : Z) : string :=
  NilZero.string_of_uint (N.to_uint (Z.to_N n)).

Definition digit_char (d : Z) : ascii := ascii_of_nat (Z.to_nat (48 + d)).

(** [toFixed(2)] below 10^21: the integer [n] with [n / 100] nearest to
    the exact value, the larger one on a tie. *)
Definition hundredths (m : positive) (e : Z) : Z :=
  (200 * exact_num m e + exact_den e) / (2 * exact_den e).

Definition fixed2 (n : Z) : string :=
  print_nat (n / 100) ++ "." ++
  String (digit_char (n mod 100 / 10)) (String (digit_char (n mod 10)) EmptyString).

(** Number::toString from 10^21 on: the fewest digits [s] (there are
    [k] of them) with [s * 10^(n-k)] read back as the same Number, the
    closest such [s], the even one on a tie; printed in exponent form. *)
Definition ndigits (z : Z) : Z :=
  Z.of_nat (Decimal.nb_digits (N.to_uint (Z.to_N z))).

Definition reads_back (x : number) (s e10 : Z) : bool :=
  num_eqb (of_decimal false s e10) x.

Fixpoint shortest (fuel : nat) (k : Z) (x : number) (X nd : Z) : Z * Z :=
  match fuel with
  | O => (X, nd)
  | S fuel' =>
      let p := 10 ^ (nd - k) in
      let lo := X / p in
      let hi := lo + 1 in
      let lo_ok := reads_back x lo (nd - k) in
      let hi_ok := reads_back x hi (nd - k) in
      let pick_hi := if Z.eqb hi (10 ^ k) then (10 ^ (k - 1), nd + 1) else (hi, nd) in
      if lo_ok && hi_ok then
        match Z.compare (X - lo * p) (hi * p - X) with
        | Lt => (lo, nd)
        | Gt => pick_hi
        | Eq => if Z.even lo then (lo, nd) else pick_hi
        end
      else if lo_ok then (lo, nd)
      else if hi_ok then pick_hi
      else shortest fuel' (k + 1) x X nd
  end.

Definition exponent_form (s n : Z) : string :=
  let ds := print_nat s in
  match ds with
  | String c EmptyString => String c ("e+" ++ print_nat (n - 1))
  | String c r => String c ("." ++ r ++ "e+" ++ print_nat (n - 1))
  | EmptyString => EmptyString
  end.

Definition toString_large (m : positive) (e : Z) : string :=
  let X := exact_num m e in
  let '(s, n) := shortest 17 1 (S754_finite false m e) X (ndigits X) in
  exponent_form s n.

(** [x.toFixed(2)] *)
Definition toFixed2 (x : number) : string :=
  match x with
  | S754_nan => "NaN"
  | S754_infinity s => if s then "-Infinity" else "Infinity"
  | S754_zero _ => "0.00"
  | S754_finite s m e =>
      (if s then "-" else EmptyString) ++
      (if 10 ^ 21 * exact_den e <=? exact_num m e
       then toString_large m e
       else fixed2 (hundredths m e))
  end.

(** Reading a numeral: the longest prefix that is a StrDecimalLiteral. *)
Definition is_space (c : ascii) : bool :=
  match nat_of_ascii c with
  | 9%nat | 10%nat | 11%nat | 12%nat | 13%nat | 32%nat => true
  | _ => false
  end.

Fixpoint trim_start (s : string) : string :=
  match s with
  | String c r => if is_space c then trim_start r else s
  | EmptyString => s
  end.

Definition digit_of_char (c : ascii) : option (uint -> uint) :=
  match c with
  | "0"%char => Some D0 | "1"%char => Some D1 | "2"%char => Some D2
  | "3"%char => Some D3 | "4"%char => Some D4 | "5"%char => Some D5
  | "6"%char => Some D6 | "7"%char => Some D7 | "8"%char => Some D8
  | "9"%char => Some D9
  | _ => None
  end.

Fixpoint read_digits (s : string) : uint * string :=
  match s with
  | String c r =>
      match digit_of_char c with
      | Some d => let '(ds, rest) := read_digits r in (d ds, rest)
      | None => (Nil, s)
      end
  | EmptyString => (Nil, s)
  end.

Definition uint_value (d : uint) : Z := Z.of_N (N.of_uint d).

Definition read_exponent (s : string) : Z :=
  match s with
  | String c r =>
      if (Ascii.eqb c "e" || Ascii.eqb c "E")%bool then
        match r with
        | String "-" r' =>
            match read_digits r' with
            | (Nil, _) => 0
            | (ds, _) => - uint_value ds
            end
        | String "+" r' => uint_value (fst (read_digits r'))
        | _ => uint_value (fst (read_digits r))
        end
      else 0
  | EmptyString => 0
  end.

Definition read_unsigned (neg : bool) (s : string) : number :=
  if String.prefix "Infinity" s then S754_infinity neg else
  let '(ip, r1) := read_digits s in
  let '(fp, r2) :=
    match r1 with
    | String "." r => read_digits r
    | _ => (Nil, r1)
    end in
  match ip, fp with
  | Nil, Nil => S754_nan
  | _, _ =>
      let fd := Z.of_nat (Decimal.nb_digits fp) in
      of_decimal neg (uint_value ip * 10 ^ fd + uint_value fp) (read_exponent r2 - fd)
  end.

Definition parse_string (s : string) : number :=
  match trim_start s with
  | String "-" r => read_unsigned true r
  | String "+" r => read_unsigned false r
  | t => read_unsigned false t
  end.

(** [parseFloat(v)]: the argument goes through ToString first.  A
    Number prints to a numeral that reads back as itself (-0 prints as
    "0"); an array prints its elements joined by commas, so the numeral
    is that of the first element; undefined, null, booleans and plain
    objects print no numeral. *)
Fixpoint parseFloat (v : value) : number :=
  match v with
  | Str s => parse_string s
  | Num (S754_zero _) => S754_zero false
  | Num x => x
  | Arr (x :: _) => parseFloat x
  | _ => S754_nan
  end.

End JS.

(* ================================================================== *)
(** ** [crypto]: SHA-256 and HMAC

    Node's [crypto.createHmac('sha256', key).update(data).digest('hex')].
    Bytes are integers below 256, words are integers below 2^32 with the
    wrap-around written out. *)

Module Sha256.

Definition mask32 (x : Z) : Z := Z.land x 4294967295.
Definition add32 (x y : Z) : Z := mask32 (x + y).
Definition rotr (n x : Z) : Z :=
  Z.lor (Z.shiftr x n) (mask32 (Z.shiftl x (32 - n))).
Definition not32 (x : Z) : Z := Z.lxor x 4294967295.

Definition Ch (x y z : Z) : Z := Z.lxor (Z.land x y) (Z.land (not32 x) z).
Definition Maj (x y z : Z) : Z :=
  Z.lxor (Z.lxor (Z.land x y) (Z.land x z)) (Z.land y z).
Definition Sigma0 (x : Z) : Z := Z.lxor (Z.lxor (rotr 2 x) (rotr 13 x)) (rotr 22 x).
Definition Sigma1 (x : Z) : Z := Z.lxor (Z.lxor (rotr 6 x) (rotr 11 x)) (rotr 25 x).
Definition sigma0 (x : Z) : Z := Z.lxor (Z.lxor (rotr 7 x) (rotr 18 x)) (Z.shiftr x 3).
Definition sigma1 (x : Z) : Z := Z.lxor (Z.lxor (rotr 17 x) (rotr 19 x)) (Z.shiftr x 10).

(** The constants: the first 32 fractional bits of the cube roots (for
    the rounds) and of the square roots (for the initial hash) of the
    first primes. *)
Definition is_prime (n : Z) : bool :=
  forallb (fun d => negb (n mod Z.of_nat d =? 0)) (seq 2 (Z.to_nat n - 2)).

Definition primes (below : nat) : list Z :=
  filter is_prime (map Z.of_nat (seq 2 (below - 2))).

(** The integer part of a cube root, bit by bit from [2 ^ bits] down. *)
Fixpoint cube_root (bits : nat) (n r : Z) : Z :=
  match bits with
  | O => r
  | S b =>
      let r' := r + 2 ^ Z.of_nat b in
      cube_root b n (if r' * r' * r' <=? n then r' else r)
  end.

Definition K : list Z :=
  Eval vm_compute in
    map (fun p => mask32 (cube_root 40 (p * 2 ^ 96) 0)) (primes 312).

Definition H0 : list Z :=
  Eval vm_compute in
    map (fun p => mask32 (Z.sqrt (p * 2 ^ 64))) (primes 20).

(** Big-endian bytes to words and back. *)
Fixpoint words_of_bytes (bs : list Z) : list Z :=
  match bs with
  | b0 :: b1 :: b2 :: b3 :: r =>
      Z.lor (Z.lor (Z.shiftl b0 24) (Z.shiftl b1 16)) (Z.lor (Z.shiftl b2 8) b3)
        :: words_of_bytes r
  | _ => []
  end.

Definition bytes_of_word (w : Z) : list Z :=
  [ Z.land (Z.shiftr w 24) 255; Z.land (Z.shiftr w 16) 255;
    Z.land (Z.shiftr w 8) 255; Z.land w 255 ].

Definition be64 (n : Z) : list Z :=
  (bytes_of_word (mask32 (Z.shiftr n 32)) ++ bytes_of_word (mask32 n))%list.

(** Padding: a one bit, zeros up to 56 modulo 64, the bit length. *)
Definition pad (msg : list Z) : list Z :=
  let l := Z.of_nat (List.length msg) in
  (msg ++ [128] ++ repeat 0 (Z.to_nat ((55 - l) mod 64)) ++ be64 (8 * l))%list.

(** Message schedule, newest word first while it grows. *)
Fixpoint extend (n : nat) (rev_w : list Z) : list Z :=
  match n with
  | O => rev_w
  | S n' =>
      let w2 := nth 1 rev_w 0 in
      let w7 := nth 6 rev_w 0 in
      let w15 := nth 14 rev_w 0 in
      let w16 := nth 15 rev_w 0 in
      extend n' (add32 (add32 (sigma1 w2) w7) (add32 (sigma0 w15) w16) :: rev_w)
  end.

Definition schedule (block : list Z) : list Z := List.rev (extend 48 (List.rev block)).

Record regs := mkRegs { ra : Z; rb : Z; rc : Z; rd : Z; re : Z; rf : Z; rg : Z; rh : Z }.

Definition round (s : regs) (kw : Z * Z) : regs :=
  let '(k, w) := kw in
  let t1 := add32 (add32 (add32 (rh s) (Sigma1 (re s))) (add32 (Ch (re s) (rf s) (rg s)) k)) w in
  let t2 := add32 (Sigma0 (ra s)) (Maj (ra s) (rb s) (rc s)) in
  mkRegs (add32 t1 t2) (ra s) (rb s) (rc s) (add32 (rd s) t1) (re s) (rf s) (rg s).

Definition regs_of (h : list Z) : regs :=
  mkRegs (nth 0 h 0) (nth 1 h 0) (nth 2 h 0) (nth 3 h 0)
         (nth 4 h 0) (nth 5 h 0) (nth 6 h 0) (nth 7 h 0).

Definition list_of (s : regs) : list Z :=
  [ra s; rb s; rc s; rd s; re s; rf s; rg s; rh s].

Definition compress (h : list Z) (block : list Z) : list Z :=
  let s := fold_left round (combine K (schedule block)) (regs_of h) in
  map (fun p => add32 (fst p) (snd p)) (combine h (list_of s)).

Fixpoint blocks (n : nat) (ws : list Z) : list (list Z) :=
  match n with
  | O => []
  | S n' =>
      match ws with
      | [] => []
      | _ => firstn 16 ws :: blocks n' (skipn 16 ws)
      end
  end.

Definition digest (msg : list Z) : list Z :=
  let ws := words_of_bytes (pad msg) in
  flat_map bytes_of_word (fold_left compress (blocks (List.length ws) ws) H0).

End Sha256.

Module Hmac.

Definition block_size : nat := 64.

(** The key as one block: hashed when longer than a block, then filled
    with zero bytes. *)
Definition key_block (key : list Z) : list Z :=
  let k := if Nat.ltb block_size (List.length key) then Sha256.digest key else key in
  (k ++ repeat 0 (block_size - List.length k))%list.

Definition xor_with (c : Z) (bs : list Z) : list Z := map (Z.lxor c) bs.

Definition hmac_sha256 (key msg : list Z) : list Z :=
  let kb := key_block key in
  Sha256.digest (xor_with 0x5c kb ++ Sha256.digest (xor_with 0x36 kb ++ msg))%list.

End Hmac.

(** Strings as their bytes (UTF-8), and the lower-case hex of [digest('hex')]. *)
Definition bytes_of_string (s : string) : list Z :=
  map (fun c => Z.of_nat (nat_of_ascii c)) (list_ascii_of_string s).

Definition hex_digit (n : Z) : ascii :=
  ascii_of_nat (Z.to_nat (if n <? 10 then 48 + n else 87 + n)).

Fixpoint hex (bs : list Z) : string :=
  match bs with
  | [] => EmptyString
  | b :: r => String (hex_digit (Z.shiftr b 4)) (String (hex_digit (Z.land b 15)) (hex r))
  end.

(* ================================================================== *)
(** ** [Map]: the metadata cache

    Insertion-ordered; keys are compared by SameValueZero (the two zeros
    are one key).  Arrays and objects as keys are compared by structure. *)

Module JSMap.

Definition t := list (JS.value * JS.value).

Definition norm (k : JS.value) : JS.value :=
  match k with
  | JS.Num (S754_zero _) => JS.Num (S754_zero false)
  | _ => k
  end.

Definition key_eqb (a b : JS.value) : bool := JS.eqb (norm a) (norm b).

Fixpoint has (m : t) (k : JS.value) : bool :=
  match m with
  | [] => false
  | (k', _) :: r => if key_eqb k' k then true else has r k
  end.

Fixpoint get (m : t) (k : JS.value) : JS.value :=
  match m with
  | [] => JS.Undefined
  | (k', v) :: r => if key_eqb k' k then v else get r k
  end.

Fixpoint set (m : t) (k v : JS.value) : t :=
  match m with
  | [] => [(k, v)]
  | (k', v') :: r => if key_eqb k' k then (k', v) :: r else (k', v') :: set r k v
  end.

Fixpoint delete (m : t) (k : JS.value) : t :=
  match m with
  | [] => []
  | (k', v') :: r => if key_eqb k' k then delete r k else (k', v') :: delete r k
  end.

End JSMap.

(* ================================================================== *)
(** ** The world around the gateway *)

(** What [request] sends; headers and bodies are left out, the replies
    below do not depend on them. *)
Record Request := mkRequest { req_method : string; req_url : string }.

(** The text of a reply: empty, the text of a JSON value, or text that
    [JSON.parse] rejects. *)
Inductive Body := NoBody | Json (v : JS.value) | Malformed.

Inductive Reply :=
| Unreachable                              (* [fetch] rejects *)
| Response (status : Z) (body : Body).

Inductive Event :=
| onPaymentCreated | onPaymentCompleted | onPaymentFailed | onPaymentCancelled
| onSubscriptionCreated | onSubscriptionActivated | onSubscriptionCancelled
| onError.

(** A thrown [Error]: [message], and [response] (undefined unless
    [request] attached the provider's body). *)
Record Error := mkError { message : string; response : JS.value }.

Record World := mkWorld {
  clock : Z;                               (* [Date.now()], milliseconds *)
  network : list (N * Reply);              (* replies to come, each after a delay *)
  dice : list Z;                           (* [Math.random()] draws to come *)
  metadataCache : JSMap.t;                 (* [this.metadataCache] *)
  timers : list (Z * JS.value);            (* pending [setTimeout]s: due time, key to delete *)
  tokenCache : JS.value;                   (* [this.tokenCache] *)
  tokenExpiry : option Z;                  (* [this.tokenExpiry], [None] is null *)
  requests : list Request;                 (* requests sent, newest first *)
  emitted : list (Event * JS.value);       (* [emit] calls, newest first *)
  console : list JS.value                  (* [console.error] lines, newest first *)
}.

Definition set_clock (x : Z) (w : World) : World :=
  mkWorld x (network w) (dice w) (metadataCache w) (timers w) (tokenCache w)
          (tokenExpiry w) (requests w) (emitted w) (console w).
Definition set_network (x : list (N * Reply)) (w : World) : World :=
  mkWorld (clock w) x (dice w) (metadataCache w) (timers w) (tokenCache w)
          (tokenExpiry w) (requests w) (emitted w) (console w).
Definition set_dice (x : list Z) (w : World) : World :=
  mkWorld (clock w) (network w) x (metadataCache w) (timers w) (tokenCache w)
          (tokenExpiry w) (requests w) (emitted w) (console w).
Definition set_metadataCache (x : JSMap.t) (w : World) : World :=
  mkWorld (clock w) (network w) (dice w) x (timers w) (tokenCache w)
          (tokenExpiry w) (requests w) (emitted w) (console w).
Definition set_timers (x : list (Z * JS.value)) (w : World) : World :=
  mkWorld (clock w) (network w) (dice w) (metadataCache w) x (tokenCache w)
          (tokenExpiry w) (requests w) (emitted w) (console w).
Definition set_tokenCache (x : JS.value) (w : World) : World :=
  mkWorld (clock w) (network w) (dice w) (metadataCache w) (timers w) x
          (tokenExpiry w) (requests w) (emitted w) (console w).
Definition set_tokenExpiry (x : option Z) (w : World) : World :=
  mkWorld (clock w) (network w) (dice w) (metadataCache w) (timers w) (tokenCache w)
          x (requests w) (emitted w) (console w).
Definition set_requests (x : list Request) (w : World) : World :=
  mkWorld (clock w) (network w) (dice w) (metadataCache w) (timers w) (tokenCache w)
          (tokenExpiry w) x (emitted w) (console w).
Definition set_emitted (x : list (Event * JS.value)) (w : World) : World :=
  mkWorld (clock w) (network w) (dice w) (metadataCache w) (timers w) (tokenCache w)
          (tokenExpiry w) (requests w) x (console w).
Definition set_console (x : list JS.value) (w : World) : World :=
  mkWorld (clock w) (network w) (dice w) (metadataCache w) (timers w) (tokenCache w)
          (tokenExpiry w) (requests w) (emitted w) x.

(** *** State and exceptions *)

Inductive Result (A : Type) :=
| Ok (a : A)
| Throw (e : Error).
Arguments Ok {A} a.
Arguments Throw {A} e.

Definition M (A : Type) : Type := World -> Result A * World.

Definition ret {A} (a : A) : M A := fun w => (Ok a, w).

Definition throw {A} (e : Error) : M A := fun w => (Throw e, w).

Definition bind {A B} (m : M A) (k : A -> M B) : M B :=
  fun w =>
    match m w with
    | (Ok a, w') => k a w'
    | (Throw e, w') => (Throw e, w')
    end.

(** [try { body } catch (error) { handler }] *)
Definition try_catch {A} (body : M A) (handler : Error -> M A) : M A :=
  fun w =>
    match body w with
    | (Ok a, w') => (Ok a, w')
    | (Throw e, w') => handler e w'
    end.

Definition modify (f : World -> World) : M unit := fun w => (Ok tt, f w).

Definition read {A} (f : World -> A) : M A := fun w => (Ok (f w), w).

Notation "x <- m ;; k" := (bind m (fun x => k))
  (at level 61, m at next level, right associativity).
Notation "m ;;; k" := (bind m (fun _ => k))
  (at level 61, right associativity).

(** [new Error(msg)] *)
Definition plain_error (msg : string) : Error := mkError msg JS.Undefined.

(** [receiver.k], a TypeError on undefined and null. *)
Definition prop (receiver : JS.value) (k : string) : M JS.value :=
  if JS.nullish receiver
  then throw (plain_error ("Cannot read properties of undefined (reading '" ++ k ++ "')"))
  else ret (JS.get receiver k).

(** [error.response || error.message] *)
Definition error_detail (e : Error) : JS.value :=
  JS.or_else (response e) (JS.Str (message e)).

(** *** Timers and the clock *)

Definition due (now : Z) (t : Z * JS.value) : bool := fst t <=? now.

(** The timers whose time has come run: each deletes its key. *)
Definition fire_timers (w : World) : World :=
  let now := clock w in
  set_timers (filter (fun t => negb (due now t)) (timers w))
    (set_metadataCache
       (fold_left (fun m t => JSMap.delete m (snd t))
                  (filter (due now) (timers w)) (metadataCache w))
       w).

(** Time passes while the gateway waits: the clock moves on and the
    timers that are due run. *)
Definition elapse (dt : N) (w : World) : World :=
  fire_timers (set_clock (clock w + Z.of_N dt) w).

(** [setTimeout(() => this.metadataCache.delete(key), ms)] *)
Definition setTimeout_delete (key : JS.value) (ms : Z) : M unit :=
  modify (fun w => set_timers ((clock w + ms, key) :: timers w) w).

(* ================================================================== *)
(** ** The gateway: [class dSyncPay] *)

(** A host callback either returns or throws (or rejects). *)
Inductive Outcome := Returns | Throws (err : JS.value).

Definition Callbacks := Event -> option (JS.value -> Outcome).

Record PayPalConfig := mkPayPalConfig {
  clientId : string;
  clientSecret : string;
  sandbox : bool
}.

(** The arguments of [createOrder]; [description], [returnUrl] and
    [cancelUrl] only travel in the request body and are left out. *)
Record OrderArgs := mkOrderArgs {
  order_title : option string;
  order_price : option JS.number;
  order_quantity : option JS.number;       (* default 1 *)
  order_currency : option string;          (* default 'EUR' *)
  order_customId : option string;          (* default [generateId()] *)
  order_metadata : option JS.value         (* default {} *)
}.

Record PlanArgs := mkPlanArgs {
  plan_name : option string;
  plan_price : option JS.number;
  plan_currency : option string;           (* default 'EUR' *)
  plan_interval : option string;           (* default 'MONTH' *)
  plan_frequency : option JS.number        (* default 1 *)
}.

Record SubscriptionArgs := mkSubscriptionArgs {
  sub_planId : option string;
  sub_customId : option string;            (* default [generateId()] *)
  sub_metadata : option JS.value           (* default {} *)
}.

Record ChargeArgs := mkChargeArgs {
  charge_title : option string;
  charge_price : option JS.number;
  charge_quantity : option JS.number;      (* default 1 *)
  charge_currency : option string;         (* default 'EUR' *)
  charge_metadata : option JS.value        (* default {} *)
}.

(** A parameter with a default value. *)
Definition default {A} (d : A) (o : option A) : A :=
  match o with
  | Some a => a
  | None => d
  end.

(** [!s] and [!x] for an optional string or number parameter. *)
Definition missing_string (o : option string) : bool :=
  match o with
  | Some s => String.eqb s EmptyString
  | None => true
  end.

Definition missing_number (o : option JS.number) : bool :=
  match o with
  | Some x => negb (JS.num_truthy x)
  | None => true
  end.

Definition one : JS.number := JS.of_Z 1.

Definition hour : Z := 60 * 60 * 1000.

Section Gateway.

Variable callbacks : Callbacks.

(** [emit(event, data)]: the callback, when there is one, runs inside
    [try]; what it throws goes to [console.error]. *)
Definition emit (event : Event) (data : JS.value) : M unit :=
  modify (fun w => set_emitted ((event, data) :: emitted w) w) ;;;
  match callbacks event with
  | Some callback =>
      match callback data with
      | Returns => ret tt
      | Throws err =>
          modify (fun w => set_console (JS.Arr [JS.Str "callback error:"; err] :: console w) w)
      end
  | None => ret tt
  end.

(** [Math.floor(Math.random() * 10)]: the next draw, as a digit. *)
Definition random_digit : M Z :=
  fun w =>
    match dice w with
    | d :: r => (Ok (d mod 10), set_dice r w)
    | [] => (Ok 0, w)
    end.

Fixpoint generateId_from (length : nat) (id : string) : M string :=
  match length with
  | O => ret id
  | S n => d <- random_digit ;; generateId_from n (id ++ String (JS.digit_char d) EmptyString)
  end.

Definition generateId : M string := generateId_from 17 EmptyString.

(** [request(url, options)]: one round trip.  The reply comes from the
    script; while the gateway waits the clock moves and due timers run. *)
Definition request (method url : string) : M JS.value :=
  fun w =>
    let w1 := set_requests (mkRequest method url :: requests w) w in
    match network w1 with
    | [] => (Throw (plain_error "fetch failed"), w1)
    | (delay, reply) :: rest =>
        let w2 := elapse delay (set_network rest w1) in
        match reply with
        | Unreachable => (Throw (plain_error "fetch failed"), w2)
        | Response status body =>
            match body with
            | Malformed => (Throw (plain_error "Unexpected token in JSON"), w2)
            | _ =>
                let parsed := match body with Json v => v | _ => JS.Null end in
                if (200 <=? status) && (status <=? 299)
                then (Ok parsed, w2)
                else (Throw (mkError ("http error: " ++ JS.print_nat status) parsed), w2)
            end
        end
    end.

Definition cache_set (key v : JS.value) : M unit :=
  modify (fun w => set_metadataCache (JSMap.set (metadataCache w) key v) w).

Definition cache_delete (key : JS.value) : M unit :=
  modify (fun w => set_metadataCache (JSMap.delete (metadataCache w) key) w).

(** [this.parent.metadataCache.get(key) || {}] *)
Definition cache_get_or_empty (key : JS.value) : M JS.value :=
  read (fun w => JS.or_else (JSMap.get (metadataCache w) key) (JS.Obj [])).

(** [links.find(link => link.rel === "approve")] *)
Fixpoint find_approve (links : list JS.value) : M JS.value :=
  match links with
  | [] => ret JS.Undefined
  | link :: r =>
      rel <- prop link "rel" ;;
      if JS.str_is rel "approve" then ret link else find_approve r
  end.

Definition approve_link (resp : JS.value) : M JS.value :=
  links <- prop resp "links" ;;
  found <- match links with
           | JS.Arr l => find_approve l
           | JS.Undefined | JS.Null =>
               throw (plain_error "Cannot read properties of undefined (reading 'find')")
           | _ => throw (plain_error "response.links.find is not a function")
           end ;;
  prop found "href".

(* ------------------------------------------------------------------ *)
(** *** [PayPal] *)

Section PayPal.

Variable config : PayPalConfig.

Definition baseUrl : string :=
  if sandbox config then "https://api-m.sandbox.paypal.com" else "https://api-m.paypal.com".

(** [this.tokenExpiry > Date.now()]; null compares as 0. *)
Definition expiry_after (expiry : option Z) (now : Z) : bool :=
  now <? default 0 expiry.

Definition getAccessToken : M JS.value :=
  fun w =>
    if JS.truthy (tokenCache w) && expiry_after (tokenExpiry w) (clock w)
    then (Ok (tokenCache w), w)
    else
      try_catch
        (resp <- request "POST" (baseUrl ++ "/v1/oauth2/token?grant_type=client_credentials") ;;
         token <- prop resp "access_token" ;;
         modify (set_tokenCache token) ;;;
         modify (fun w => set_tokenExpiry (Some (clock w + hour)) w) ;;;
         read tokenCache)
        (fun error =>
           emit onError (JS.Obj [("type", JS.Str "auth"); ("provider", JS.Str "paypal");
                                 ("error", error_detail error)]) ;;;
           throw error)
        w.

Definition createOrder (a : OrderArgs) : M JS.value :=
  customId <- match order_customId a with
              | Some c => ret c
              | None => generateId
              end ;;
  let quantity := default one (order_quantity a) in
  let currency := default "EUR" (order_currency a) in
  let metadata := default (JS.Obj []) (order_metadata a) in
  if missing_string (order_title a) then throw (plain_error "missing title") else
  if missing_number (order_price a) then throw (plain_error "missing price") else
  let price := default S754_nan (order_price a) in
  accessToken <- getAccessToken ;;
  let totalAmount := JS.toFixed2 (JS.mul price quantity) in
  try_catch
    (resp <- request "POST" (baseUrl ++ "/v2/checkout/orders") ;;
     approvalUrl <- approve_link resp ;;
     let id := JS.get resp "id" in
     let result :=
       JS.Obj [("provider", JS.Str "paypal"); ("type", JS.Str "order");
               ("approvalUrl", approvalUrl); ("transactionId", JS.Str customId);
               ("orderId", id); ("amount", JS.Num (JS.parseFloat (JS.Str totalAmount)));
               ("currency", JS.Str currency); ("metadata", metadata);
               ("rawResponse", resp)] in
     cache_set id metadata ;;;
     setTimeout_delete id hour ;;;
     emit onPaymentCreated result ;;;
     ret result)
    (fun error =>
       emit onError (JS.Obj [("type", JS.Str "order_creation"); ("provider", JS.Str "paypal");
                             ("error", error_detail error)]) ;;;
       throw error).

Definition verifyOrder (orderId : string) : M JS.value :=
  accessToken <- getAccessToken ;;
  try_catch
    (first <- request "GET" (baseUrl ++ "/v2/checkout/orders/" ++ orderId) ;;
     status0 <- prop first "status" ;;
     final <- (if JS.str_is status0 "APPROVED" then
                 captureResponse <-
                   request "POST" (baseUrl ++ "/v2/checkout/orders/" ++ orderId ++ "/capture") ;;
                 status1 <- prop captureResponse "status" ;;
                 ret (status1, captureResponse)
               else ret (status0, first)) ;;
     let orderStatus := fst final in
     let orderResponse := snd final in
     let purchaseUnit :=
       JS.or_else (JS.opt_item0 (JS.get orderResponse "purchase_units")) (JS.Obj []) in
     let capture := JS.opt_item0 (JS.opt_get (JS.get purchaseUnit "payments") "captures") in
     picked <- (if JS.truthy capture then
                  v <- prop (JS.get capture "amount") "value" ;;
                  ret (JS.parseFloat v,
                       JS.or_else (JS.get capture "custom_id") (JS.get purchaseUnit "custom_id"))
                else if JS.truthy (JS.opt_get (JS.get purchaseUnit "amount") "value") then
                  ret (JS.parseFloat (JS.get (JS.get purchaseUnit "amount") "value"),
                       JS.get purchaseUnit "custom_id")
                else ret (S754_zero false, JS.get purchaseUnit "custom_id")) ;;
     let amount := fst picked in
     let customId := snd picked in
     metadata <- cache_get_or_empty (JS.Str orderId) ;;
     let result :=
       JS.Obj [("provider", JS.Str "paypal"); ("type", JS.Str "order");
               ("status", orderStatus); ("transactionId", customId);
               ("orderId", JS.get orderResponse "id"); ("amount", JS.Num amount);
               ("currency",
                JS.or_else
                  (JS.or_else (JS.opt_get (JS.opt_get capture "amount") "currency_code")
                              (JS.opt_get (JS.get purchaseUnit "amount") "currency_code"))
                  (JS.Str "EUR"));
               ("metadata", metadata); ("rawResponse", orderResponse)] in
     (if JS.str_is orderStatus "COMPLETED" then emit onPaymentCompleted result
      else if JS.str_is orderStatus "VOIDED" || JS.str_is orderStatus "CANCELLED"
           then emit onPaymentCancelled result
           else emit onPaymentFailed result) ;;;
     cache_delete (JS.Str orderId) ;;;
     ret result)
    (fun error =>
       emit onError (JS.Obj [("type", JS.Str "order_verification"); ("provider", JS.Str "paypal");
                             ("orderId", JS.Str orderId); ("error", error_detail error)]) ;;;
       cache_delete (JS.Str orderId) ;;;
       throw error).

Definition createProduct : M JS.value :=
  accessToken <- getAccessToken ;;
  resp <- request "POST" (baseUrl ++ "/v1/catalogs/products") ;;
  prop resp "id".

Definition createPlan (a : PlanArgs) : M JS.value :=
  let currency := default "EUR" (plan_currency a) in
  let interval := default "MONTH" (plan_interval a) in
  let frequency := default one (plan_frequency a) in
  if missing_string (plan_name a) then throw (plain_error "missing name") else
  if missing_number (plan_price a) then throw (plain_error "missing price") else
  let name := default EmptyString (plan_name a) in
  let price := default S754_nan (plan_price a) in
  accessToken <- getAccessToken ;;
  productId <- createProduct ;;
  try_catch
    (resp <- request "POST" (baseUrl ++ "/v1/billing/plans") ;;
     planId <- prop resp "id" ;;
     ret (JS.Obj [("provider", JS.Str "paypal"); ("type", JS.Str "subscription_plan");
                  ("planId", planId); ("name", JS.Str name);
                  ("price", JS.Num (JS.parseFloat (JS.Num price)));
                  ("currency", JS.Str currency); ("interval", JS.Str interval);
                  ("frequency", JS.Num frequency); ("rawResponse", resp)]))
    (fun error =>
       emit onError (JS.Obj [("type", JS.Str "plan_creation"); ("provider", JS.Str "paypal");
                             ("error", error_detail error)]) ;;;
       throw error).

Definition createSubscription (a : SubscriptionArgs) : M JS.value :=
  customId <- match sub_customId a with
              | Some c => ret c
              | None => generateId
              end ;;
  let metadata := default (JS.Obj []) (sub_metadata a) in
  if missing_string (sub_planId a) then throw (plain_error "missing planId") else
  let planId := default EmptyString (sub_planId a) in
  accessToken <- getAccessToken ;;
  try_catch
    (resp <- request "POST" (baseUrl ++ "/v1/billing/subscriptions") ;;
     approvalUrl <- approve_link resp ;;
     let id := JS.get resp "id" in
     let result :=
       JS.Obj [("provider", JS.Str "paypal"); ("type", JS.Str "subscription");
               ("approvalUrl", approvalUrl); ("transactionId", JS.Str customId);
               ("subscriptionId", id); ("planId", JS.Str planId);
               ("metadata", metadata); ("rawResponse", resp)] in
     cache_set id metadata ;;;
     setTimeout_delete id hour ;;;
     emit onSubscriptionCreated result ;;;
     ret result)
    (fun error =>
       emit onError (JS.Obj [("type", JS.Str "subscription_creation");
                             ("provider", JS.Str "paypal"); ("error", error_detail error)]) ;;;
       throw error).

Definition verifySubscription (subscriptionId : string) : M JS.value :=
  accessToken <- getAccessToken ;;
  try_catch
    (resp <- request "GET" (baseUrl ++ "/v1/billing/subscriptions/" ++ subscriptionId) ;;
     metadata <- cache_get_or_empty (JS.Str subscriptionId) ;;
     status <- prop resp "status" ;;
     let result :=
       JS.Obj [("provider", JS.Str "paypal"); ("type", JS.Str "subscription");
               ("status", status); ("subscriptionId", JS.get resp "id");
               ("planId", JS.get resp "plan_id"); ("customId", JS.get resp "custom_id");
               ("metadata", metadata); ("rawResponse", resp)] in
     (if JS.str_is status "ACTIVE" then emit onSubscriptionActivated result
      else if JS.str_is status "CANCELLED" then emit onSubscriptionCancelled result
      else ret tt) ;;;
     cache_delete (JS.Str subscriptionId) ;;;
     ret result)
    (fun error =>
       emit onError (JS.Obj [("type", JS.Str "subscription_verification");
                             ("provider", JS.Str "paypal");
                             ("subscriptionId", JS.Str subscriptionId);
                             ("error", error_detail error)]) ;;;
       cache_delete (JS.Str subscriptionId) ;;;
       throw error).

Definition cancelSubscription (subscriptionId : string) (reason : option string) : M JS.value :=
  let reason := default "customer request" reason in
  accessToken <- getAccessToken ;;
  try_catch
    (request "POST" (baseUrl ++ "/v1/billing/subscriptions/" ++ subscriptionId ++ "/cancel") ;;;
     metadata <- cache_get_or_empty (JS.Str subscriptionId) ;;
     let result :=
       JS.Obj [("provider", JS.Str "paypal"); ("type", JS.Str "subscription");
               ("subscriptionId", JS.Str subscriptionId); ("status", JS.Str "CANCELLED");
               ("reason", JS.Str reason); ("metadata", metadata)] in
     cache_delete (JS.Str subscriptionId) ;;;
     emit onSubscriptionCancelled result ;;;
     ret result)
    (fun error =>
       emit onError (JS.Obj [("type", JS.Str "subscription_cancellation");
                             ("provider", JS.Str "paypal");
                             ("subscriptionId", JS.Str subscriptionId);
                             ("error", error_detail error)]) ;;;
       cache_delete (JS.Str subscriptionId) ;;;
       throw error).

End PayPal.

(* ------------------------------------------------------------------ *)
(** *** [Coinbase] *)

Section Coinbase.

Definition coinbaseUrl : string := "https://api.commerce.coinbase.com".

Definition createCharge (a : ChargeArgs) : M JS.value :=
  let quantity := default one (charge_quantity a) in
  let currency := default "EUR" (charge_currency a) in
  let metadata := default (JS.Obj []) (charge_metadata a) in
  if missing_string (charge_title a) then throw (plain_error "missing title") else
  if missing_number (charge_price a) then throw (plain_error "missing price") else
  let price := default S754_nan (charge_price a) in
  let totalAmount := JS.toFixed2 (JS.mul price quantity) in
  try_catch
    (resp <- request "POST" (coinbaseUrl ++ "/charges") ;;
     charge <- prop resp "data" ;;
     hostedUrl <- prop charge "hosted_url" ;;
     let result :=
       JS.Obj [("provider", JS.Str "coinbase"); ("type", JS.Str "charge");
               ("hostedUrl", hostedUrl); ("chargeId", JS.get charge "id");
               ("chargeCode", JS.get charge "code");
               ("amount", JS.Num (JS.parseFloat (JS.Str totalAmount)));
               ("currency", JS.Str currency); ("metadata", metadata);
               ("rawResponse", charge)] in
     emit onPaymentCreated result ;;;
     ret result)
    (fun error =>
       emit onError (JS.Obj [("type", JS.Str "charge_creation"); ("provider", JS.Str "coinbase");
                             ("error", error_detail error)]) ;;;
       throw error).

Definition verifyCharge (chargeId : string) : M JS.value :=
  try_catch
    (resp <- request "GET" (coinbaseUrl ++ "/charges/" ++ chargeId) ;;
     charge <- prop resp "data" ;;
     timeline <- prop charge "timeline" ;;
     latest <- (if JS.nullish timeline
                then throw (plain_error "Cannot read properties of undefined (reading 'length')")
                else ret (JS.last_item timeline)) ;;
     let latestStatus := JS.opt_get latest "status" in
     local <- prop (JS.get charge "pricing") "local" ;;
     amount <- prop local "amount" ;;
     let result :=
       JS.Obj [("provider", JS.Str "coinbase"); ("type", JS.Str "charge");
               ("status", latestStatus); ("chargeId", JS.get charge "id");
               ("chargeCode", JS.get charge "code");
               ("amount", JS.Num (JS.parseFloat amount));
               ("currency", JS.get local "currency");
               ("metadata", JS.get charge "metadata"); ("rawResponse", charge)] in
     (if JS.str_is latestStatus "COMPLETED" then emit onPaymentCompleted result
      else if JS.str_is latestStatus "CANCELED" then emit onPaymentCancelled result
      else if JS.str_is latestStatus "EXPIRED" || JS.str_is latestStatus "UNRESOLVED"
           then emit onPaymentFailed result
           else ret tt) ;;;
     ret result)
    (fun error =>
       emit onError (JS.Obj [("type", JS.Str "charge_verification");
                             ("provider", JS.Str "coinbase");
                             ("chargeId", JS.Str chargeId); ("error", error_detail error)]) ;;;
       throw error).

End Coinbase.

End Gateway.

(** [verifyWebhook(payload, signature, secret)].  [createHmac] takes a
    string key and [update] takes string data (buffers are not among
    the values here); anything else is a TypeError thrown to the
    caller. *)
Definition verifyWebhook (payload signature secret : JS.value) : Result bool :=
  match secret with
  | JS.Str key =>
      match payload with
      | JS.Str data =>
          let computedSignature :=
            hex (Hmac.hmac_sha256 (bytes_of_string key) (bytes_of_string data)) in
          Ok (JS.str_is signature computedSignature)
      | _ => Throw (plain_error "The data argument must be of type string or an instance of Buffer, TypedArray, or DataView.")
      end
  | _ => Throw (plain_error "The key argument must be of type string or an instance of ArrayBuffer, Buffer, TypedArray, DataView, KeyObject, or CryptoKey.")
  end.

(* ================================================================== *)
(** ** Values as text: ToString, [URLSearchParams], [JSON.stringify] *)

Module JSText.

(** The position [n] of the decimal point of [num / den] below 1:
    [10^(n-1) <= num / den < 10^n]. *)
Fixpoint point_below (fuel : nat) (num den n : Z) : Z :=
  match fuel with
  | O => n
  | S fuel' => if den <=? num * 10 then n else point_below fuel' (num * 10) den (n - 1)
  end.

Definition point (num den : Z) : Z :=
  if den <=? num then JS.ndigits (num / den) else point_below 400 num den 0.

(** The fewest digits [s] (there are [k]) with [s * 10^(n-k)] read back
    as [x = num / den]; the closest such [s], the even one on a tie. *)
Fixpoint shortest (fuel : nat) (k : Z) (x : JS.number) (num den n : Z) : Z * Z :=
  match fuel with
  | O => (0, n)
  | S fuel' =>
      let X := if 0 <=? k - n then num * 10 ^ (k - n) else num in
      let D := if 0 <=? k - n then den else den * 10 ^ (n - k) in
      let lo := X / D in
      let hi := lo + 1 in
      let lo_ok := JS.reads_back x lo (n - k) in
      let hi_ok := JS.reads_back x hi (n - k) in
      let pick_hi := if Z.eqb hi (10 ^ k) then (10 ^ (k - 1), n + 1) else (hi, n) in
      if lo_ok && hi_ok then
        match Z.compare (2 * (X - lo * D)) D with
        | Lt => (lo, n)
        | Gt => pick_hi
        | Eq => if Z.even lo then (lo, n) else pick_hi
        end
      else if lo_ok then (lo, n)
      else if hi_ok then pick_hi
      else shortest fuel' (k + 1) x num den n
  end.

Fixpoint zeros (n : nat) : string :=
  match n with
  | O => EmptyString
  | S n' => String "0" (zeros n')
  end.

(** The digits [ds] (there are [k]) with the decimal point after the
    first [n]: plain up to 21 digits before the point and down to six
    zeros after it, exponent form otherwise. *)
Definition place (ds : string) (n : Z) : string :=
  let k := Z.of_nat (String.length ds) in
  if (k <=? n) && (n <=? 21) then ds ++ zeros (Z.to_nat (n - k))
  else if (0 <? n) && (n <=? 21) then
    substring 0 (Z.to_nat n) ds ++ "." ++ substring (Z.to_nat n) (Z.to_nat (k - n)) ds
  else if (-6 <? n) && (n <=? 0) then "0." ++ zeros (Z.to_nat (- n)) ++ ds
  else
    let e := n - 1 in
    let mantissa :=
      match ds with
      | String c EmptyString => ds
      | String c r => String c ("." ++ r)
      | EmptyString => ds
      end in
    mantissa ++ "e" ++ (if e <? 0 then "-" else "+") ++ JS.print_nat (Z.abs e).

(** Number::toString *)
Definition number_to_string (x : JS.number) : string :=
  match x with
  | S754_nan => "NaN"
  | S754_zero _ => "0"
  | S754_infinity s => if s then "-Infinity" else "Infinity"
  | S754_finite s m e =>
      let num := JS.exact_num m e in
      let den := JS.exact_den e in
      let '(d, n) := shortest 17 1 (S754_finite false m e) num den (point num den) in
      (if s then "-" else EmptyString) ++ place (JS.print_nat d) n
  end.

Fixpoint join (sep : string) (l : list string) : string :=
  match l with
  | [] => EmptyString
  | [s] => s
  | s :: r => s ++ sep ++ join sep r
  end.

(** ToString, as a template literal and [URLSearchParams] apply it: an
    array prints its elements joined by commas (undefined and null as
    nothing), a plain object prints as [[object Object]]. *)
Fixpoint to_string (v : JS.value) : string :=
  match v with
  | JS.Undefined => "undefined"
  | JS.Null => "null"
  | JS.Bool b => if b then "true" else "false"
  | JS.Num x => number_to_string x
  | JS.Str s => s
  | JS.Arr l =>
      join ","
        (map (fun x => match x with
                       | JS.Undefined | JS.Null => EmptyString
                       | _ => to_string x
                       end) l)
  | JS.Obj _ => "[object Object]"
  end.

Definition upper_hex_digit (n : Z) : ascii :=
  ascii_of_nat (Z.to_nat (if n <? 10 then 48 + n else 55 + n)).

(** The application/x-www-form-urlencoded serializer, byte by byte:
    letters, digits and [*-._] stay, a space becomes [+], any other byte
    is percent-encoded in upper-case hex. *)
Definition form_safe (n : Z) : bool :=
  ((48 <=? n) && (n <=? 57)) || ((65 <=? n) && (n <=? 90)) || ((97 <=? n) && (n <=? 122))
  || (n =? 42) || (n =? 45) || (n =? 46) || (n =? 95).

Fixpoint form_encode (s : string) : string :=
  match s with
  | EmptyString => EmptyString
  | String c r =>
      let n := Z.of_nat (nat_of_ascii c) in
      if form_safe n then String c (form_encode r)
      else if n =? 32 then String "+" (form_encode r)
      else String "%" (String (upper_hex_digit (Z.shiftr n 4))
                         (String (upper_hex_digit (Z.land n 15)) (form_encode r)))
  end.

(** [new URLSearchParams(object).toString()]: the properties in order,
    each value through ToString. *)
Definition URLSearchParams (params : list (string * JS.value)) : string :=
  join "&" (map (fun p => form_encode (fst p) ++ "=" ++ form_encode (to_string (snd p))) params).

(** [JSON.stringify]: the text of a value, none for undefined. *)
Definition double_quote : string := String (ascii_of_nat 34) EmptyString.
Definition backslash : string := String (ascii_of_nat 92) EmptyString.

Definition json_escape (c : ascii) : string :=
  let n := Z.of_nat (nat_of_ascii c) in
  if n =? 34 then backslash ++ double_quote
  else if n =? 92 then backslash ++ backslash
  else if n =? 8 then backslash ++ "b"
  else if n =? 9 then backslash ++ "t"
  else if n =? 10 then backslash ++ "n"
  else if n =? 12 then backslash ++ "f"
  else if n =? 13 then backslash ++ "r"
  else if n <? 32 then
    backslash ++ "u00" ++ String (hex_digit (Z.shiftr n 4)) (String (hex_digit (Z.land n 15)) EmptyString)
  else String c EmptyString.

Definition json_quote (s : string) : string :=
  double_quote ++ String.concat EmptyString (map json_escape (list_ascii_of_string s))
  ++ double_quote.

Definition number_finite (x : JS.number) : bool :=
  match x with
  | S754_nan | S754_infinity _ => false
  | _ => true
  end.

Fixpoint json (v : JS.value) : option string :=
  match v with
  | JS.Undefined => None
  | JS.Null => Some "null"
  | JS.Bool b => Some (if b then "true" else "false")
  | JS.Num x => Some (if number_finite x then number_to_string x else "null")
  | JS.Str s => Some (json_quote s)
  | JS.Arr l =>
      Some ("[" ++ join "," (map (fun x => match json x with
                                           | Some t => t
                                           | None => "null"
                                           end) l) ++ "]")
  | JS.Obj ps =>
      Some ("{" ++ join ","
                     (flat_map (fun p => match json (snd p) with
                                         | Some t => [json_quote (fst p) ++ ":" ++ t]
                                         | None => []
                                         end) ps) ++ "}")
  end.

Definition JSON_stringify (v : JS.value) : JS.value :=
  match json v with
  | Some t => JS.Str t
  | None => JS.Undefined
  end.

End JSText.

(* ================================================================== *)
(** ** The constructor and the utilities *)

(** [sha256(data)]: [createHash("sha256").update(data).digest("hex")];
    [update] takes string data (buffers are not among the values here),
    anything else is a TypeError. *)
Definition sha256 (data : JS.value) : Result string :=
  match data with
  | JS.Str s => Ok (hex (Sha256.digest (bytes_of_string s)))
  | _ => Throw (plain_error "The data argument must be of type string or an instance of Buffer, TypedArray, or DataView.")
  end.

(** [redirects]: where the buyer is sent in the end. *)
Record Redirects := mkRedirects {
  redirect_success : string;
  redirect_error : string;
  redirect_cancelled : string;
  redirect_subscriptionSuccess : string;
  redirect_subscriptionError : string
}.

Definition default_redirects : Redirects :=
  mkRedirects "/payment-success" "/payment-error" "/payment-cancelled"
              "/subscription-success" "/subscription-error".

(** The [paypal] and [coinbase] options as the host writes them. *)
Record PayPalOptions := mkPayPalOptions {
  paypal_clientId : option string;
  paypal_clientSecret : option string;
  paypal_sandbox : bool
}.

Record CoinbaseOptions := mkCoinbaseOptions {
  coinbase_apiKey : option string;
  coinbase_webhookSecret : option string
}.

Record Options := mkOptions {
  options_app : bool;                             (* an express app is given *)
  options_domain : option string;
  options_basePath : option string;               (* default '/payments' *)
  options_redirects : option Redirects;
  options_paypal : option PayPalOptions;
  options_coinbase : option CoinbaseOptions;
  options_callbacks : Callbacks
}.

Record CoinbaseConfig := mkCoinbaseConfig {
  apiKey : string;
  webhookSecret : option string
}.

(** The gateway the constructor builds. *)
Record Gateway := mkGateway {
  domain : string;
  basePath : string;
  redirects : Redirects;
  gateway_callbacks : Callbacks;
  paypal : option PayPalConfig;
  coinbase : option CoinbaseConfig
}.

(** [s.endsWith('/')] and [s.slice(0, -1)] *)
Fixpoint endsWith_slash (s : string) : bool :=
  match s with
  | EmptyString => false
  | String c EmptyString => Ascii.eqb c "/"
  | String _ r => endsWith_slash r
  end.

Fixpoint slice_but_last (s : string) : string :=
  match s with
  | EmptyString => EmptyString
  | String c EmptyString => EmptyString
  | String c r => String c (slice_but_last r)
  end.

(** [new dSyncPay(options)]; [web] tells whether the [web] folder is
    next to the module.  The checks run in this order. *)
Definition constructor (web : bool) (o : Options) : Result Gateway :=
  if negb (options_app o) then Throw (plain_error "missing express app instance") else
  if missing_string (options_domain o) then Throw (plain_error "missing domain") else
  let given := default EmptyString (options_domain o) in
  let domain := if endsWith_slash given then slice_but_last given else given in
  let basePath := default "/payments" (options_basePath o) in
  let redirects := default default_redirects (options_redirects o) in
  if negb web then Throw (plain_error "missing web path") else
  match
    match options_paypal o with
    | Some p =>
        if missing_string (paypal_clientId p) then Throw (plain_error "missing paypal.clientId")
        else if missing_string (paypal_clientSecret p)
        then Throw (plain_error "missing paypal.clientSecret")
        else Ok (Some (mkPayPalConfig (default EmptyString (paypal_clientId p))
                                      (default EmptyString (paypal_clientSecret p))
                                      (paypal_sandbox p)))
    | None => Ok None
    end
  with
  | Throw e => Throw e
  | Ok paypal =>
      match
        match options_coinbase o with
        | Some c =>
            if missing_string (coinbase_apiKey c) then Throw (plain_error "missing coinbase.apiKey")
            else Ok (Some (mkCoinbaseConfig (default EmptyString (coinbase_apiKey c))
                                            (coinbase_webhookSecret c)))
        | None => Ok None
        end
      with
      | Throw e => Throw e
      | Ok coinbase =>
          Ok (mkGateway domain basePath redirects (options_callbacks o) paypal coinbase)
      end
  end.

Definition getUrl (g : Gateway) (path : string) : string :=
  domain g ++ basePath g ++ path.

(* ================================================================== *)
(** ** The routes *)

(** A request as express hands it to a handler: the query parameters
    (each given once, so each a string), the headers, the parsed body. *)
Record HttpRequest := mkHttpRequest {
  query : list (string * string);
  headers : list (string * string);
  body : JS.value
}.

(** What a handler answers: [res.redirect(location)],
    [res.status(code).json(value)] or [res.sendFile(path)]. *)
Inductive Answer :=
| Redirect (location : string)
| Status (code : Z) (value : JS.value)
| SendFile (name : string).

Fixpoint lookup (k : string) (ps : list (string * string)) : option string :=
  match ps with
  | [] => None
  | (k', v) :: r => if String.eqb k k' then Some v else lookup k r
  end.

(** [{ ok: false, error }] *)
Definition refusal (error : string) : JS.value :=
  JS.Obj [("ok", JS.Bool false); ("error", JS.Str error)].

(** [verifyCharge(chargeId)] for an identifier of any type, as the
    webhook passes it: the address takes its text, the error record the
    value itself. *)
Definition verifyChargeOf (callbacks : Callbacks) (chargeId : JS.value) : M JS.value :=
  try_catch
    (resp <- request "GET" (coinbaseUrl ++ "/charges/" ++ JSText.to_string chargeId) ;;
     charge <- prop resp "data" ;;
     timeline <- prop charge "timeline" ;;
     latest <- (if JS.nullish timeline
                then throw (plain_error "Cannot read properties of undefined (reading 'length')")
                else ret (JS.last_item timeline)) ;;
     let latestStatus := JS.opt_get latest "status" in
     local <- prop (JS.get charge "pricing") "local" ;;
     amount <- prop local "amount" ;;
     let result :=
       JS.Obj [("provider", JS.Str "coinbase"); ("type", JS.Str "charge");
               ("status", latestStatus); ("chargeId", JS.get charge "id");
               ("chargeCode", JS.get charge "code");
               ("amount", JS.Num (JS.parseFloat amount));
               ("currency", JS.get local "currency");
               ("metadata", JS.get charge "metadata"); ("rawResponse", charge)] in
     (if JS.str_is latestStatus "COMPLETED" then emit callbacks onPaymentCompleted result
      else if JS.str_is latestStatus "CANCELED" then emit callbacks onPaymentCancelled result
      else if JS.str_is latestStatus "EXPIRED" || JS.str_is latestStatus "UNRESOLVED"
           then emit callbacks onPaymentFailed result
           else ret tt) ;;;
     ret result)
    (fun error =>
       emit callbacks onError
            (JS.Obj [("type", JS.Str "charge_verification");
                     ("provider", JS.Str "coinbase");
                     ("chargeId", chargeId); ("error", error_detail error)]) ;;;
       throw error).

(** The handlers of the routes. *)
Inductive Handler :=
| StatusPage
| PayPalVerify (config : PayPalConfig)
| PayPalSubscriptionVerify (config : PayPalConfig)
| Cancel (config : PayPalConfig)
| CoinbaseVerify
| CoinbaseWebhook (secret : string)
| StatusRedirect (status : string) (subscription : bool).

Record Route := mkRoute { route_method : string; route_path : string; route_handler : Handler }.

Section Handlers.

Variable g : Gateway.

(** GET [basePath/paypal/verify] *)
Definition paypalVerifyRoute (config : PayPalConfig) (req : HttpRequest) : M Answer :=
  try_catch
    (let orderId := lookup "token" (query req) in
     if missing_string orderId then ret (Status 400 (refusal "missing_token")) else
     let orderId := default EmptyString orderId in
     result <- verifyOrder (gateway_callbacks g) config orderId ;;
     if JS.str_is (JS.get result "status") "COMPLETED" then
       ret (Redirect (redirect_success (redirects g) ++ "?" ++
                      JSText.URLSearchParams
                        [("payment_id", JS.Str orderId); ("provider", JS.Str "paypal");
                         ("amount", JS.get result "amount");
                         ("currency", JS.get result "currency")]))
     else ret (Redirect (redirect_error (redirects g))))
    (fun error => ret (Redirect (redirect_error (redirects g)))).

(** GET [basePath/paypal/subscription/verify] *)
Definition paypalSubscriptionVerifyRoute (config : PayPalConfig) (req : HttpRequest)
    : M Answer :=
  try_catch
    (let subscriptionId := lookup "subscription_id" (query req) in
     if missing_string subscriptionId
     then ret (Status 400 (refusal "missing_subscription_id")) else
     let subscriptionId := default EmptyString subscriptionId in
     result <- verifySubscription (gateway_callbacks g) config subscriptionId ;;
     if JS.str_is (JS.get result "status") "ACTIVE" then
       ret (Redirect (redirect_subscriptionSuccess (redirects g) ++ "?" ++
                      JSText.URLSearchParams
                        [("payment_id", JS.Str subscriptionId); ("provider", JS.Str "paypal")]))
     else ret (Redirect (redirect_subscriptionError (redirects g))))
    (fun error => ret (Redirect (redirect_subscriptionError (redirects g)))).

(** GET [basePath/cancel] *)
Definition cancelRoute (config : PayPalConfig) (req : HttpRequest) : M Answer :=
  let orderId := lookup "token" (query req) in
  (if missing_string orderId then ret tt
   else try_catch
          (verifyOrder (gateway_callbacks g) config (default EmptyString orderId) ;;; ret tt)
          (fun e => ret tt)) ;;;
  ret (Redirect (redirect_cancelled (redirects g))).

(** GET [basePath/coinbase/verify] *)
Definition coinbaseVerifyRoute (req : HttpRequest) : M Answer :=
  try_catch
    (let chargeCode := lookup "code" (query req) in
     if missing_string chargeCode then ret (Status 400 (refusal "missing_code")) else
     let chargeCode := default EmptyString chargeCode in
     result <- verifyCharge (gateway_callbacks g) chargeCode ;;
     if JS.str_is (JS.get result "status") "COMPLETED" then
       ret (Redirect (redirect_success (redirects g) ++ "?" ++
                      JSText.URLSearchParams
                        [("payment_id", JS.get result "chargeId");
                         ("provider", JS.Str "coinbase");
                         ("amount", JS.get result "amount");
                         ("currency", JS.get result "currency")]))
     else ret (Redirect (redirect_error (redirects g))))
    (fun error => ret (Redirect (redirect_error (redirects g)))).

(** [req.headers[name]] *)
Definition header (name : string) (req : HttpRequest) : JS.value :=
  match lookup name (headers req) with
  | Some v => JS.Str v
  | None => JS.Undefined
  end.

(** POST [basePath/webhook/coinbase] *)
Definition coinbaseWebhookRoute (secret : string) (req : HttpRequest) : M Answer :=
  try_catch
    (let signature := header "x-cc-webhook-signature" req in
     isValid <- (fun w => (verifyWebhook (JSText.JSON_stringify (body req)) signature
                                         (JS.Str secret), w)) ;;
     if negb isValid then ret (Status 401 (refusal "invalid_signature")) else
     let event := body req in
     inner <- prop event "event" ;;
     type <- prop inner "type" ;;
     (if JS.str_is type "charge:confirmed" then
        data <- prop inner "data" ;;
        chargeId <- prop data "id" ;;
        verifyChargeOf (gateway_callbacks g) chargeId ;;; ret tt
      else ret tt) ;;;
     ret (Status 200 (JS.Obj [("ok", JS.Bool true)])))
    (fun error => ret (Status 500 (refusal "webhook_error"))).

(** [{ ...req.query, status, type }]: a property that is there keeps
    its place and takes the new value, a new one goes last. *)
Fixpoint assign (ps : list (string * JS.value)) (k : string) (v : JS.value)
    : list (string * JS.value) :=
  match ps with
  | [] => [(k, v)]
  | (k', v') :: r => if String.eqb k' k then (k', v) :: r else (k', v') :: assign r k v
  end.

Definition status_query (req : HttpRequest) (status : string) (subscription : bool)
    : list (string * JS.value) :=
  let spread := map (fun p => (fst p, JS.Str (snd p))) (query req) in
  let with_status := assign spread "status" (JS.Str status) in
  if subscription then assign with_status "type" (JS.Str "subscription") else with_status.

(** GET [redirects.success] and the four others *)
Definition statusRedirectRoute (status : string) (subscription : bool) (req : HttpRequest)
    : M Answer :=
  ret (Redirect (basePath g ++ "/payment-status.html?" ++
                 JSText.URLSearchParams (status_query req status subscription))).

Definition handle (h : Handler) (req : HttpRequest) : M Answer :=
  match h with
  | StatusPage => ret (SendFile "payment-status.html")
  | PayPalVerify config => paypalVerifyRoute config req
  | PayPalSubscriptionVerify config => paypalSubscriptionVerifyRoute config req
  | Cancel config => cancelRoute config req
  | CoinbaseVerify => coinbaseVerifyRoute req
  | CoinbaseWebhook secret => coinbaseWebhookRoute secret req
  | StatusRedirect status subscription => statusRedirectRoute status subscription req
  end.

(** The routes, in the order the constructor registers them. *)
Definition registerRoutes : list Route :=
  (match paypal g with
   | Some config =>
       [mkRoute "GET" (basePath g ++ "/paypal/verify") (PayPalVerify config);
        mkRoute "GET" (basePath g ++ "/paypal/subscription/verify")
                (PayPalSubscriptionVerify config);
        mkRoute "GET" (basePath g ++ "/cancel") (Cancel config)]
   | None => []
   end ++
   match coinbase g with
   | Some config =>
       mkRoute "GET" (basePath g ++ "/coinbase/verify") CoinbaseVerify ::
       (if missing_string (webhookSecret config) then []
        else [mkRoute "POST" (basePath g ++ "/webhook/coinbase")
                      (CoinbaseWebhook (default EmptyString (webhookSecret config)))])
   | None => []
   end)%list.

Definition registerRedirectRoutes : list Route :=
  [mkRoute "GET" (redirect_success (redirects g)) (StatusRedirect "success" false);
   mkRoute "GET" (redirect_error (redirects g)) (StatusRedirect "error" false);
   mkRoute "GET" (redirect_cancelled (redirects g)) (StatusRedirect "cancelled" false);
   mkRoute "GET" (redirect_subscriptionSuccess (redirects g)) (StatusRedirect "success" true);
   mkRoute "GET" (redirect_subscriptionError (redirects g)) (StatusRedirect "error" true)].

Definition routes : list Route :=
  (mkRoute "GET" (basePath g ++ "/payment-status.html") StatusPage
   :: registerRoutes ++ registerRedirectRoutes)%list.

End Handlers.

(* ================================================================== *)
(** ** Calls made by the host, one after another *)

Inductive Op :=
| GetAccessToken
| CreateOrder (a : OrderArgs)
| VerifyOrder (orderId : string)
| CreatePlan (a : PlanArgs)
| CreateSubscription (a : SubscriptionArgs)
| VerifySubscription (subscriptionId : string)
| CancelSubscription (subscriptionId : string) (reason : option string)
| CreateCharge (a : ChargeArgs)
| VerifyCharge (chargeId : string)
| Wait (dt : N).                           (* nothing is called for [dt] milliseconds *)

Definition run (callbacks : Callbacks) (config : PayPalConfig) (op : Op) : M JS.value :=
  match op with
  | GetAccessToken => getAccessToken callbacks config
  | CreateOrder a => createOrder callbacks config a
  | VerifyOrder id => verifyOrder callbacks config id
  | CreatePlan a => createPlan callbacks config a
  | CreateSubscription a => createSubscription callbacks config a
  | VerifySubscription id => verifySubscription callbacks config id
  | CancelSubscription id reason => cancelSubscription callbacks config id reason
  | CreateCharge a => createCharge callbacks a
  | VerifyCharge id => verifyCharge callbacks id
  | Wait dt => modify (elapse dt) ;;; ret JS.Undefined
  end.

(** The world after a list of calls, whatever each returned or threw. *)
Definition run_all (callbacks : Callbacks) (config : PayPalConfig)
    (ops : list Op) (w : World) : World :=
  fold_left (fun w op => snd (run callbacks config op w)) ops w.

(** The calls that delete the cache entry of [key]. *)
Definition purges (key : JS.value) (op : Op) : bool :=
  match op with
  | VerifyOrder id | VerifySubscription id | CancelSubscription id _ =>
      JSMap.key_eqb (JS.Str id) key
  | _ => false
  end.

(** No pending timer deletes [key] before the time [d]. *)
Definition no_timer_before (d : Z) (key : JS.value) (ts : list (Z * JS.value)) : Prop :=
  Forall (fun t => JSMap.key_eqb (snd t) key = true -> d <= fst t) ts.

(** No pending timer deletes [key] at all. *)
Definition no_timer_for (key : JS.value) (ts : list (Z * JS.value)) : Prop :=
  Forall (fun t => JSMap.key_eqb (snd t) key = false) ts.

(* ------------------------------------------------------------------ *)
(** *** Specifications of monadic code *)

(** From a world in [P], [m] returns [a] in a world in [Q a] or throws
    [e] in a world in [E e]. *)
Definition hoare {A} (P : World -> Prop) (m : M A)
    (Q : A -> World -> Prop) (E : Error -> World -> Prop) : Prop :=
  forall w, P w ->
    match m w with
    | (Ok a, w') => Q a w'
    | (Throw e, w') => E e w'
    end.

(** The world without what [console.error] printed. *)
Definition quiet (w : World) : World := set_console [] w.

(** Two computations that agree on results and on worlds up to the
    console. *)
Definition agree {A} (m1 m2 : M A) : Prop :=
  forall w1 w2, quiet w1 = quiet w2 ->
    fst (m1 w1) = fst (m2 w2) /\ quiet (snd (m1 w1)) = quiet (snd (m2 w2)).

(* ------------------------------------------------------------------ *)
(** *** Canonical statuses

    The table of section 4.5 of the specification, row by row as the
    three verifications implement it. *)

Inductive Canonical := completed | cancelled | failed | active.

Definition callback_of (kind : string) (c : Canonical) : option Event :=
  match c with
  | completed => Some onPaymentCompleted
  | cancelled => if String.eqb kind "subscription" then Some onSubscriptionCancelled
                 else Some onPaymentCancelled
  | failed => Some onPaymentFailed
  | active => Some onSubscriptionActivated
  end.

(** Orders: COMPLETED, VOIDED or CANCELLED, anything else. *)
Definition order_status (raw : JS.value) : Canonical :=
  if JS.str_is raw "COMPLETED" then completed
  else if JS.str_is raw "VOIDED" || JS.str_is raw "CANCELLED" then cancelled
  else failed.

(** Subscriptions: only ACTIVE and CANCELLED are given a value. *)
Definition subscription_status (raw : JS.value) : option Canonical :=
  if JS.str_is raw "ACTIVE" then Some active
  else if JS.str_is raw "CANCELLED" then Some cancelled
  else None.

(** Charges: only the four final statuses are given a value. *)
Definition charge_status (raw : JS.value) : option Canonical :=
  if JS.str_is raw "COMPLETED" then Some completed
  else if JS.str_is raw "CANCELED" then Some cancelled
  else if JS.str_is raw "EXPIRED" || JS.str_is raw "UNRESOLVED" then Some failed
  else None.

(** The events a verification dispatches for a classified status. *)
Definition dispatched (kind : string) (c : option Canonical) (result : JS.value)
    : list (Event * JS.value) :=
  match c with
  | Some c =>
      match callback_of kind c with
      | Some ev => [(ev, result)]
      | None => []
      end
  | None => []
  end.

(** A computation that keeps [I] true, whether it returns or throws. *)
Definition keeps {A} (I : World -> Prop) (m : M A) : Prop :=
  hoare I m (fun _ => I) (fun _ => I).

(** A property of worlds that waiting, sending, drawing, emitting and
    the token cache do not disturb. *)
Record basic (I : World -> Prop) : Prop := mkBasic {
  basic_elapse : forall dt w, I w -> I (elapse dt w);
  basic_network : forall x w, I w -> I (set_network x w);
  basic_requests : forall x w, I w -> I (set_requests x w);
  basic_dice : forall x w, I w -> I (set_dice x w);
  basic_emitted : forall x w, I w -> I (set_emitted x w);
  basic_console : forall x w, I w -> I (set_console x w);
  basic_tokenCache : forall x w, I w -> I (set_tokenCache x w);
  basic_tokenExpiry : forall x w, I w -> I (set_tokenExpiry x w)
}.

(** ... and that survives what the adapters do to the cache, deletions
    being limited to the keys in [deletable]. *)
Record cache_stable (deletable : JS.value -> bool) (I : World -> Prop) : Prop := mkCacheStable {
  stable_set : forall k v w, I w -> I (set_metadataCache (JSMap.set (metadataCache w) k v) w);
  stable_timer : forall k w, I w -> I (set_timers ((clock w + hour, k) :: timers w) w);
  stable_delete : forall k w, deletable k = true ->
      I w -> I (set_metadataCache (JSMap.delete (metadataCache w) k) w)
}.

(** The entry of [key] is in the cache and no timer deletes it before
    [d], as long as the clock has not reached [d]. *)
Definition held_until (d : Z) (key : JS.value) (w : World) : Prop :=
  d <= clock w + hour /\
  (clock w < d ->
   JSMap.has (metadataCache w) key = true /\ no_timer_before d key (timers w)).

(** The pending timers are among those of [w0]. *)
Definition timers_among (w0 w : World) : Prop := incl (timers w) (timers w0).

(** The signature header the provider computes: the lower-case hex
    HMAC-SHA256 of the payload under the secret. *)
Definition webhook_signature (payload secret : string) : string :=
  hex (Hmac.hmac_sha256 (bytes_of_string secret) (bytes_of_string payload)).

(** A byte. *)
Definition is_byte (b : Z) : Prop := 0 <= b < 256.

(** The value of a hex digit. *)
Definition unhex_digit (c : ascii) : Z :=
  let n := Z.of_nat (nat_of_ascii c) in
  if n <? 58 then n - 48 else n - 87.

(** The cache holds no entry for [key]. *)
Definition purged (key : JS.value) (w : World) : Prop :=
  JSMap.has (metadataCache w) key = false.

(** The address of the credential exchange. *)
Definition token_url (config : PayPalConfig) : string :=
  baseUrl config ++ "/v1/oauth2/token?grant_type=client_credentials".

(** The record handed to the [onError] callback. *)
Definition error_report (tag : string) (e : Error) : JS.value :=
  JS.Obj [("type", JS.Str tag); ("provider", JS.Str "paypal"); ("error", error_detail e)].



Definition is_digit (c : ascii) : bool :=
  match JS.digit_of_char c with
  | Some _ => true
  | None => false
  end.

(** The constructor of a digit. *)
Definition digit_cons (b : Z) : uint -> uint :=
  match b with
  | 0 => D0 | 1 => D1 | 2 => D2 | 3 => D3 | 4 => D4
  | 5 => D5 | 6 => D6 | 7 => D7 | 8 => D8 | _ => D9
  end.

(* ================================================================== *)
(** ** Further notions used in the statements *)

(** The transaction id: the caller's, or 17 digits. *)
Definition transaction_id_of (given : option string) (id : string) : Prop :=
  match given with
  | Some c => id = c
  | None => String.length id = 17%nat /\ forallb is_digit (list_ascii_of_string id) = true
  end.

(** The address [cancelSubscription] posts to. *)
Definition cancel_url (config : PayPalConfig) (subscriptionId : string) : string :=
  baseUrl config ++ "/v1/billing/subscriptions/" ++ subscriptionId ++ "/cancel".

(** The record [cancelSubscription] hands to the [onError] callback. *)
Definition cancellation_report (subscriptionId : string) (e : Error) : JS.value :=
  JS.Obj [("type", JS.Str "subscription_cancellation"); ("provider", JS.Str "paypal");
          ("subscriptionId", JS.Str subscriptionId); ("error", error_detail e)].

(** The two requests of [createPlan]. *)
Definition product_request (config : PayPalConfig) : Request :=
  mkRequest "POST" (baseUrl config ++ "/v1/catalogs/products").

Definition plan_request (config : PayPalConfig) : Request :=
  mkRequest "POST" (baseUrl config ++ "/v1/billing/plans").

(** The two requests of [verifyOrder]. *)
Definition order_request (config : PayPalConfig) (orderId : string) : Request :=
  mkRequest "GET" (baseUrl config ++ "/v2/checkout/orders/" ++ orderId).

Definition capture_request (config : PayPalConfig) (orderId : string) : Request :=
  mkRequest "POST" (baseUrl config ++ "/v2/checkout/orders/" ++ orderId ++ "/capture").

(** As long as the clock has not reached [d], the cache holds [v] under
    [key] and no pending timer deletes it before [d]. *)
Definition holds_until (d : Z) (key v : JS.value) (w : World) : Prop :=
  clock w < d ->
  JSMap.get (metadataCache w) key = v /\ no_timer_before d key (timers w).

(** Every key of the cache has a pending timer that deletes it within
    the hour. *)
Definition expiring (w : World) : Prop :=
  forall key, JSMap.has (metadataCache w) key = true ->
    Exists (fun t => JSMap.key_eqb (snd t) key = true /\ fst t <= clock w + hour) (timers w).

(** The cache of [w] holds no key that the cache of [w0] does not hold. *)
Definition cache_within (w0 w : World) : Prop :=
  forall key, JSMap.has (metadataCache w) key = true ->
              JSMap.has (metadataCache w0) key = true.

(** A digit of lower-case hex. *)
Definition is_lower_hex (c : ascii) : bool :=
  let n := nat_of_ascii c in
  ((48 <=? n) && (n <=? 57) || (97 <=? n) && (n <=? 102))%nat.

(** A call that threw [e] from [w] has emitted exactly one event: an
    [onError] whose record carries the detail of [e] and the type [tag]
    of the operation, or [auth] when the token could not be had. *)
Definition reported_once (tag : string) (e : Error) (w w' : World) : Prop :=
  exists report,
    emitted w' = (onError, report) :: emitted w /\
    JS.get report "error" = error_detail e /\
    (JS.get report "type" = JS.Str tag \/ JS.get report "type" = JS.Str "auth").

(** [url] is the [href] of the first link of [resp] whose [rel] is
    'approve'. *)
Definition first_approve (resp url : JS.value) : Prop :=
  exists before link after,
    JS.get resp "links" = JS.Arr (before ++ link :: after) /\
    Forall (fun l => JS.str_is (JS.get l "rel") "approve" = false) before /\
    JS.str_is (JS.get link "rel") "approve" = true /\
    url = JS.get link "href".

(* ================================================================== *)
(** ** Sample runs *)

Module Sample.

(** A host without callbacks, and one whose callbacks all throw. *)
Definition silent : Callbacks := fun _ => None.
Definition throwing : Callbacks := fun _ => Some (fun _ => Throws (JS.Str "boom")).

Definition config : PayPalConfig := mkPayPalConfig "client-id" "client-secret" true.

(** The Number a decimal literal denotes. *)
Definition lit (s : string) : JS.number := JS.parse_string s.

Definition minutes (n : Z) : N := Z.to_N (n * 60 * 1000).

Definition tokenReply : Reply :=
  Response 200 (Json (JS.Obj [("access_token", JS.Str "A21AAFs9"); ("token_type", JS.Str "Bearer")])).

Definition orderReply : Reply :=
  Response 201
    (Json (JS.Obj [("id", JS.Str "5O190127TN364715T"); ("status", JS.Str "CREATED");
                   ("links",
                    JS.Arr [JS.Obj [("rel", JS.Str "self"); ("href", JS.Str "https://api/self")];
                            JS.Obj [("rel", JS.Str "approve");
                                    ("href", JS.Str "https://paypal/approve")]])])).

Definition completedReply : Reply :=
  Response 200
    (Json (JS.Obj [("id", JS.Str "5O190127TN364715T"); ("status", JS.Str "COMPLETED");
                   ("purchase_units",
                    JS.Arr [JS.Obj [("custom_id", JS.Str "tx-1001");
                                    ("amount", JS.Obj [("currency_code", JS.Str "EUR");
                                                       ("value", JS.Str "39.98")])]])])).

Definition pendingChargeReply : Reply :=
  Response 200
    (Json (JS.Obj [("data",
      JS.Obj [("id", JS.Str "f765421f"); ("code", JS.Str "66BEOV2A");
              ("timeline", JS.Arr [JS.Obj [("status", JS.Str "NEW")];
                                   JS.Obj [("status", JS.Str "PENDING")]]);
              ("pricing", JS.Obj [("local", JS.Obj [("amount", JS.Str "39.98");
                                                    ("currency", JS.Str "EUR")])]);
              ("metadata", JS.Obj [("userId", JS.Str "123")])])])).

Definition expiredChargeReply : Reply :=
  Response 200
    (Json (JS.Obj [("data",
      JS.Obj [("id", JS.Str "f765421f"); ("code", JS.Str "66BEOV2A");
              ("timeline", JS.Arr [JS.Obj [("status", JS.Str "CREATED")];
                                   JS.Obj [("status", JS.Str "PENDING")];
                                   JS.Obj [("status", JS.Str "EXPIRED")]]);
              ("pricing", JS.Obj [("local", JS.Obj [("amount", JS.Str "39.98");
                                                    ("currency", JS.Str "EUR")])]);
              ("metadata", JS.Obj [("userId", JS.Str "123")])])])).

(** A gateway that has just started. *)
Definition started : World :=
  mkWorld 1700000000000 [] [] [] [] JS.Null None [] [] [].

Definition widget : OrderArgs :=
  mkOrderArgs (Some "widget") (Some (lit "19.99")) (Some (JS.of_Z 2)) None
              (Some "tx-1001") (Some (JS.Obj [("userId", JS.Str "123")])).

Definition untitled : OrderArgs :=
  mkOrderArgs None (Some (lit "19.99")) None None (Some "tx-1002") None.

Definition rejectedReply : Reply :=
  Response 422 (Json (JS.Obj [("name", JS.Str "UNPROCESSABLE_ENTITY")])).

(** The provider hands out a token and then rejects the order. *)
Definition rejecting : World :=
  set_network [(120%N, tokenReply); (250%N, rejectedReply)] started.

(** After the order: a charge is verified, forty minutes pass, another
    order is verified. *)
Definition meanwhile : list Op :=
  [GetAccessToken; VerifyCharge "66BEOV2A"; Wait (minutes 40); VerifyOrder "8XY05573VB587263M"].

(** The host creates the widget order: token exchange, then the order. *)
Definition checkout : World :=
  set_network [(120%N, tokenReply); (250%N, orderReply)] started.

Definition created : JS.value :=
  Eval vm_compute in
    match fst (createOrder silent config widget checkout) with
    | Ok result => result
    | Throw _ => JS.Undefined
    end.

Definition pending : World :=
  Eval vm_compute in snd (createOrder silent config widget checkout).

(** The buyer comes back and the provider reports the order completed. *)
Definition returning : World := set_network [(90%N, completedReply)] pending.

Definition verified : JS.value :=
  Eval vm_compute in
    match fst (verifyOrder silent config "5O190127TN364715T" returning) with
    | Ok result => result
    | Throw _ => JS.Undefined
    end.

Definition settled : World :=
  Eval vm_compute in snd (verifyOrder silent config "5O190127TN364715T" returning).

(** The token is fetched, the order is created half an hour later and
    the buyer returns 31 minutes after that, when the token has expired
    and the provider cannot be reached. *)
Definition stale : World :=
  Eval vm_compute in
    run_all silent config
      [GetAccessToken; Wait (minutes 30); CreateOrder widget; Wait (minutes 31)]
      (set_network [(120%N, tokenReply); (250%N, orderReply); (3000%N, Unreachable)] started).

(** A charge that is still pending, and one that expired. *)
Definition awaiting : World := set_network [(80%N, pendingChargeReply)] started.
Definition lapsed : World := set_network [(80%N, expiredChargeReply)] started.

End Sample.

(* ================================================================== *)
(** ** More sample runs *)

Module Shop.

(** A gateway whose token is in the cache, with nothing else. *)
Definition ready : World :=
  Eval vm_compute in
    snd (getAccessToken Sample.silent Sample.config
           (set_network [(120%N, Sample.tokenReply)] Sample.started)).

(** A plan: the product, then the plan. *)
Definition pro : PlanArgs :=
  mkPlanArgs (Some "Pro") (Some (Sample.lit "9.99")) None None None.

Definition unnamed : PlanArgs := mkPlanArgs None (Some (Sample.lit "9.99")) None None None.

Definition productReply : Reply := Response 201 (Json (JS.Obj [("id", JS.Str "PROD-8A02")])).

Definition planReply : Reply :=
  Response 201 (Json (JS.Obj [("id", JS.Str "P-5ML4271244"); ("status", JS.Str "ACTIVE")])).

Definition planning : World := set_network [(70%N, productReply); (80%N, planReply)] ready.

(** A subscription without a plan, a charge without a title. *)
Definition planless : SubscriptionArgs := mkSubscriptionArgs None (Some "tx-2001") None.

Definition untitled : ChargeArgs := mkChargeArgs None (Some (Sample.lit "19.99")) None None None.

(** The buyer has approved the order: the GET says APPROVED, the
    capture completes it. *)
Definition approvedReply : Reply :=
  Response 200
    (Json (JS.Obj [("id", JS.Str "5O190127TN364715T"); ("status", JS.Str "APPROVED");
                   ("purchase_units",
                    JS.Arr [JS.Obj [("custom_id", JS.Str "tx-1001");
                                    ("amount", JS.Obj [("currency_code", JS.Str "EUR");
                                                       ("value", JS.Str "39.98")])]])])).

Definition capturedReply : Reply :=
  Response 201
    (Json (JS.Obj [("id", JS.Str "5O190127TN364715T"); ("status", JS.Str "COMPLETED");
                   ("purchase_units",
                    JS.Arr [JS.Obj [("payments",
                      JS.Obj [("captures",
                        JS.Arr [JS.Obj [("custom_id", JS.Str "tx-1001");
                                        ("amount", JS.Obj [("currency_code", JS.Str "EUR");
                                                           ("value", JS.Str "39.98")])]])])]])])).

Definition approving : World :=
  set_network [(90%N, approvedReply); (140%N, capturedReply)] ready.

(** A subscription is cancelled; the provider answers 204 with no body. *)
Definition cancelling : World := set_network [(60%N, Response 204 NoBody)] ready.

(** The order of [Sample.widget] and its verification in one script. *)
Definition shopping : World :=
  set_network [(120%N, Sample.tokenReply); (250%N, Sample.orderReply);
               (90%N, Sample.completedReply)] Sample.started.

Definition ordered : World :=
  Eval vm_compute in snd (createOrder Sample.silent Sample.config Sample.widget shopping).

(** The buyer comes back twenty minutes later. *)
Definition reported : JS.value :=
  Eval vm_compute in
    match fst (verifyOrder Sample.silent Sample.config "5O190127TN364715T"
                 (elapse (Sample.minutes 20) ordered)) with
    | Ok result => result
    | Throw _ => JS.Undefined
    end.

Definition closed : World :=
  Eval vm_compute in
    snd (verifyOrder Sample.silent Sample.config "5O190127TN364715T"
           (elapse (Sample.minutes 20) ordered)).


(** The expired charge of [Sample.lapsed], verified. *)
Definition expired : JS.value :=
  Eval vm_compute in
    match fst (verifyCharge Sample.silent "66BEOV2A" Sample.lapsed) with
    | Ok result => result
    | Throw _ => JS.Undefined
    end.

(** The site: options, the gateway built from them, requests. *)
Definition options : Options :=
  mkOptions true (Some "https://shop.example/") None None
            (Some (mkPayPalOptions (Some "client-id") (Some "client-secret") true))
            (Some (mkCoinbaseOptions (Some "api-key") (Some "whsec")))
            Sample.silent.

Definition gateway : Gateway :=
  mkGateway "https://shop.example" "/payments" default_redirects Sample.silent
            (Some Sample.config) (Some (mkCoinbaseConfig "api-key" (Some "whsec"))).

(** The buyer comes back from PayPal, or gives up there. *)
Definition back : HttpRequest :=
  mkHttpRequest [("token", "5O190127TN364715T"); ("PayerID", "QYR5Z8XDVJNXQ")] [] JS.Undefined.

(** The browser lands on the success address with a status of its own. *)
Definition landing : HttpRequest :=
  mkHttpRequest [("payment_id", "5O190127TN364715T"); ("status", "error");
                 ("provider", "paypal")] [] JS.Undefined.

(** A webhook: the charge is confirmed. *)
Definition confirmed : JS.value :=
  JS.Obj [("id", JS.Num (JS.of_Z 7));
          ("event", JS.Obj [("type", JS.Str "charge:confirmed");
                            ("data", JS.Obj [("id", JS.Str "f765421f")])])].

Definition signature : string :=
  Eval vm_compute in
    match JSText.JSON_stringify confirmed with
    | JS.Str payload => webhook_signature payload "whsec"
    | _ => EmptyString
    end.

Definition signed : HttpRequest :=
  mkHttpRequest []
    [("content-type", "application/json"); ("x-cc-webhook-signature", signature)]
    confirmed.

Definition forged : HttpRequest :=
  mkHttpRequest [] [("x-cc-webhook-signature", "00")] confirmed.

End Shop.

(* ================================================================== *)
(** ** Facts about values and the cache *)

Section ValueInduction.

Variable P : JS.value -> Prop.
Hypothesis P_undefined : P JS.Undefined.
Hypothesis P_null : P JS.Null.
Hypothesis P_bool : forall b, P (JS.Bool b).
Hypothesis P_num : forall x, P (JS.Num x).
Hypothesis P_str : forall s, P (JS.Str s).
Hypothesis P_arr : forall l, Forall P l -> P (JS.Arr l).
Hypothesis P_obj : forall ps, Forall (fun kv => P (snd kv)) ps -> P (JS.Obj ps).

Fixpoint value_rect' (v : JS.value) : P v :=
  match v with
  | JS.Undefined => P_undefined
  | JS.Null => P_null
  | JS.Bool b => P_bool b
  | JS.Num x => P_num x
  | JS.Str s => P_str s
  | JS.Arr l =>
      P_arr l ((fix all (l : list JS.value) : Forall P l :=
                  match l with
                  | [] => Forall_nil _
                  | x :: r => Forall_cons x (value_rect' x) (all r)
                  end) l)
  | JS.Obj ps =>
      P_obj ps ((fix all (ps : list (string * JS.value)) : Forall (fun kv => P (snd kv)) ps :=
                   match ps with
                   | [] => Forall_nil _
                   | kv :: r => Forall_cons kv (value_rect' (snd kv)) (all r)
                   end) ps)
  end.

End ValueInduction.

Lemma num_eqb_eq (x y : JS.number) : JS.num_eqb x y = true <-> x = y.
Proof.
  destruct x, y; simpl; split; intros H; try discriminate; try reflexivity;
    try (apply Bool.eqb_prop in H; now subst);
    try (inversion H; subst; apply Bool.eqb_reflx).
  - apply andb_true_iff in H as [H He]. apply andb_true_iff in H as [Hs Hm].
    apply Bool.eqb_prop in Hs. apply Pos.eqb_eq in Hm. apply Z.eqb_eq in He.
    now subst.
  - inversion H; subst. now rewrite Bool.eqb_reflx, Pos.eqb_refl, Z.eqb_refl.
Qed.

Lemma value_eqb_eq (a : JS.value) : forall b, JS.eqb a b = true <-> a = b.
Proof.
  induction a using value_rect'; intros [] ; simpl;
    try (split; intros H'; (discriminate || reflexivity)).
  - rewrite Bool.eqb_true_iff. split; intros H'; [now subst | now inversion H'].
  - rewrite num_eqb_eq. split; intros H'; [now subst | now inversion H'].
  - rewrite String.eqb_eq. split; intros H'; [now subst | now inversion H'].
  - revert items. induction H as [|x r Hx Hr IH]; intros [|y r'];
      try (split; intros H'; (discriminate || reflexivity)).
    rewrite andb_true_iff, Hx, IH. split.
    + intros [-> H']. now inversion H'.
    + intros H'. inversion H'. now subst.
  - revert props. induction H as [|[k x] r Hx Hr IH]; intros [|[k' y] r'];
      try (split; intros H'; (discriminate || reflexivity)).
    simpl in Hx. rewrite !andb_true_iff, String.eqb_eq, Hx, IH. split.
    + intros [[-> ->] H']. now inversion H'.
    + intros H'. inversion H'. now subst.
Qed.

Lemma key_eqb_norm (a b : JS.value) : JSMap.key_eqb a b = true <-> JSMap.norm a = JSMap.norm b.
Proof. apply value_eqb_eq. Qed.

Lemma key_eqb_refl (a : JS.value) : JSMap.key_eqb a a = true.
Proof. now apply key_eqb_norm. Qed.

Lemma key_eqb_sym (a b : JS.value) : JSMap.key_eqb a b = JSMap.key_eqb b a.
Proof.
  destruct (JSMap.key_eqb a b) eqn:E, (JSMap.key_eqb b a) eqn:E'; try reflexivity.
  - apply key_eqb_norm in E. symmetry in E. apply key_eqb_norm in E. congruence.
  - apply key_eqb_norm in E'. symmetry in E'. apply key_eqb_norm in E'. congruence.
Qed.

Lemma key_eqb_trans (a b c : JS.value) :
  JSMap.key_eqb a b = true -> JSMap.key_eqb b c = true -> JSMap.key_eqb a c = true.
Proof. rewrite !key_eqb_norm. congruence. Qed.

(** Keys equal to the same key are exchangeable. *)
Lemma key_eqb_congr (a b c : JS.value) :
  JSMap.key_eqb a b = true -> JSMap.key_eqb a c = JSMap.key_eqb b c.
Proof.
  intros H. destruct (JSMap.key_eqb b c) eqn:E.
  - eapply key_eqb_trans; eauto.
  - destruct (JSMap.key_eqb a c) eqn:E'; [|reflexivity].
    rewrite key_eqb_sym in H. rewrite (key_eqb_trans _ _ _ H E') in E. discriminate.
Qed.

Lemma has_set_same (m : JSMap.t) (k v : JS.value) : JSMap.has (JSMap.set m k v) k = true.
Proof.
  induction m as [|[k' v'] r IH]; simpl.
  - now rewrite key_eqb_refl.
  - destruct (JSMap.key_eqb k' k) eqn:E; simpl; rewrite E; auto.
Qed.

Lemma get_set_same (m : JSMap.t) (k v : JS.value) : JSMap.get (JSMap.set m k v) k = v.
Proof.
  induction m as [|[k' v'] r IH]; simpl.
  - now rewrite key_eqb_refl.
  - destruct (JSMap.key_eqb k' k) eqn:E; simpl; rewrite E; auto.
Qed.

Lemma has_set_mono (m : JSMap.t) (k v k' : JS.value) :
  JSMap.has m k' = true -> JSMap.has (JSMap.set m k v) k' = true.
Proof.
  induction m as [|[k0 v0] r IH]; simpl; [discriminate|].
  destruct (JSMap.key_eqb k0 k) eqn:E; simpl; destruct (JSMap.key_eqb k0 k'); auto.
Qed.

Lemma has_delete_same (m : JSMap.t) (k : JS.value) : JSMap.has (JSMap.delete m k) k = false.
Proof.
  induction m as [|[k' v'] r IH]; simpl; [reflexivity|].
  destruct (JSMap.key_eqb k' k) eqn:E; simpl; [|rewrite E]; auto.
Qed.

Lemma has_delete_other (m : JSMap.t) (k k' : JS.value) :
  JSMap.key_eqb k k' = false -> JSMap.has (JSMap.delete m k) k' = JSMap.has m k'.
Proof.
  intros Hk. induction m as [|[k0 v0] r IH]; simpl; [reflexivity|].
  destruct (JSMap.key_eqb k0 k) eqn:E; simpl.
  - rewrite (key_eqb_congr _ _ _ E), Hk. exact IH.
  - now rewrite IH.
Qed.

Lemma delete_absent (m : JSMap.t) (k : JS.value) :
  JSMap.has m k = false -> JSMap.delete m k = m.
Proof.
  induction m as [|[k' v'] r IH]; simpl; [reflexivity|].
  destruct (JSMap.key_eqb k' k); [discriminate|]. intros H. now rewrite IH.
Qed.

Lemma delete_idempotent (m : JSMap.t) (k : JS.value) :
  JSMap.delete (JSMap.delete m k) k = JSMap.delete m k.
Proof. apply delete_absent, has_delete_same. Qed.

(* ================================================================== *)
(** ** Rules of the program logic *)

Section HoareRules.

Context {A B : Type}.

Lemma hoare_ret (P : World -> Prop) (a : A) (Q : A -> World -> Prop) E :
  (forall w, P w -> Q a w) -> hoare P (ret a) Q E.
Proof. intros H w Hw. simpl. auto. Qed.

Lemma hoare_throw (P : World -> Prop) (e : Error) (Q : A -> World -> Prop) (E : Error -> World -> Prop) :
  (forall w, P w -> E e w) -> hoare P (throw e) Q E.
Proof. intros H w Hw. simpl. auto. Qed.

Lemma hoare_bind (P : World -> Prop) (m : M A) (k : A -> M B)
    (R : A -> World -> Prop) (Q : B -> World -> Prop) (E : Error -> World -> Prop) :
  hoare P m R E -> (forall a, hoare (R a) (k a) Q E) -> hoare P (bind m k) Q E.
Proof.
  intros Hm Hk w Hw. unfold bind. specialize (Hm w Hw).
  destruct (m w) as [[a|e] w']; [apply (Hk a w' Hm) | exact Hm].
Qed.

Lemma hoare_try_catch (P : World -> Prop) (body : M A) (handler : Error -> M A)
    (Q : A -> World -> Prop) (R E : Error -> World -> Prop) :
  hoare P body Q R -> (forall e, hoare (R e) (handler e) Q E) ->
  hoare P (try_catch body handler) Q E.
Proof.
  intros Hb Hh w Hw. unfold try_catch. specialize (Hb w Hw).
  destruct (body w) as [[a|e] w']; [exact Hb | apply (Hh e w' Hb)].
Qed.

Lemma hoare_weaken (P P' : World -> Prop) (m : M A)
    (Q Q' : A -> World -> Prop) (E E' : Error -> World -> Prop) :
  hoare P' m Q' E' ->
  (forall w, P w -> P' w) -> (forall a w, Q' a w -> Q a w) -> (forall e w, E' e w -> E e w) ->
  hoare P m Q E.
Proof.
  intros H HP HQ HE w Hw. specialize (H w (HP w Hw)).
  destruct (m w) as [[a|e] w']; auto.
Qed.

Lemma hoare_read (P : World -> Prop) (f : World -> A) (Q : A -> World -> Prop) E :
  (forall w, P w -> Q (f w) w) -> hoare P (read f) Q E.
Proof. intros H w Hw. simpl. auto. Qed.

End HoareRules.

Lemma hoare_modify (P : World -> Prop) (f : World -> World) (Q : unit -> World -> Prop) E :
  (forall w, P w -> Q tt (f w)) -> hoare P (modify f) Q E.
Proof. intros H w Hw. simpl. auto. Qed.

Lemma keeps_ret {A} I (a : A) : keeps I (ret a).
Proof. now apply hoare_ret. Qed.

Lemma keeps_throw {A} I e : keeps I (@throw A e).
Proof. now apply hoare_throw. Qed.

Lemma keeps_bind {A B} I (m : M A) (k : A -> M B) :
  keeps I m -> (forall a, keeps I (k a)) -> keeps I (bind m k).
Proof. intros Hm Hk. eapply hoare_bind; [exact Hm | exact Hk]. Qed.

Lemma keeps_try_catch {A} I (body : M A) handler :
  keeps I body -> (forall e, keeps I (handler e)) -> keeps I (try_catch body handler).
Proof. intros Hb Hh. eapply hoare_try_catch; [exact Hb | exact Hh]. Qed.

Lemma keeps_read {A} I (f : World -> A) : keeps I (read f).
Proof. now apply hoare_read. Qed.

Lemma keeps_modify I (f : World -> World) :
  (forall w, I w -> I (f w)) -> keeps I (modify f).
Proof. intros H. now apply hoare_modify. Qed.

Lemma keeps_prop I v k : keeps I (prop v k).
Proof. unfold prop. destruct (JS.nullish v); [apply keeps_throw | apply keeps_ret]. Qed.

Lemma keeps_snd {A} I (m : M A) w : keeps I m -> I w -> I (snd (m w)).
Proof. intros H Hw. specialize (H w Hw). destruct (m w) as [[a|e] w']; exact H. Qed.

(* ================================================================== *)
(** ** What every call of the gateway keeps *)

Section Keeps.

Variable callbacks : Callbacks.
Variable config : PayPalConfig.
Variable I : World -> Prop.
Hypothesis I_basic : basic I.

Lemma keeps_emit ev data : keeps I (emit callbacks ev data).
Proof.
  unfold emit. apply keeps_bind.
  - apply keeps_modify. intros w. apply (basic_emitted I I_basic).
  - intros _. destruct (callbacks ev) as [cb|]; [|apply keeps_ret].
    destruct (cb data); [apply keeps_ret|].
    apply keeps_modify. intros w. apply (basic_console I I_basic).
Qed.

Lemma keeps_random_digit : keeps I random_digit.
Proof.
  intros w Hw. unfold random_digit. destruct (dice w); simpl; auto.
  now apply (basic_dice I I_basic).
Qed.

Lemma keeps_generateId_from n : forall id, keeps I (generateId_from n id).
Proof.
  induction n as [|n IH]; intros id; simpl.
  - apply keeps_ret.
  - apply keeps_bind; [apply keeps_random_digit | intros d; apply IH].
Qed.

Lemma keeps_request method url : keeps I (request method url).
Proof.
  intros w Hw. unfold request.
  assert (H1 : I (set_requests (mkRequest method url :: requests w) w))
    by now apply (basic_requests I I_basic).
  set (w1 := set_requests _ w) in *.
  destruct (network w1) as [|[delay reply] rest]; [exact H1|].
  assert (H2 : I (elapse delay (set_network rest w1))).
  { apply (basic_elapse I I_basic). now apply (basic_network I I_basic). }
  destruct reply as [|status body]; [exact H2|].
  destruct body; try exact H2;
    destruct ((200 <=? status) && (status <=? 299)); exact H2.
Qed.

Lemma keeps_find_approve l : keeps I (find_approve l).
Proof.
  induction l as [|link r IH]; simpl; [apply keeps_ret|].
  apply keeps_bind; [apply keeps_prop|]. intros rel.
  destruct (JS.str_is rel "approve"); [apply keeps_ret | exact IH].
Qed.

Lemma keeps_approve_link resp : keeps I (approve_link resp).
Proof.
  unfold approve_link. apply keeps_bind; [apply keeps_prop|]. intros links.
  apply keeps_bind; [|intros; apply keeps_prop].
  destruct links; try apply keeps_throw. apply keeps_find_approve.
Qed.

Lemma keeps_cache_get key : keeps I (cache_get_or_empty key).
Proof. apply keeps_read. Qed.

Lemma keeps_getAccessToken : keeps I (getAccessToken callbacks config).
Proof.
  intros w Hw. unfold getAccessToken.
  destruct (JS.truthy (tokenCache w) && expiry_after (tokenExpiry w) (clock w)); [exact Hw|].
  revert w Hw. apply keeps_try_catch.
  - apply keeps_bind; [apply keeps_request|]. intros resp.
    apply keeps_bind; [apply keeps_prop|]. intros token.
    apply keeps_bind; [apply keeps_modify; intros w; apply (basic_tokenCache I I_basic)|].
    intros _. apply keeps_bind; [|intros _; apply keeps_read].
    apply keeps_modify. intros w. apply (basic_tokenExpiry I I_basic).
  - intros e. apply keeps_bind; [apply keeps_emit | intros _; apply keeps_throw].
Qed.

(** Steps that never touch the cache. *)
Ltac keeps_step :=
  match goal with
  | |- keeps _ (bind _ _) => apply keeps_bind; [|intros ?]
  | |- keeps _ (try_catch _ _) => apply keeps_try_catch; [|intros ?]
  | |- keeps _ (ret _) => apply keeps_ret
  | |- keeps _ (throw _) => apply keeps_throw
  | |- keeps _ (prop _ _) => apply keeps_prop
  | |- keeps _ (read _) => apply keeps_read
  | |- keeps _ (emit _ _ _) => apply keeps_emit
  | |- keeps _ (request _ _) => apply keeps_request
  | |- keeps _ (approve_link _) => apply keeps_approve_link
  | |- keeps _ (cache_get_or_empty _) => apply keeps_cache_get
  | |- keeps _ (getAccessToken _ _) => apply keeps_getAccessToken
  | |- keeps _ generateId => apply keeps_generateId_from
  | |- keeps _ (if ?b then _ else _) => destruct b
  | |- keeps _ (match ?o with Some _ => _ | None => _ end) => destruct o
  end.

Lemma keeps_createProduct : keeps I (createProduct callbacks config).
Proof. unfold createProduct. repeat keeps_step. Qed.

Lemma keeps_createPlan a : keeps I (createPlan callbacks config a).
Proof.
  unfold createPlan. cbv zeta. repeat keeps_step. apply keeps_createProduct.
Qed.

Lemma keeps_createCharge a : keeps I (createCharge callbacks a).
Proof. unfold createCharge. cbv zeta. repeat keeps_step. Qed.

Lemma keeps_verifyCharge id : keeps I (verifyCharge callbacks id).
Proof. unfold verifyCharge. cbv zeta. repeat keeps_step. Qed.

Lemma keeps_elapse dt : keeps I (modify (elapse dt)).
Proof. apply keeps_modify. intros w. apply (basic_elapse I I_basic). Qed.

Section WithCache.

Variable deletable : JS.value -> bool.
Hypothesis I_cache : cache_stable deletable I.

Lemma keeps_cache_set key v : keeps I (cache_set key v).
Proof. apply keeps_modify. intros w. apply (stable_set deletable I I_cache). Qed.

Lemma keeps_setTimeout key : keeps I (setTimeout_delete key hour).
Proof. apply keeps_modify. intros w. apply (stable_timer deletable I I_cache). Qed.

Lemma keeps_cache_delete key : deletable key = true -> keeps I (cache_delete key).
Proof. intros H. apply keeps_modify. intros w. now apply (stable_delete deletable I I_cache). Qed.

Ltac cache_step :=
  first
    [ keeps_step
    | match goal with
      | |- keeps _ (cache_set _ _) => apply keeps_cache_set
      | |- keeps _ (setTimeout_delete _ _) => apply keeps_setTimeout
      | |- keeps _ (cache_delete _) => apply keeps_cache_delete; assumption
      end ].

Lemma keeps_createOrder a : keeps I (createOrder callbacks config a).
Proof. unfold createOrder. cbv zeta. repeat cache_step. Qed.

Lemma keeps_createSubscription a : keeps I (createSubscription callbacks config a).
Proof. unfold createSubscription. cbv zeta. repeat cache_step. Qed.

Lemma keeps_verifyOrder id :
  deletable (JS.Str id) = true -> keeps I (verifyOrder callbacks config id).
Proof. intros H. unfold verifyOrder. cbv zeta. repeat cache_step. Qed.

Lemma keeps_verifySubscription id :
  deletable (JS.Str id) = true -> keeps I (verifySubscription callbacks config id).
Proof. intros H. unfold verifySubscription. cbv zeta. repeat cache_step. Qed.

Lemma keeps_cancelSubscription id reason :
  deletable (JS.Str id) = true -> keeps I (cancelSubscription callbacks config id reason).
Proof. intros H. unfold cancelSubscription. cbv zeta. repeat cache_step. Qed.

(** Every call keeps [I], provided it deletes deletable keys only. *)
Lemma keeps_run op :
  (forall key, purges key op = true -> deletable key = true) ->
  keeps I (run callbacks config op).
Proof.
  intros H.
  assert (Hid : forall id, purges (JS.Str id) op = JSMap.key_eqb (JS.Str id) (JS.Str id) ->
                           deletable (JS.Str id) = true).
  { intros id E. apply H. rewrite E. apply key_eqb_refl. }
  destruct op; simpl.
  - apply keeps_getAccessToken.
  - apply keeps_createOrder.
  - apply keeps_verifyOrder, Hid. reflexivity.
  - apply keeps_createPlan.
  - apply keeps_createSubscription.
  - apply keeps_verifySubscription, Hid. reflexivity.
  - apply keeps_cancelSubscription, Hid. reflexivity.
  - apply keeps_createCharge.
  - apply keeps_verifyCharge.
  - apply keeps_bind; [apply keeps_elapse | intros; apply keeps_ret].
Qed.

Lemma keeps_run_all ops :
  Forall (fun op => forall key, purges key op = true -> deletable key = true) ops ->
  forall w, I w -> I (run_all callbacks config ops w).
Proof.
  induction 1 as [|op r Hop Hr IH]; intros w Hw; simpl; [exact Hw|].
  apply IH. apply keeps_snd; [now apply keeps_run | exact Hw].
Qed.

End WithCache.

End Keeps.

(* ================================================================== *)
(** ** The life of a cache entry *)

Lemma has_after_timers (key : JS.value) (ts : list (Z * JS.value)) :
  Forall (fun t => JSMap.key_eqb (snd t) key = false) ts ->
  forall m, JSMap.has (fold_left (fun m t => JSMap.delete m (snd t)) ts m) key = JSMap.has m key.
Proof.
  induction 1 as [|t r Ht Hr IH]; intros m; simpl; [reflexivity|].
  rewrite IH. now apply has_delete_other.
Qed.

Lemma no_timer_before_filter d key (f : Z * JS.value -> bool) ts :
  no_timer_before d key ts -> no_timer_before d key (filter f ts).
Proof.
  unfold no_timer_before. rewrite !Forall_forall. intros H t Ht.
  apply filter_In in Ht. apply H, Ht.
Qed.

Lemma held_until_elapse d key dt w :
  held_until d key w -> held_until d key (elapse dt w).
Proof.
  intros [Hd H]. unfold held_until, elapse, fire_timers. simpl.
  split; [lia|]. intros Hnow. destruct H as [Hhas Hts]; [lia|]. split.
  - rewrite has_after_timers; [exact Hhas|].
    unfold no_timer_before in Hts. rewrite Forall_forall in *. intros t Ht.
    apply filter_In in Ht as [Ht Hdue]. unfold due in Hdue. apply Z.leb_le in Hdue.
    destruct (JSMap.key_eqb (snd t) key) eqn:E; [|reflexivity].
    specialize (Hts t Ht E). lia.
  - now apply no_timer_before_filter.
Qed.

Lemma held_until_basic d key : basic (held_until d key).
Proof.
  constructor; try (intros x w H; exact H).
  intros dt w. apply held_until_elapse.
Qed.

Lemma held_until_cache_stable d key :
  cache_stable (fun k => negb (JSMap.key_eqb k key)) (held_until d key).
Proof.
  constructor.
  - intros k v w [Hd H]. split; [exact Hd|]. simpl. intros Hnow.
    destruct (H Hnow) as [Hhas Hts]. split; [now apply has_set_mono | exact Hts].
  - intros k w [Hd H]. split; [exact Hd|]. simpl. intros Hnow.
    destruct (H Hnow) as [Hhas Hts]. split; [exact Hhas|].
    constructor; [|exact Hts]. simpl. intros _. exact Hd.
  - intros k w Hk [Hd H]. split; [exact Hd|]. simpl. intros Hnow.
    destruct (H Hnow) as [Hhas Hts]. split; [|exact Hts].
    rewrite has_delete_other; [exact Hhas|]. now apply negb_true_iff.
Qed.

(** While no call verifies or cancels [key] and the clock stays below
    [d], the entry of [key] stays. *)
Lemma held_until_run_all callbacks config d key ops w :
  held_until d key w ->
  Forall (fun op => purges key op = false) ops ->
  held_until d key (run_all callbacks config ops w).
Proof.
  intros Hw Hops.
  apply (keeps_run_all callbacks config _ (held_until_basic d key) _
           (held_until_cache_stable d key)); [|exact Hw].
  rewrite Forall_forall in *. intros op Hop k Hk.
  specialize (Hops op Hop). apply negb_true_iff.
  destruct (JSMap.key_eqb k key) eqn:E; [|reflexivity].
  destruct op; simpl in *; try discriminate;
    rewrite (key_eqb_trans _ _ _ Hk E) in Hops; discriminate.
Qed.

Lemma timers_among_basic w0 : basic (timers_among w0).
Proof.
  constructor; try (intros x w H; exact H).
  intros dt w H. unfold timers_among, elapse, fire_timers in *. simpl.
  intros t Ht. apply filter_In in Ht. apply H, Ht.
Qed.

Lemma keeps_timers_among_cache_set w0 key v : keeps (timers_among w0) (cache_set key v).
Proof. apply keeps_modify. intros w H. exact H. Qed.

Lemma no_timer_for_incl key ts ts' :
  incl ts' ts -> no_timer_for key ts -> no_timer_for key ts'.
Proof.
  unfold no_timer_for. rewrite !Forall_forall. intros Hi H t Ht. apply H, Hi, Ht.
Qed.

Lemma no_timer_for_before d key ts : no_timer_for key ts -> no_timer_before d key ts.
Proof.
  unfold no_timer_for, no_timer_before. rewrite !Forall_forall.
  intros H t Ht E. rewrite (H t Ht) in E. discriminate.
Qed.

Lemma keeps_run_eq {A} I (m : M A) w r w' : keeps I m -> I w -> m w = (r, w') -> I w'.
Proof. intros H Hw E. specialize (H w Hw). rewrite E in H. destruct r; exact H. Qed.

(** Running a call step by step: name the outcome of the next
    primitive in the equation [H] of a run. *)
Ltac run_step H :=
  match type of H with
  | context [generateId ?st] =>
      destruct (generateId st) as [[?id|?e] ?w] eqn:?Hid
  | context [getAccessToken ?cb ?cfg ?st] =>
      destruct (getAccessToken cb cfg st) as [[?token|?e] ?w] eqn:?Htoken
  | context [request ?m ?u ?st] =>
      destruct (request m u st) as [[?resp|?e] ?w] eqn:?Hreq
  | context [approve_link ?r ?st] =>
      destruct (approve_link r st) as [[?url|?e] ?w] eqn:?Hlink
  | context [emit ?cb ?ev ?d ?st] =>
      destruct (emit cb ev d st) as [[?u|?e] ?w] eqn:?Hemit
  | context [prop ?v ?k ?st] =>
      unfold prop in H; destruct (JS.nullish v) eqn:?Hnull
  | context [if ?b then _ else _] => destruct b eqn:?Hif
  end.

Ltac run_simpl H :=
  cbv beta iota zeta delta
      [bind try_catch ret throw read modify cache_set cache_delete
       setTimeout_delete cache_get_or_empty fst snd] in H.

Ltac run_inv H :=
  repeat (run_simpl H; first [discriminate H | run_step H]);
  run_simpl H.

(** Carry [timers_among] along the equations of a run. *)
Ltac among :=
  repeat match goal with
  | Hx : timers_among ?w0 ?a, E : getAccessToken _ _ ?a = (_, ?b) |- _ =>
      apply (keeps_run_eq _ _ _ _ _ (keeps_getAccessToken _ _ _ (timers_among_basic w0)) Hx) in E;
      clear Hx
  | Hx : timers_among ?w0 ?a, E : request _ _ ?a = (_, ?b) |- _ =>
      apply (keeps_run_eq _ _ _ _ _ (keeps_request _ (timers_among_basic w0) _ _) Hx) in E;
      clear Hx
  | Hx : timers_among ?w0 ?a, E : approve_link _ ?a = (_, ?b) |- _ =>
      apply (keeps_run_eq _ _ _ _ _ (keeps_approve_link (timers_among w0) _) Hx) in E;
      clear Hx
  end.

Section Created.

Variable callbacks : Callbacks.
Variable config : PayPalConfig.

Lemma emit_ok ev data w : exists w', emit callbacks ev data w = (Ok tt, w').
Proof.
  unfold emit, bind, modify. destruct (callbacks ev) as [cb|]; [|eexists; reflexivity].
  destruct (cb data); eexists; reflexivity.
Qed.

Lemma emit_cache ev data w r w' :
  emit callbacks ev data w = (r, w') ->
  metadataCache w' = metadataCache w /\ timers w' = timers w /\ clock w' = clock w
  /\ requests w' = requests w.
Proof.
  unfold emit, bind, modify. destruct (callbacks ev) as [cb|].
  - destruct (cb data); intros H; inversion H; subst; auto.
  - intros H; inversion H; subst; auto.
Qed.

Lemma createOrder_post a w result w' :
  createOrder callbacks config a w = (Ok result, w') ->
  let key := JS.get result "orderId" in
  JSMap.has (metadataCache w') key = true /\
  JSMap.get (metadataCache w') key = default (JS.Obj []) (order_metadata a) /\
  exists ts, timers w' = (clock w' + hour, key) :: ts /\ incl ts (timers w).
Proof.
  intros H. unfold createOrder in H.
  assert (Hgen : exists id w1, (match order_customId a with Some c => ret c | None => generateId end) w
                               = (Ok id, w1) /\ timers_among w w1).
  { destruct (order_customId a).
    - exists s, w. split; [reflexivity | apply incl_refl].
    - destruct (generateId w) as [[id|e] w1] eqn:E.
      + exists id, w1. split; [reflexivity|].
        eapply keeps_run_eq; [apply keeps_generateId_from, timers_among_basic| |exact E].
        apply incl_refl.
      + exfalso. unfold bind in H. rewrite E in H. discriminate. }
  destruct Hgen as (id & w1 & Hgen & Hw1).
  unfold bind at 1 in H. rewrite Hgen in H. clear Hgen.
  run_inv H.
  inversion H; subst; clear H.
  match goal with
  | E : emit _ _ _ _ = _ |- _ => apply emit_cache in E as (Hc & Ht & Hclk & _)
  end.
  simpl in *. rewrite Hc, Ht, Hclk.
  split; [apply has_set_same|]. split; [apply get_set_same|].
  eexists. split; [reflexivity|].
  among. assumption.
Qed.

Lemma createSubscription_post a w result w' :
  createSubscription callbacks config a w = (Ok result, w') ->
  let key := JS.get result "subscriptionId" in
  JSMap.has (metadataCache w') key = true /\
  JSMap.get (metadataCache w') key = default (JS.Obj []) (sub_metadata a) /\
  exists ts, timers w' = (clock w' + hour, key) :: ts /\ incl ts (timers w).
Proof.
  intros H. unfold createSubscription in H.
  assert (Hgen : exists id w1, (match sub_customId a with Some c => ret c | None => generateId end) w
                               = (Ok id, w1) /\ timers_among w w1).
  { destruct (sub_customId a).
    - exists s, w. split; [reflexivity | apply incl_refl].
    - destruct (generateId w) as [[id|e] w1] eqn:E.
      + exists id, w1. split; [reflexivity|].
        eapply keeps_run_eq; [apply keeps_generateId_from, timers_among_basic| |exact E].
        apply incl_refl.
      + exfalso. unfold bind in H. rewrite E in H. discriminate. }
  destruct Hgen as (id & w1 & Hgen & Hw1).
  unfold bind at 1 in H. rewrite Hgen in H. clear Hgen.
  run_inv H.
  inversion H; subst; clear H.
  match goal with
  | E : emit _ _ _ _ = _ |- _ => apply emit_cache in E as (Hc & Ht & Hclk & _)
  end.
  simpl in *. rewrite Hc, Ht, Hclk.
  split; [apply has_set_same|]. split; [apply get_set_same|].
  eexists. split; [reflexivity|].
  among. assumption.
Qed.

(** From the state right after a creation: the entry outlives every
    sequence of calls that does not verify or cancel it, up to its
    earliest timer; a fresh key has one timer, an hour away. *)
Lemma entry_lifetime key w w' ts :
  JSMap.has (metadataCache w') key = true ->
  timers w' = (clock w' + hour, key) :: ts -> incl ts (timers w) ->
  (forall d ops,
      no_timer_before d key (timers w') ->
      Forall (fun op => purges key op = false) ops ->
      clock (run_all callbacks config ops w') < d ->
      JSMap.has (metadataCache (run_all callbacks config ops w')) key = true) /\
  (no_timer_for key (timers w) -> no_timer_before (clock w' + hour) key (timers w')).
Proof.
  intros Hhas Ht Hts. split.
  - intros d ops Hd Hops Hclock.
    assert (Hle : d <= clock w' + hour).
    { rewrite Ht in Hd. inversion Hd; subst. simpl in *. auto using key_eqb_refl. }
    assert (Hheld : held_until d key w') by (split; auto).
    apply (held_until_run_all callbacks config _ _ ops) in Hheld; [|exact Hops].
    destruct Hheld as [_ Hheld]. apply Hheld, Hclock.
  - intros Hnone. rewrite Ht. constructor; [simpl; lia|].
    apply no_timer_for_before. eapply no_timer_for_incl; eauto.
Qed.

End Created.

(** C1 (as amended).  A successful [createOrder] or [createSubscription]
    stores the metadata under the identifier the provider assigned
    (the returned [orderId] or [subscriptionId], not [transactionId]).
    The entry is there when the call returns and stays through every
    sequence of later calls that neither verifies nor cancels that
    identifier, as long as the clock is below the earliest pending
    timer for the key; for a key with no earlier timer that is one hour
    after the creation. *)
Theorem created_metadata_is_cached_under_the_provider_id callbacks config :
  (forall a w result w',
      createOrder callbacks config a w = (Ok result, w') ->
      let key := JS.get result "orderId" in
      JSMap.has (metadataCache w') key = true /\
      JSMap.get (metadataCache w') key = default (JS.Obj []) (order_metadata a) /\
      (forall d ops,
          no_timer_before d key (timers w') ->
          Forall (fun op => purges key op = false) ops ->
          clock (run_all callbacks config ops w') < d ->
          JSMap.has (metadataCache (run_all callbacks config ops w')) key = true) /\
      (no_timer_for key (timers w) -> no_timer_before (clock w' + hour) key (timers w')))
  /\
  (forall a w result w',
      createSubscription callbacks config a w = (Ok result, w') ->
      let key := JS.get result "subscriptionId" in
      JSMap.has (metadataCache w') key = true /\
      JSMap.get (metadataCache w') key = default (JS.Obj []) (sub_metadata a) /\
      (forall d ops,
          no_timer_before d key (timers w') ->
          Forall (fun op => purges key op = false) ops ->
          clock (run_all callbacks config ops w') < d ->
          JSMap.has (metadataCache (run_all callbacks config ops w')) key = true) /\
      (no_timer_for key (timers w) -> no_timer_before (clock w' + hour) key (timers w'))).
Proof.
  split; intros a w result w' H key.
  - destruct (createOrder_post _ _ _ _ _ _ H) as (Hhas & Hget & ts & Ht & Hts).
    split; [exact Hhas|]. split; [exact Hget|].
    exact (entry_lifetime callbacks config _ w w' ts Hhas Ht Hts).
  - destruct (createSubscription_post _ _ _ _ _ _ H) as (Hhas & Hget & ts & Ht & Hts).
    split; [exact Hhas|]. split; [exact Hget|].
    exact (entry_lifetime callbacks config _ w w' ts Hhas Ht Hts).
Qed.

(* ================================================================== *)
(** ** Verification purges the cache entry *)

Lemma hoare_trivial {A} (P : World -> Prop) (m : M A) :
  hoare P m (fun _ _ => True) (fun _ _ => True).
Proof. intros w _. destruct (m w) as [[a|e] w']; exact Logic.I. Qed.

Lemma hoare_snd {A} (P Q : World -> Prop) (m : M A) w :
  hoare P m (fun _ => Q) (fun _ => Q) -> P w -> Q (snd (m w)).
Proof. intros H Hw. specialize (H w Hw). destruct (m w) as [[a|e] w']; exact H. Qed.

(** The end of a verification that returns. *)
Lemma hoare_delete_ret {A} (P : World -> Prop) (m : M unit) key (result : A) :
  hoare P (m ;;; cache_delete key ;;; ret result)
        (fun _ => purged key) (fun _ _ => True).
Proof.
  intros w _. unfold bind, cache_delete, modify, ret.
  destruct (m w) as [[u|e] w']; [|exact Logic.I].
  apply has_delete_same.
Qed.

(** The end of a verification that failed. *)
Lemma hoare_emit_delete_throw {A} callbacks (P : World -> Prop) ev data key e
    (Q : A -> World -> Prop) :
  hoare P (emit callbacks ev data ;;; cache_delete key ;;; throw e)
        Q (fun _ => purged key).
Proof.
  intros w _. unfold bind, cache_delete, modify, throw.
  destruct (emit_ok callbacks ev data w) as [w' ->].
  apply has_delete_same.
Qed.

Ltac to_the_end :=
  repeat first
    [ apply hoare_delete_ret
    | eapply hoare_bind; [apply hoare_trivial | intros ?; cbv zeta] ].

Section Purge.

Variable callbacks : Callbacks.
Variable config : PayPalConfig.

Lemma verifyOrder_purges id w token w1 :
  getAccessToken callbacks config w = (Ok token, w1) ->
  purged (JS.Str id) (snd (verifyOrder callbacks config id w)).
Proof.
  intros Htoken. unfold verifyOrder. unfold bind at 1. rewrite Htoken.
  apply (hoare_snd (fun _ => True)); [|exact Logic.I].
  eapply hoare_try_catch with (R := fun _ _ => True).
  - to_the_end.
  - intros e. apply hoare_emit_delete_throw.
Qed.

Lemma verifySubscription_purges id w token w1 :
  getAccessToken callbacks config w = (Ok token, w1) ->
  purged (JS.Str id) (snd (verifySubscription callbacks config id w)).
Proof.
  intros Htoken. unfold verifySubscription. unfold bind at 1. rewrite Htoken.
  apply (hoare_snd (fun _ => True)); [|exact Logic.I].
  eapply hoare_try_catch with (R := fun _ _ => True).
  - to_the_end.
  - intros e. apply hoare_emit_delete_throw.
Qed.

(** When the token cannot be had the call stops there. *)
Lemma verifyOrder_without_token id w e w1 :
  getAccessToken callbacks config w = (Throw e, w1) ->
  verifyOrder callbacks config id w = (Throw e, w1).
Proof. intros H. unfold verifyOrder, bind. now rewrite H. Qed.

Lemma verifySubscription_without_token id w e w1 :
  getAccessToken callbacks config w = (Throw e, w1) ->
  verifySubscription callbacks config id w = (Throw e, w1).
Proof. intros H. unfold verifySubscription, bind. now rewrite H. Qed.

End Purge.

(** C2 (as amended).  Once the access token is obtained (from the cache
    or by a successful exchange), [verifyOrder] and [verifySubscription]
    leave the cache without an entry for the identifier they were given,
    whether they return or the provider request fails; when the token
    exchange itself fails they throw that error and do nothing else.
    Deleting an absent key changes nothing. *)
Theorem verification_purges_the_entry callbacks config :
  (forall id w token w1,
      getAccessToken callbacks config w = (Ok token, w1) ->
      JSMap.has (metadataCache (snd (verifyOrder callbacks config id w))) (JS.Str id) = false /\
      JSMap.has (metadataCache (snd (verifySubscription callbacks config id w))) (JS.Str id) = false)
  /\
  (forall id w e w1,
      getAccessToken callbacks config w = (Throw e, w1) ->
      verifyOrder callbacks config id w = (Throw e, w1) /\
      verifySubscription callbacks config id w = (Throw e, w1))
  /\
  (forall m key, JSMap.has m key = false -> JSMap.delete m key = m).
Proof.
  split; [|split].
  - intros id w token w1 H. split.
    + exact (verifyOrder_purges callbacks config id w token w1 H).
    + exact (verifySubscription_purges callbacks config id w token w1 H).
  - intros id w e w1 H. split.
    + now apply verifyOrder_without_token.
    + now apply verifySubscription_without_token.
  - exact delete_absent.
Qed.

(* ================================================================== *)
(** ** What is emitted *)

Lemma request_logs method url w r w' :
  request method url w = (r, w') ->
  emitted w' = emitted w /\ console w' = console w /\
  requests w' = mkRequest method url :: requests w /\
  tokenCache w' = tokenCache w /\ tokenExpiry w' = tokenExpiry w /\
  clock w <= clock w'.
Proof.
  unfold request. simpl.
  destruct (network w) as [|[delay reply] rest].
  - intros H. inversion H; subst. simpl. repeat split; lia.
  - assert (forall r0, (r0, elapse delay (set_network rest
              (set_requests (mkRequest method url :: requests w) w))) = (r, w') ->
            emitted w' = emitted w /\ console w' = console w /\
            requests w' = mkRequest method url :: requests w /\
            tokenCache w' = tokenCache w /\ tokenExpiry w' = tokenExpiry w /\
            clock w <= clock w') as Hall.
    { intros r0 H. inversion H; subst. simpl. repeat split; lia. }
    destruct reply as [|status body]; [apply Hall|].
    destruct body; try apply Hall;
      destruct ((200 <=? status) && (status <=? 299)); apply Hall.
Qed.

Section Emitted.

Variable callbacks : Callbacks.
Variable config : PayPalConfig.

Lemma emit_logs ev data w r w' :
  emit callbacks ev data w = (r, w') ->
  r = Ok tt /\ emitted w' = (ev, data) :: emitted w /\ requests w' = requests w /\
  metadataCache w' = metadataCache w.
Proof.
  unfold emit, bind, modify. destruct (callbacks ev) as [cb|].
  - destruct (cb data); intros H; inversion H; subst; auto.
  - intros H; inversion H; subst; auto.
Qed.

(** A token that is handed out costs no event. *)
Lemma getAccessToken_ok_emitted w token w' :
  getAccessToken callbacks config w = (Ok token, w') -> emitted w' = emitted w.
Proof.
  unfold getAccessToken.
  destruct (JS.truthy (tokenCache w) && expiry_after (tokenExpiry w) (clock w)).
  - intros H. now inversion H.
  - intros H. run_inv H.
    inversion H; subst. simpl.
    match goal with E : request _ _ _ = _ |- _ => apply request_logs in E as (He & _) end.
    exact He.
Qed.

End Emitted.

(** Bring the event log of the last world back to that of the first. *)
Ltac emitted_back :=
  repeat match goal with
  | E : request _ _ _ = _ |- _ =>
      let He := fresh "He" in apply request_logs in E as (He & _)
  | E : getAccessToken _ _ _ = (Ok _, _) |- _ =>
      apply getAccessToken_ok_emitted in E
  | E : emit _ _ _ _ = _ |- _ =>
      let He := fresh "He" in apply emit_logs in E as (_ & He & _)
  end;
  repeat match goal with
  | He : emitted _ = _ |- _ => rewrite He; clear He
  end.

Ltac by_status :=
  repeat match goal with
  | Hc : _ = true |- _ => rewrite Hc; clear Hc
  | Hc : _ = false |- _ => rewrite Hc; clear Hc
  end;
  try reflexivity.

Section Dispatch.

Variable callbacks : Callbacks.
Variable config : PayPalConfig.

Lemma verifyOrder_dispatch id w result w' :
  verifyOrder callbacks config id w = (Ok result, w') ->
  emitted w' =
    (dispatched "order" (Some (order_status (JS.get result "status"))) result ++ emitted w)%list.
Proof.
  intros H. unfold verifyOrder in H. run_inv H.
  all: inversion H; subst; clear H; simpl.
  all: emitted_back.
  all: cbn [JS.get JS.assoc String.eqb Ascii.eqb Bool.eqb].
  all: unfold order_status; by_status.
Qed.

Lemma verifySubscription_dispatch id w result w' :
  verifySubscription callbacks config id w = (Ok result, w') ->
  emitted w' =
    (dispatched "subscription" (subscription_status (JS.get result "status")) result
     ++ emitted w)%list.
Proof.
  intros H. unfold verifySubscription in H. run_inv H.
  all: inversion H; subst; clear H; simpl.
  all: emitted_back.
  all: cbn [JS.get JS.assoc String.eqb Ascii.eqb Bool.eqb].
  all: unfold subscription_status; by_status.
Qed.

Lemma verifyCharge_dispatch id w result w' :
  verifyCharge callbacks id w = (Ok result, w') ->
  emitted w' =
    (dispatched "charge" (charge_status (JS.get result "status")) result ++ emitted w)%list.
Proof.
  intros H. unfold verifyCharge in H. run_inv H.
  all: inversion H; subst; clear H; simpl.
  all: emitted_back.
  all: cbn [JS.get JS.assoc String.eqb Ascii.eqb Bool.eqb].
  all: unfold charge_status; by_status.
Qed.

End Dispatch.

(** C3 (as amended).  A [verifyOrder] that returns dispatched exactly
    one event, the one the table gives for the status it returns
    (completed, cancelled or, for anything else, failed).
    [verifySubscription] dispatched one event for ACTIVE and for
    CANCELLED and none for any other status; [verifyCharge] dispatched
    one event for COMPLETED, CANCELED, EXPIRED and UNRESOLVED and none
    for any other last status.  The event carries the returned result. *)
Theorem verification_dispatches_by_status callbacks config :
  (forall id w result w',
      verifyOrder callbacks config id w = (Ok result, w') ->
      exists ev,
        callback_of "order" (order_status (JS.get result "status")) = Some ev /\
        emitted w' = (ev, result) :: emitted w)
  /\
  (forall id w result w',
      verifySubscription callbacks config id w = (Ok result, w') ->
      emitted w' =
        (dispatched "subscription" (subscription_status (JS.get result "status")) result
         ++ emitted w)%list)
  /\
  (forall id w result w',
      verifyCharge callbacks id w = (Ok result, w') ->
      emitted w' =
        (dispatched "charge" (charge_status (JS.get result "status")) result
         ++ emitted w)%list).
Proof.
  split; [|split].
  - intros id w result w' H.
    apply verifyOrder_dispatch in H. unfold dispatched in H.
    destruct (callback_of "order" (order_status (JS.get result "status"))) as [ev|] eqn:E.
    + exists ev. split; [reflexivity | exact H].
    + destruct (order_status (JS.get result "status")); discriminate.
  - intros id w result w'. apply verifySubscription_dispatch.
  - intros id w result w'. apply verifyCharge_dispatch.
Qed.

(* ================================================================== *)
(** ** The access token *)

Section Token.

Variable callbacks : Callbacks.
Variable config : PayPalConfig.

Lemma getAccessToken_hit w :
  JS.truthy (tokenCache w) = true ->
  expiry_after (tokenExpiry w) (clock w) = true ->
  getAccessToken callbacks config w = (Ok (tokenCache w), w).
Proof. intros H1 H2. unfold getAccessToken. now rewrite H1, H2. Qed.

Lemma getAccessToken_stores w token w1 :
  getAccessToken callbacks config w = (Ok token, w1) ->
  tokenCache w1 = token /\ expiry_after (tokenExpiry w1) (clock w1) = true.
Proof.
  unfold getAccessToken.
  destruct (JS.truthy (tokenCache w) && expiry_after (tokenExpiry w) (clock w)) eqn:Hhit.
  - intros H. inversion H; subst. apply andb_true_iff in Hhit. tauto.
  - intros H. run_inv H. inversion H; subst; clear H. simpl.
    split; [reflexivity|]. unfold expiry_after, hour. simpl. apply Z.ltb_lt. lia.
Qed.


End Token.


(* ================================================================== *)
(** ** How [createOrder] fails *)

Section OrderErrors.

Variable callbacks : Callbacks.
Variable config : PayPalConfig.








End OrderErrors.


(* ================================================================== *)
(** ** Callbacks cannot disturb a call *)

Lemma quiet_fields w1 w2 :
  quiet w1 = quiet w2 <->
  clock w1 = clock w2 /\ network w1 = network w2 /\ dice w1 = dice w2 /\
  metadataCache w1 = metadataCache w2 /\ timers w1 = timers w2 /\
  tokenCache w1 = tokenCache w2 /\ tokenExpiry w1 = tokenExpiry w2 /\
  requests w1 = requests w2 /\ emitted w1 = emitted w2.
Proof.
  destruct w1, w2. unfold quiet, set_console. simpl. split.
  - intros H. inversion H. repeat split; reflexivity.
  - intros (? & ? & ? & ? & ? & ? & ? & ? & ?). subst. reflexivity.
Qed.

(** Worlds that differ by the console only. *)
Ltac same_but_console :=
  match goal with
  | H : quiet ?w1 = quiet ?w2 |- _ =>
      let H1 := fresh in
      destruct w1, w2; apply quiet_fields in H; simpl in H;
      destruct H as (? & ? & ? & ? & ? & ? & ? & ? & ?); subst
  end.

Section AgreeRules.

Context {A B : Type}.

Lemma agree_ret (a : A) : agree (ret a) (ret a).
Proof. intros w1 w2 H. simpl. auto. Qed.

Lemma agree_throw (e : Error) : agree (@throw A e) (throw e).
Proof. intros w1 w2 H. simpl. auto. Qed.

Lemma agree_bind (m1 m2 : M A) (k1 k2 : A -> M B) :
  agree m1 m2 -> (forall a, agree (k1 a) (k2 a)) -> agree (bind m1 k1) (bind m2 k2).
Proof.
  intros Hm Hk w1 w2 H. unfold bind. destruct (Hm w1 w2 H) as [Hr Hw].
  destruct (m1 w1) as [r1 w1'], (m2 w2) as [r2 w2']. simpl in *. subst r2.
  destruct r1 as [a|e]; [apply Hk, Hw | auto].
Qed.

Lemma agree_try_catch (b1 b2 : M A) (h1 h2 : Error -> M A) :
  agree b1 b2 -> (forall e, agree (h1 e) (h2 e)) ->
  agree (try_catch b1 h1) (try_catch b2 h2).
Proof.
  intros Hb Hh w1 w2 H. unfold try_catch. destruct (Hb w1 w2 H) as [Hr Hw].
  destruct (b1 w1) as [r1 w1'], (b2 w2) as [r2 w2']. simpl in *. subst r2.
  destruct r1 as [a|e]; [auto | apply Hh, Hw].
Qed.

Lemma agree_read (f : World -> A) :
  (forall w1 w2, quiet w1 = quiet w2 -> f w1 = f w2) -> agree (read f) (read f).
Proof. intros Hf w1 w2 H. simpl. split; [f_equal; auto | auto]. Qed.

End AgreeRules.

Lemma agree_modify (f : World -> World) :
  (forall w1 w2, quiet w1 = quiet w2 -> quiet (f w1) = quiet (f w2)) ->
  agree (modify f) (modify f).
Proof. intros Hf w1 w2 H. simpl. auto. Qed.

Lemma agree_prop v k : agree (prop v k) (prop v k).
Proof. unfold prop. destruct (JS.nullish v); [apply agree_throw | apply agree_ret]. Qed.

Lemma agree_random_digit : agree random_digit random_digit.
Proof.
  intros w1 w2 H. same_but_console. unfold random_digit. simpl.
  match goal with |- context [match ?d with [] => _ | _ :: _ => _ end] => destruct d end;
    simpl; auto.
Qed.

Lemma agree_generateId_from n : forall id, agree (generateId_from n id) (generateId_from n id).
Proof.
  induction n as [|n IH]; intros id; simpl; [apply agree_ret|].
  apply agree_bind; [apply agree_random_digit | intros; apply IH].
Qed.

Lemma agree_request method url : agree (request method url) (request method url).
Proof.
  intros w1 w2 H. same_but_console. unfold request. simpl.
  match goal with
  | |- context [match ?n with [] => _ | _ :: _ => _ end] =>
      destruct n as [|[delay reply] rest]
  end; simpl; [auto|].
  destruct reply as [|status body]; simpl; [auto|].
  destruct body; simpl; auto;
    destruct ((200 <=? status) && (status <=? 299)); simpl; auto.
Qed.

Lemma agree_find_approve l : agree (find_approve l) (find_approve l).
Proof.
  induction l as [|link r IH]; simpl; [apply agree_ret|].
  apply agree_bind; [apply agree_prop|]. intros rel.
  destruct (JS.str_is rel "approve"); [apply agree_ret | exact IH].
Qed.

Lemma agree_approve_link resp : agree (approve_link resp) (approve_link resp).
Proof.
  unfold approve_link. apply agree_bind; [apply agree_prop|]. intros links.
  apply agree_bind; [|intros; apply agree_prop].
  destruct links; try apply agree_throw. apply agree_find_approve.
Qed.

Lemma agree_cache_set key v : agree (cache_set key v) (cache_set key v).
Proof. apply agree_modify. intros w1 w2 H. same_but_console. reflexivity. Qed.

Lemma agree_cache_delete key : agree (cache_delete key) (cache_delete key).
Proof. apply agree_modify. intros w1 w2 H. same_but_console. reflexivity. Qed.

Lemma agree_cache_get key : agree (cache_get_or_empty key) (cache_get_or_empty key).
Proof. apply agree_read. intros w1 w2 H. same_but_console. reflexivity. Qed.

Lemma agree_setTimeout key ms : agree (setTimeout_delete key ms) (setTimeout_delete key ms).
Proof. apply agree_modify. intros w1 w2 H. same_but_console. reflexivity. Qed.

Lemma agree_elapse dt : agree (modify (elapse dt)) (modify (elapse dt)).
Proof. apply agree_modify. intros w1 w2 H. same_but_console. reflexivity. Qed.

Section TwoHosts.

Variables callbacks callbacks' : Callbacks.
Variable config : PayPalConfig.

(** Whatever the two callbacks do, [emit] returns and the worlds differ
    by the console only. *)
Lemma agree_emit ev data : agree (emit callbacks ev data) (emit callbacks' ev data).
Proof.
  intros w1 w2 H. same_but_console. unfold emit, bind, modify. simpl.
  destruct (callbacks ev) as [cb|], (callbacks' ev) as [cb'|];
    try destruct (cb data); try destruct (cb' data); simpl; auto.
Qed.

Lemma agree_getAccessToken :
  agree (getAccessToken callbacks config) (getAccessToken callbacks' config).
Proof.
  intros w1 w2 H. unfold getAccessToken.
  assert (Hc : tokenCache w1 = tokenCache w2 /\ tokenExpiry w1 = tokenExpiry w2 /\
               clock w1 = clock w2) by (apply quiet_fields in H; tauto).
  destruct Hc as (-> & -> & ->).
  destruct (JS.truthy (tokenCache w2) && expiry_after (tokenExpiry w2) (clock w2));
    [simpl; auto|].
  revert w1 w2 H. apply agree_try_catch.
  - apply agree_bind; [apply agree_request|]. intros resp.
    apply agree_bind; [apply agree_prop|]. intros token.
    apply agree_bind.
    { apply agree_modify. intros w1 w2 H. same_but_console. reflexivity. }
    intros _. apply agree_bind.
    { apply agree_modify. intros w1 w2 H. same_but_console. reflexivity. }
    intros _. apply agree_read. intros w1 w2 H. same_but_console. reflexivity.
  - intros e. apply agree_bind; [apply agree_emit | intros; apply agree_throw].
Qed.

Ltac agree_step :=
  match goal with
  | |- agree (bind _ _) (bind _ _) => apply agree_bind; [|intros ?]
  | |- agree (try_catch _ _) (try_catch _ _) => apply agree_try_catch; [|intros ?]
  | |- agree (ret _) _ => apply agree_ret
  | |- agree (throw _) _ => apply agree_throw
  | |- agree (prop _ _) _ => apply agree_prop
  | |- agree (emit _ _ _) _ => apply agree_emit
  | |- agree (request _ _) _ => apply agree_request
  | |- agree (approve_link _) _ => apply agree_approve_link
  | |- agree (cache_get_or_empty _) _ => apply agree_cache_get
  | |- agree (cache_set _ _) _ => apply agree_cache_set
  | |- agree (cache_delete _) _ => apply agree_cache_delete
  | |- agree (setTimeout_delete _ _) _ => apply agree_setTimeout
  | |- agree (getAccessToken _ _) _ => apply agree_getAccessToken
  | |- agree generateId _ => apply agree_generateId_from
  | |- agree (if ?b then _ else _) _ => destruct b
  | |- agree (match ?o with Some _ => _ | None => _ end) _ => destruct o
  end.

Lemma agree_run op : agree (run callbacks config op) (run callbacks' config op).
Proof.
  destruct op; simpl;
    unfold createOrder, verifyOrder, createPlan, createProduct, createSubscription,
      verifySubscription, cancelSubscription, createCharge, verifyCharge;
    cbv zeta; repeat agree_step.
  apply agree_elapse.
Qed.

End TwoHosts.

Lemma emit_contains callbacks ev data w :
  exists w',
    emit callbacks ev data w = (Ok tt, w') /\
    quiet w' = quiet (set_emitted ((ev, data) :: emitted w) w) /\
    (forall cb err, callbacks ev = Some cb -> cb data = Throws err ->
        console w' = JS.Arr [JS.Str "callback error:"; err] :: console w).
Proof.
  unfold emit, bind, modify. destruct (callbacks ev) as [cb|].
  - destruct (cb data) eqn:E; eexists; (split; [reflexivity|]); split; try reflexivity.
    + intros cb' err H. inversion H; subst. congruence.
    + intros cb' err0 H. inversion H; subst. rewrite E. intros H'. now inversion H'.
  - eexists. split; [reflexivity|]. split; [reflexivity|]. discriminate.
Qed.

(** C9.  [emit] always returns: when the callback throws, the error goes
    to the console and nowhere else.  Hence every call of the gateway
    returns the same result (or throws the same error) and leaves the
    same world, console apart, whatever the registered callbacks do:
    with callbacks that throw, with callbacks that return, with none. *)
Theorem callback_exceptions_are_contained callbacks config :
  (forall ev data w,
      exists w',
        emit callbacks ev data w = (Ok tt, w') /\
        quiet w' = quiet (set_emitted ((ev, data) :: emitted w) w) /\
        (forall cb err, callbacks ev = Some cb -> cb data = Throws err ->
            console w' = JS.Arr [JS.Str "callback error:"; err] :: console w))
  /\
  (forall callbacks' op w,
      fst (run callbacks config op w) = fst (run callbacks' config op w) /\
      quiet (snd (run callbacks config op w)) = quiet (snd (run callbacks' config op w))).
Proof.
  split.
  - apply emit_contains.
  - intros callbacks' op w. now apply agree_run.
Qed.

(* ================================================================== *)
(** ** The amount and the transaction of a verified order *)

Section Fallback.

Variable callbacks : Callbacks.
Variable config : PayPalConfig.



End Fallback.


(* ================================================================== *)
(** ** The amount of a new order: printing and reading two decimals *)









Lemma digit_char_read b :
  0 <= b < 10 -> JS.digit_of_char (JS.digit_char b) = Some (digit_cons b).
Proof.
  intros Hb.
  assert (b = 0 \/ b = 1 \/ b = 2 \/ b = 3 \/ b = 4 \/ b = 5 \/ b = 6 \/ b = 7 \/ b = 8 \/ b = 9)
    as Hcases by lia.
  repeat (destruct Hcases as [->|Hcases]; [reflexivity|]). subst. reflexivity.
Qed.






Section Amount.

Variable callbacks : Callbacks.
Variable config : PayPalConfig.



End Amount.



(* ================================================================== *)
(** ** Webhook signatures *)

Lemma land_255_byte x : is_byte (Z.land x 255).
Proof.
  unfold is_byte. change 255 with (Z.ones 8). rewrite Z.land_ones by lia.
  apply Z.mod_pos_bound. lia.
Qed.

Lemma bytes_of_word_bytes w : Forall is_byte (Sha256.bytes_of_word w).
Proof. unfold Sha256.bytes_of_word. repeat constructor; apply land_255_byte. Qed.

Lemma digest_bytes msg : Forall is_byte (Sha256.digest msg).
Proof.
  unfold Sha256.digest. generalize (fold_left Sha256.compress
    (Sha256.blocks (List.length (Sha256.words_of_bytes (Sha256.pad msg)))
       (Sha256.words_of_bytes (Sha256.pad msg))) Sha256.H0).
  intros l. induction l as [|w r IH]; cbn [flat_map]; [constructor|].
  apply Forall_app. split; [apply bytes_of_word_bytes | exact IH].
Qed.

Lemma unhex_hex_digit k : 0 <= k < 16 -> unhex_digit (hex_digit k) = k.
Proof.
  intros Hk.
  assert (k = 0 \/ k = 1 \/ k = 2 \/ k = 3 \/ k = 4 \/ k = 5 \/ k = 6 \/ k = 7 \/
          k = 8 \/ k = 9 \/ k = 10 \/ k = 11 \/ k = 12 \/ k = 13 \/ k = 14 \/ k = 15)
    as Hcases by lia.
  repeat (destruct Hcases as [->|Hcases]; [reflexivity|]). subst. reflexivity.
Qed.

Lemma byte_nibbles b :
  is_byte b ->
  0 <= Z.shiftr b 4 < 16 /\ 0 <= Z.land b 15 < 16 /\ b = 16 * Z.shiftr b 4 + Z.land b 15.
Proof.
  unfold is_byte. intros Hb.
  rewrite Z.shiftr_div_pow2 by lia. change 15 with (Z.ones 4). rewrite Z.land_ones by lia.
  change (2 ^ 4) with 16.
  pose proof (Z.div_mod b 16 ltac:(lia)). pose proof (Z.mod_pos_bound b 16 ltac:(lia)).
  repeat split; lia.
Qed.

(** Hex is one-to-one on bytes. *)
Lemma hex_injective bs : forall bs',
  Forall is_byte bs -> Forall is_byte bs' -> hex bs = hex bs' -> bs = bs'.
Proof.
  induction bs as [|b r IH]; intros [|b' r'] Hbs Hbs' H; simpl in H;
    try discriminate; [reflexivity|].
  inversion Hbs; subst. inversion Hbs'; subst. inversion H as [[Hhi Hlo Hr]].
  destruct (byte_nibbles b) as (Hh & Hl & Hb); [assumption|].
  destruct (byte_nibbles b') as (Hh' & Hl' & Hb'); [assumption|].
  apply (f_equal unhex_digit) in Hhi, Hlo.
  rewrite !unhex_hex_digit in Hhi, Hlo by assumption.
  f_equal; [lia | now apply IH].
Qed.

Lemma hmac_bytes key msg : Forall is_byte (Hmac.hmac_sha256 key msg).
Proof. apply digest_bytes. Qed.

Lemma signature_injective p k p' k' :
  webhook_signature p k = webhook_signature p' k' <->
  Hmac.hmac_sha256 (bytes_of_string k) (bytes_of_string p)
  = Hmac.hmac_sha256 (bytes_of_string k') (bytes_of_string p').
Proof.
  unfold webhook_signature. split; [|intros ->; reflexivity].
  apply hex_injective; apply hmac_bytes.
Qed.

(** A key shorter than a block and the same key followed by a zero byte
    are one HMAC key. *)
Lemma key_block_zero key :
  (List.length key < Hmac.block_size)%nat ->
  Hmac.key_block (key ++ [0]) = Hmac.key_block key.
Proof.
  intros Hlen. unfold Hmac.key_block. rewrite length_app. simpl List.length.
  replace (Hmac.block_size <? List.length key + 1)%nat with false
    by (symmetry; apply Nat.ltb_ge; lia).
  replace (Hmac.block_size <? List.length key)%nat with false
    by (symmetry; apply Nat.ltb_ge; lia).
  rewrite length_app. simpl List.length. rewrite <- app_assoc. f_equal.
  replace (Hmac.block_size - List.length key)%nat
    with (S (Hmac.block_size - (List.length key + 1)))%nat by lia.
  reflexivity.
Qed.

Lemma bytes_of_string_app s t :
  bytes_of_string (s ++ t) = (bytes_of_string s ++ bytes_of_string t)%list.
Proof.
  unfold bytes_of_string. induction s as [|c r IH]; simpl; [reflexivity|].
  now rewrite IH.
Qed.

Lemma bytes_of_string_length s : List.length (bytes_of_string s) = String.length s.
Proof.
  unfold bytes_of_string. rewrite length_map.
  induction s as [|c r IH]; simpl; [reflexivity | now rewrite IH].
Qed.

Lemma signature_zero_padded payload secret :
  (String.length secret < 64)%nat ->
  webhook_signature payload (secret ++ String Ascii.zero EmptyString)
  = webhook_signature payload secret.
Proof.
  intros Hlen. unfold webhook_signature, Hmac.hmac_sha256.
  rewrite bytes_of_string_app. change (bytes_of_string (String Ascii.zero EmptyString)) with [0].
  rewrite key_block_zero; [reflexivity|].
  rewrite bytes_of_string_length. exact Hlen.
Qed.

(** C4 (as amended).  [verifyWebhook] returns true for the hex
    HMAC-SHA256 of the payload under the secret.  Given that signature
    with another payload or another secret it returns true exactly when
    the two HMAC values are the same, false otherwise; a different
    secret need not be a different HMAC key: a secret shorter than 64
    bytes and the same secret followed by a zero byte are accepted
    alike. *)
Theorem webhook_signature_check :
  (forall payload secret,
      verifyWebhook (JS.Str payload) (JS.Str (webhook_signature payload secret))
                    (JS.Str secret) = Ok true)
  /\
  (forall payload secret payload' secret',
      exists b,
        verifyWebhook (JS.Str payload') (JS.Str (webhook_signature payload secret))
                      (JS.Str secret') = Ok b /\
        (b = true <->
         Hmac.hmac_sha256 (bytes_of_string secret') (bytes_of_string payload')
         = Hmac.hmac_sha256 (bytes_of_string secret) (bytes_of_string payload)))
  /\
  (forall payload secret,
      (String.length secret < 64)%nat ->
      verifyWebhook (JS.Str payload) (JS.Str (webhook_signature payload secret))
                    (JS.Str (secret ++ String Ascii.zero EmptyString)) = Ok true).
Proof.
  split; [|split].
  - intros payload secret. unfold verifyWebhook. fold (webhook_signature payload secret).
    simpl. now rewrite String.eqb_refl.
  - intros payload secret payload' secret'. eexists. split; [reflexivity|].
    fold (webhook_signature payload' secret'). simpl. rewrite String.eqb_eq.
    rewrite signature_injective. split; intros H; symmetry; exact H.
  - intros payload secret Hlen. unfold verifyWebhook.
    fold (webhook_signature payload (secret ++ String Ascii.zero EmptyString)).
    rewrite signature_zero_padded by exact Hlen. simpl. now rewrite String.eqb_refl.
Qed.

(** C8 (as amended).  With a string payload and a string secret
    [verifyWebhook] returns a boolean whatever the signature is (a
    missing header, a number, a wrong string): true exactly for the
    string that is the hex HMAC, false for everything else.  A payload
    or a secret that is not a string is refused by [crypto] with a
    TypeError, which [verifyWebhook] lets through to its caller. *)
Theorem verifyWebhook_total_on_strings :
  (forall payload secret signature,
      exists b,
        verifyWebhook (JS.Str payload) signature (JS.Str secret) = Ok b /\
        (b = true <-> signature = JS.Str (webhook_signature payload secret)))
  /\
  (forall payload signature secret,
      (forall s, payload <> JS.Str s) \/ (forall s, secret <> JS.Str s) ->
      exists e, verifyWebhook payload signature secret = Throw e).
Proof.
  split.
  - intros payload secret signature. eexists. split; [reflexivity|].
    fold (webhook_signature payload secret). destruct signature; simpl;
      try (split; intros H; discriminate).
    rewrite String.eqb_eq. split; intros H; [now subst | now inversion H].
  - intros payload signature secret [H|H]; unfold verifyWebhook.
    + destruct secret; try (eexists; reflexivity).
      destruct payload; try (eexists; reflexivity). exfalso. now apply (H s0).
    + destruct secret; try (eexists; reflexivity). exfalso. now apply (H s).
Qed.

(* ================================================================== *)
(** ** The sample runs, checked *)

(** Known answers of SHA-256 (FIPS 180-4) and HMAC-SHA256 (RFC 4231). *)
Example sha256_abc :
  hex (Sha256.digest (bytes_of_string "abc"))
  = "ba7816bf8f01cfea414140de5dae2223b00361a396177a9cb410ff61f20015ad".
Proof. vm_compute. reflexivity. Qed.

Example sha256_two_blocks :
  hex (Sha256.digest
         (bytes_of_string "abcdbcdecdefdefgefghfghighijhijkijkljklmklmnlmnomnopnopq"))
  = "248d6a61d20638b8e5c026930c3e6039a33ce45964ff2167f6ecedd419db06c1".
Proof. vm_compute. reflexivity. Qed.

Example hmac_rfc4231_case2 :
  webhook_signature "what do ya want for nothing?" "Jefe"
  = "5bdcc146bf60754e6a042426089575c75a003f089d2739839dec58b964ec3843".
Proof. vm_compute. reflexivity. Qed.

Example hmac_rfc4231_case6 :
  hex (Hmac.hmac_sha256 (repeat 170 131)
         (bytes_of_string "Test Using Larger Than Block-Size Key - Hash Key First"))
  = "60e431591ee0b67f0d8a26aacbf5b77f8e0bc6213728c5140546040f0ee37f54".
Proof. vm_compute. reflexivity. Qed.

(** Known answers of [toFixed(2)] and of reading numerals. *)
Example toFixed2_examples :
  JS.toFixed2 (Sample.lit "1.005") = "1.00" /\
  JS.toFixed2 (Sample.lit "8.345") = "8.35" /\
  JS.toFixed2 (Sample.lit "0.125") = "0.13" /\
  JS.toFixed2 (Sample.lit "-0.001") = "-0.00" /\
  JS.toFixed2 (JS.mul (Sample.lit "0.1") (Sample.lit "3")) = "0.30" /\
  JS.toFixed2 (Sample.lit "1e21") = "1e+21" /\
  JS.toFixed2 (Sample.lit "1180591620717411303424") = "1.1805916207174113e+21".
Proof. vm_compute. repeat split; reflexivity. Qed.

Example parse_examples :
  Sample.lit "0.1" = S754_finite false 7205759403792794 (-56) /\
  Sample.lit "  12.5abc" = Sample.lit "12.5" /\
  Sample.lit ".5e1" = Sample.lit "5" /\
  Sample.lit "abc" = S754_nan /\
  Sample.lit "9007199254740993" = S754_finite false 4503599627370496 1 /\
  Sample.lit "1.7976931348623159e308" = S754_infinity false.
Proof. vm_compute. repeat split; reflexivity. Qed.

(** The scenarios of the specification: a widget at 19.99, twice, costs
    39.98, and the completed order is reported with the amount and the
    metadata; a charge whose timeline ends in EXPIRED is reported as
    failed. *)
Example widget_scenario :
  createOrder Sample.silent Sample.config Sample.widget Sample.checkout
    = (Ok Sample.created, Sample.pending) /\
  JS.get Sample.created "amount" = JS.Num (Sample.lit "39.98") /\
  verifyOrder Sample.silent Sample.config "5O190127TN364715T" Sample.returning
    = (Ok Sample.verified, Sample.settled) /\
  emitted Sample.settled = (onPaymentCompleted, Sample.verified) :: emitted Sample.pending /\
  JS.get Sample.verified "amount" = JS.Num (Sample.lit "39.98") /\
  JS.get Sample.verified "metadata" = JS.Obj [("userId", JS.Str "123")].
Proof. vm_compute. repeat split; reflexivity. Qed.

Example expired_charge_scenario :
  exists result w',
    verifyCharge Sample.silent "66BEOV2A" Sample.lapsed = (Ok result, w') /\
    emitted w' = [(onPaymentFailed, result)].
Proof. eexists. eexists. split; vm_compute; reflexivity. Qed.

(* ------------------------------------------------------------------ *)
(** *** Where the claims of the specification fail, and instances of
        the theorems *)

(** C1, as stated, fails: the returned [transactionId] is the caller's
    [customId], and the cache is keyed by the provider's order id. *)
Lemma transactionId_is_not_a_cache_key :
  createOrder Sample.silent Sample.config Sample.widget Sample.checkout
    = (Ok Sample.created, Sample.pending) /\
  JS.get Sample.created "transactionId" = JS.Str "tx-1001" /\
  JSMap.has (metadataCache Sample.pending) (JS.get Sample.created "transactionId") = false /\
  JSMap.has (metadataCache Sample.pending) (JS.get Sample.created "orderId") = true.
Proof. vm_compute. repeat split; reflexivity. Qed.

Lemma created_metadata_witness :
  createOrder Sample.silent Sample.config Sample.widget Sample.checkout
    = (Ok Sample.created, Sample.pending) /\
  JSMap.has (metadataCache Sample.pending) (JS.get Sample.created "orderId") = true /\
  JSMap.has
    (metadataCache (run_all Sample.silent Sample.config Sample.meanwhile Sample.pending))
    (JS.get Sample.created "orderId") = true.
Proof.
  assert (H : createOrder Sample.silent Sample.config Sample.widget Sample.checkout
              = (Ok Sample.created, Sample.pending)) by (vm_compute; reflexivity).
  split; [exact H|].
  destruct (proj1 (created_metadata_is_cached_under_the_provider_id
                     Sample.silent Sample.config)
                  Sample.widget Sample.checkout Sample.created Sample.pending H)
    as (Hhas & _ & Hstays & Hfresh).
  split; [exact Hhas|].
  apply (Hstays (clock Sample.pending + hour)).
  - apply Hfresh. constructor.
  - repeat constructor.
  - vm_compute. reflexivity.
Defined.

(** C2, as stated, fails: when the token has expired and the exchange
    fails, [verifyOrder] throws and the entry is still in the cache. *)
Lemma token_failure_keeps_the_entry :
  exists e w',
    verifyOrder Sample.silent Sample.config "5O190127TN364715T" Sample.stale = (Throw e, w') /\
    JSMap.has (metadataCache Sample.stale) (JS.Str "5O190127TN364715T") = true /\
    JSMap.has (metadataCache w') (JS.Str "5O190127TN364715T") = true.
Proof. eexists. eexists. split; [|split]; vm_compute; reflexivity. Qed.

Lemma verification_purges_witness :
  getAccessToken Sample.silent Sample.config Sample.returning
    = (Ok (JS.Str "A21AAFs9"), Sample.returning) /\
  JSMap.has (metadataCache Sample.returning) (JS.Str "5O190127TN364715T") = true /\
  JSMap.has
    (metadataCache (snd (verifyOrder Sample.silent Sample.config "5O190127TN364715T"
                           Sample.returning)))
    (JS.Str "5O190127TN364715T") = false.
Proof.
  assert (H : getAccessToken Sample.silent Sample.config Sample.returning
              = (Ok (JS.Str "A21AAFs9"), Sample.returning)) by (vm_compute; reflexivity).
  split; [exact H|]. split; [vm_compute; reflexivity|].
  exact (proj1 (proj1 (verification_purges_the_entry Sample.silent Sample.config)
                      "5O190127TN364715T" Sample.returning _ _ H)).
Defined.

(** C3, as stated, fails: a charge whose last status is PENDING, which
    is not in the table, is returned without any event. *)
Lemma pending_charge_dispatches_nothing :
  exists result w',
    verifyCharge Sample.silent "66BEOV2A" Sample.awaiting = (Ok result, w') /\
    JS.get result "status" = JS.Str "PENDING" /\
    emitted w' = [].
Proof. eexists. eexists. split; [|split]; vm_compute; reflexivity. Qed.

Lemma verification_dispatch_witness :
  verifyOrder Sample.silent Sample.config "5O190127TN364715T" Sample.returning
    = (Ok Sample.verified, Sample.settled) /\
  exists ev,
    callback_of "order" (order_status (JS.get Sample.verified "status")) = Some ev /\
    emitted Sample.settled = (ev, Sample.verified) :: emitted Sample.returning.
Proof.
  assert (H : verifyOrder Sample.silent Sample.config "5O190127TN364715T" Sample.returning
              = (Ok Sample.verified, Sample.settled)) by (vm_compute; reflexivity).
  split; [exact H|].
  exact (proj1 (verification_dispatches_by_status Sample.silent Sample.config)
               "5O190127TN364715T" Sample.returning Sample.verified Sample.settled H).
Defined.

(** C4, as stated, fails: a signature computed under one secret is
    accepted under a different one, the same bytes followed by a zero
    byte. *)
Lemma zero_padded_secret_is_accepted :
  "whsec" <> "whsec" ++ String Ascii.zero EmptyString /\
  verifyWebhook (JS.Str "{}") (JS.Str (webhook_signature "{}" "whsec"))
                (JS.Str ("whsec" ++ String Ascii.zero EmptyString)) = Ok true.
Proof. split; [discriminate | vm_compute; reflexivity]. Qed.

Lemma webhook_signature_witness :
  (String.length "whsec" < 64)%nat /\
  verifyWebhook (JS.Str "{}") (JS.Str (webhook_signature "{}" "whsec"))
                (JS.Str ("whsec" ++ String Ascii.zero EmptyString)) = Ok true.
Proof.
  assert (H : (String.length "whsec" < 64)%nat) by (simpl; lia).
  split; [exact H|].
  exact (proj2 (proj2 webhook_signature_check) "{}" "whsec" H).
Defined.





(** C8, as stated, fails: with no payload (a request whose body was not
    parsed) [verifyWebhook] throws. *)
Lemma undefined_payload_throws :
  exists e, verifyWebhook JS.Undefined (JS.Str "5bdcc146") (JS.Str "whsec") = Throw e.
Proof. eexists. reflexivity. Qed.

Lemma verifyWebhook_throws_witness :
  (forall s, JS.Undefined <> JS.Str s) /\
  exists e, verifyWebhook JS.Undefined (JS.Str "5bdcc146") (JS.Str "whsec") = Throw e.
Proof.
  assert (H : forall s, JS.Undefined <> JS.Str s) by (intros s; discriminate).
  split; [exact H|].
  exact (proj2 verifyWebhook_total_on_strings JS.Undefined (JS.Str "5bdcc146")
               (JS.Str "whsec") (or_introl H)).
Defined.

Lemma callback_exceptions_witness :
  fst (run Sample.throwing Sample.config (CreateOrder Sample.widget) Sample.checkout)
  = fst (run Sample.silent Sample.config (CreateOrder Sample.widget) Sample.checkout) /\
  quiet (snd (run Sample.throwing Sample.config (CreateOrder Sample.widget) Sample.checkout))
  = quiet (snd (run Sample.silent Sample.config (CreateOrder Sample.widget) Sample.checkout)).
Proof.
  exact (proj2 (callback_exceptions_are_contained Sample.throwing Sample.config)
               Sample.silent (CreateOrder Sample.widget) Sample.checkout).
Defined.


(** Beyond the range of the theorem on amounts: from 10^21 on
    [toFixed(2)] prints the exponent form, which reads back as the
    product itself. *)
Example large_amounts :
  JS.parseFloat (JS.Str (JS.toFixed2 (Sample.lit "1e21"))) = Sample.lit "1e21" /\
  JS.parseFloat (JS.Str (JS.toFixed2 (JS.mul (Sample.lit "1.5e300") (Sample.lit "3"))))
  = JS.mul (Sample.lit "1.5e300") (Sample.lit "3").
Proof. vm_compute. split; reflexivity. Qed.

(* ================================================================== *)
(** ** Identifiers *)

Lemma is_digit_digit_char d : 0 <= d < 10 -> is_digit (JS.digit_char d) = true.
Proof.
  intros Hd. unfold is_digit. now rewrite digit_char_read.
Qed.

Lemma append_assoc s t u : (s ++ t) ++ u = s ++ (t ++ u).
Proof. induction s as [|c s IH]; simpl; [reflexivity | now rewrite IH]. Qed.

Lemma set_dice_same w : set_dice (dice w) w = w.
Proof. now destruct w. Qed.

Lemma generateId_from_digits n : forall id w,
  exists ds,
    generateId_from n id w = (Ok (id ++ ds), set_dice (skipn n (dice w)) w) /\
    String.length ds = n /\
    forallb is_digit (list_ascii_of_string ds) = true.
Proof.
  induction n as [|n IH]; intros id w; simpl.
  - exists EmptyString. simpl. rewrite set_dice_same.
    replace (id ++ EmptyString) with id; [auto|].
    clear. induction id as [|c s IHs]; simpl; [reflexivity | now rewrite <- IHs].
  - unfold bind, random_digit.
    destruct (dice w) as [|d r] eqn:Hd.
    + destruct (IH (id ++ String (JS.digit_char 0) EmptyString) w) as (ds & Hrun & Hlen & Hall).
      exists (String (JS.digit_char 0) ds).
      rewrite Hrun, Hd, append_assoc. simpl.
      destruct n; simpl in *; rewrite ?Hd; auto.
    + destruct (IH (id ++ String (JS.digit_char (d mod 10)) EmptyString) (set_dice r w))
        as (ds & Hrun & Hlen & Hall).
      exists (String (JS.digit_char (d mod 10)) ds).
      rewrite Hrun, append_assoc. simpl. rewrite Hall, Hlen.
      rewrite is_digit_digit_char by (apply Z.mod_pos_bound; lia).
      auto.
Qed.

(** X1.  [generateId()] returns a string of exactly 17 characters, each
    a decimal digit; it cannot fail, and all it changes is the stream
    of random draws, of which it takes 17. *)
Theorem generateId_returns_17_digits w :
  exists id,
    generateId w = (Ok id, set_dice (skipn 17 (dice w)) w) /\
    String.length id = 17%nat /\
    forallb is_digit (list_ascii_of_string id) = true.
Proof.
  destruct (generateId_from_digits 17 EmptyString w) as (ds & H & Hlen & Hall).
  exists ds. auto.
Qed.

(* ================================================================== *)
(** ** Arguments are checked before anything is sent *)

Section Validation.

Variable callbacks : Callbacks.
Variable config : PayPalConfig.

Lemma createPlan_invalid a w :
  missing_string (plan_name a) = true \/ missing_number (plan_price a) = true ->
  exists e,
    createPlan callbacks config a w = (Throw e, w) /\
    (message e = "missing name" \/ message e = "missing price") /\
    response e = JS.Undefined.
Proof.
  intros Hmiss. unfold createPlan. cbv zeta.
  destruct (missing_string (plan_name a)) eqn:Hn.
  - eexists. split; [reflexivity|]. simpl. auto.
  - destruct Hmiss as [Hm|Hm]; [discriminate|]. rewrite Hm.
    eexists. split; [reflexivity|]. simpl. auto.
Qed.

Lemma createCharge_invalid a w :
  missing_string (charge_title a) = true \/ missing_number (charge_price a) = true ->
  exists e,
    createCharge callbacks a w = (Throw e, w) /\
    (message e = "missing title" \/ message e = "missing price") /\
    response e = JS.Undefined.
Proof.
  intros Hmiss. unfold createCharge. cbv zeta.
  destruct (missing_string (charge_title a)) eqn:Hn.
  - eexists. split; [reflexivity|]. simpl. auto.
  - destruct Hmiss as [Hm|Hm]; [discriminate|]. rewrite Hm.
    eexists. split; [reflexivity|]. simpl. auto.
Qed.

Lemma createSubscription_invalid a w :
  missing_string (sub_planId a) = true ->
  exists e w',
    createSubscription callbacks config a w = (Throw e, w') /\
    message e = "missing planId" /\ response e = JS.Undefined /\
    w' = match sub_customId a with
         | Some _ => w
         | None => set_dice (skipn 17 (dice w)) w
         end.
Proof.
  intros Hmiss. unfold createSubscription. unfold bind at 1.
  destruct (sub_customId a) as [c|].
  - cbv zeta. simpl. rewrite Hmiss. eexists; eexists. split; [reflexivity|]. simpl. auto.
  - unfold generateId.
    destruct (generateId_from_digits 17 EmptyString w) as (id & -> & _).
    cbv zeta. rewrite Hmiss. eexists; eexists. split; [reflexivity|]. simpl. auto.
Qed.

End Validation.

(** X2.  [createPlan] without a name or a price and [createCharge]
    without a title or a price (absent, empty, zero or NaN) throw
    'missing name', 'missing title' or 'missing price' and leave the
    world exactly as it was: no request, no event.  [createSubscription]
    without a planId throws 'missing planId'; by then the default
    [customId] has been drawn when none was given, and nothing else has
    happened. *)
Theorem creation_arguments_are_checked_first callbacks config :
  (forall a w,
      missing_string (plan_name a) = true \/ missing_number (plan_price a) = true ->
      exists e,
        createPlan callbacks config a w = (Throw e, w) /\
        (message e = "missing name" \/ message e = "missing price") /\
        response e = JS.Undefined)
  /\
  (forall a w,
      missing_string (sub_planId a) = true ->
      exists e w',
        createSubscription callbacks config a w = (Throw e, w') /\
        message e = "missing planId" /\ response e = JS.Undefined /\
        w' = match sub_customId a with
             | Some _ => w
             | None => set_dice (skipn 17 (dice w)) w
             end)
  /\
  (forall a w,
      missing_string (charge_title a) = true \/ missing_number (charge_price a) = true ->
      exists e,
        createCharge callbacks a w = (Throw e, w) /\
        (message e = "missing title" \/ message e = "missing price") /\
        response e = JS.Undefined).
Proof.
  split; [|split].
  - apply createPlan_invalid.
  - apply createSubscription_invalid.
  - apply createCharge_invalid.
Qed.

(* ================================================================== *)
(** ** The token exchange that fails *)

Section Exchange.

Variable callbacks : Callbacks.
Variable config : PayPalConfig.

Lemma emit_fields ev data w r w' :
  emit callbacks ev data w = (r, w') ->
  r = Ok tt /\ emitted w' = (ev, data) :: emitted w /\ requests w' = requests w /\
  metadataCache w' = metadataCache w /\ timers w' = timers w /\ clock w' = clock w /\
  tokenCache w' = tokenCache w /\ tokenExpiry w' = tokenExpiry w /\
  network w' = network w /\ dice w' = dice w.
Proof.
  unfold emit, bind, modify. destruct (callbacks ev) as [cb|].
  - destruct (cb data); intros H; inversion H; subst; simpl; repeat split; reflexivity.
  - intros H; inversion H; subst; simpl; repeat split; reflexivity.
Qed.

Lemma getAccessToken_failure w e w' :
  getAccessToken callbacks config w = (Throw e, w') ->
  tokenCache w' = tokenCache w /\ tokenExpiry w' = tokenExpiry w /\
  requests w' = mkRequest "POST" (token_url config) :: requests w /\
  emitted w' = (onError, error_report "auth" e) :: emitted w /\
  JS.truthy (tokenCache w) && expiry_after (tokenExpiry w) (clock w) = false.
Proof.
  unfold getAccessToken.
  destruct (JS.truthy (tokenCache w) && expiry_after (tokenExpiry w) (clock w));
    [discriminate|].
  fold (token_url config).
  intros H. run_inv H.
  all: inversion H; subst; clear H.
  all: match goal with E : emit _ _ _ _ = _ |- _ =>
         apply emit_fields in E as (Hr & He & Hq & _ & _ & _ & Htc & Hte & _) end.
  all: try discriminate Hr.
  all: match goal with E : request _ _ _ = _ |- _ =>
         apply request_logs in E as (He' & _ & Hq' & Htc' & Hte' & _) end.
  all: unfold error_report; cbn [String.append] in *.
  all: repeat split; congruence.
Qed.

End Exchange.

(** X3.  When [getAccessToken] throws, it had found no usable token in
    the cache, sent the credential exchange exactly once (no retry),
    emitted [onError] exactly once with type [auth] and the detail of
    the error it throws, and left the cached token and its expiry time
    as they were. *)
Theorem failed_exchange_is_reported_once callbacks config w e w' :
  getAccessToken callbacks config w = (Throw e, w') ->
  tokenCache w' = tokenCache w /\ tokenExpiry w' = tokenExpiry w /\
  requests w' = mkRequest "POST" (token_url config) :: requests w /\
  emitted w' = (onError, error_report "auth" e) :: emitted w /\
  JS.truthy (tokenCache w) && expiry_after (tokenExpiry w) (clock w) = false.
Proof. apply getAccessToken_failure. Qed.

(* ================================================================== *)
(** ** What a creation returns and emits *)

Section Creation.

Variable callbacks : Callbacks.
Variable config : PayPalConfig.

Lemma customId_drawn (o : option string) w :
  exists id w1,
    (match o with Some c => ret c | None => generateId end) w = (Ok id, w1) /\
    transaction_id_of o id /\ emitted w1 = emitted w /\ requests w1 = requests w.
Proof.
  destruct o as [c|].
  - exists c, w. repeat split; reflexivity.
  - unfold generateId.
    destruct (generateId_from_digits 17 EmptyString w) as (id & Hrun & Hlen & Hall).
    exists id, (set_dice (skipn 17 (dice w)) w). simpl. auto.
Qed.

Lemma prop_same v k w r w' : prop v k w = (r, w') -> w' = w.
Proof. unfold prop. destruct (JS.nullish v); intros H; now inversion H. Qed.

Lemma find_approve_same l : forall w r w', find_approve l w = (r, w') -> w' = w.
Proof.
  induction l as [|link rest IH]; intros w r w' H; simpl in H.
  - now inversion H.
  - unfold bind in H. destruct (prop link "rel" w) as [[rel|e] w1] eqn:E.
    + apply prop_same in E. subst w1.
      destruct (JS.str_is rel "approve"); [now inversion H | eapply IH; exact H].
    + apply prop_same in E. inversion H; congruence.
Qed.

Lemma approve_link_same resp w r w' : approve_link resp w = (r, w') -> w' = w.
Proof.
  unfold approve_link, bind. intros H.
  destruct (prop resp "links" w) as [[links|e] w1] eqn:E; apply prop_same in E; subst w1;
    [|now inversion H].
  destruct links; try (now inversion H).
  destruct (find_approve items w) as [[found|e] w2] eqn:F; apply find_approve_same in F;
    subst w2; [|now inversion H].
  now apply prop_same in H.
Qed.

Lemma createOrder_emits a w result w' :
  createOrder callbacks config a w = (Ok result, w') ->
  emitted w' = (onPaymentCreated, result) :: emitted w /\
  exists id, JS.get result "transactionId" = JS.Str id /\
             transaction_id_of (order_customId a) id.
Proof.
  intros H. unfold createOrder in H.
  destruct (customId_drawn (order_customId a) w) as (id & w1 & Hgen & Hid & He1 & _).
  unfold bind at 1 in H. rewrite Hgen in H. clear Hgen.
  run_inv H. inversion H; subst; clear H.
  split; [|exists id; split; [reflexivity | exact Hid]].
  apply approve_link_same in Hlink. subst.
  emitted_back. simpl. congruence.
Qed.

Lemma createSubscription_emits a w result w' :
  createSubscription callbacks config a w = (Ok result, w') ->
  emitted w' = (onSubscriptionCreated, result) :: emitted w /\
  exists id, JS.get result "transactionId" = JS.Str id /\
             transaction_id_of (sub_customId a) id.
Proof.
  intros H. unfold createSubscription in H.
  destruct (customId_drawn (sub_customId a) w) as (id & w1 & Hgen & Hid & He1 & _).
  unfold bind at 1 in H. rewrite Hgen in H. clear Hgen.
  run_inv H. inversion H; subst; clear H.
  split; [|exists id; split; [reflexivity | exact Hid]].
  apply approve_link_same in Hlink. subst.
  emitted_back. simpl. congruence.
Qed.

Lemma createCharge_emits a w result w' :
  createCharge callbacks a w = (Ok result, w') ->
  emitted w' = (onPaymentCreated, result) :: emitted w.
Proof.
  intros H. unfold createCharge in H.
  run_inv H. inversion H; subst; clear H.
  emitted_back. reflexivity.
Qed.

End Creation.

(** X4.  A creation that returns has emitted exactly one event, the
    created event of its kind ([onPaymentCreated] for orders and
    charges, [onSubscriptionCreated] for subscriptions), carrying the
    very result it returns.  The [transactionId] of an order or a
    subscription is the caller's [customId] when one was given and a
    string of 17 decimal digits otherwise. *)
Theorem creation_emits_the_returned_result callbacks config :
  (forall a w result w',
      createOrder callbacks config a w = (Ok result, w') ->
      emitted w' = (onPaymentCreated, result) :: emitted w /\
      exists id, JS.get result "transactionId" = JS.Str id /\
                 transaction_id_of (order_customId a) id)
  /\
  (forall a w result w',
      createSubscription callbacks config a w = (Ok result, w') ->
      emitted w' = (onSubscriptionCreated, result) :: emitted w /\
      exists id, JS.get result "transactionId" = JS.Str id /\
                 transaction_id_of (sub_customId a) id)
  /\
  (forall a w result w',
      createCharge callbacks a w = (Ok result, w') ->
      emitted w' = (onPaymentCreated, result) :: emitted w).
Proof.
  split; [|split].
  - apply createOrder_emits.
  - apply createSubscription_emits.
  - apply createCharge_emits.
Qed.

(* ================================================================== *)
(** ** Cancelling a subscription *)

Section Cancel.

Variable callbacks : Callbacks.
Variable config : PayPalConfig.

Lemma cancelSubscription_outcome id reason w token w1 r w' :
  getAccessToken callbacks config w = (Ok token, w1) ->
  cancelSubscription callbacks config id reason w = (r, w') ->
  purged (JS.Str id) w' /\
  requests w' = mkRequest "POST" (cancel_url config id) :: requests w1 /\
  match r with
  | Ok result =>
      JS.get result "status" = JS.Str "CANCELLED" /\
      JS.get result "subscriptionId" = JS.Str id /\
      JS.get result "reason" = JS.Str (default "customer request" reason) /\
      emitted w' = (onSubscriptionCancelled, result) :: emitted w
  | Throw e =>
      emitted w' = (onError, cancellation_report id e) :: emitted w
  end.
Proof.
  intros Htoken H. unfold cancelSubscription in H. cbv zeta in H.
  unfold bind at 1 in H. rewrite Htoken in H.
  fold (cancel_url config id) in H.
  apply getAccessToken_ok_emitted in Htoken.
  run_inv H.
  all: inversion H; subst; clear H.
  all: repeat match goal with
       | E : emit _ _ _ _ = _ |- _ =>
           let Hr := fresh "Hr" in
           apply emit_fields in E as (Hr & ? & ? & ? & _); try discriminate Hr
       | E : request _ _ _ = _ |- _ =>
           apply request_logs in E as (? & _ & ? & _)
       end.
  all: unfold purged, cancellation_report; simpl in *.
  all: repeat split; try congruence.
  all: repeat match goal with Hc : metadataCache _ = _ |- _ => rewrite Hc; clear Hc end.
  all: simpl; apply has_delete_same.
Qed.

End Cancel.

(** X5.  Once the access token is at hand, [cancelSubscription] sends
    exactly one request, the cancellation, and leaves the cache without
    an entry for the subscription, whether it returns or throws.  When
    the provider accepts, whatever it replies, the result says CANCELLED
    with the reason given ('customer request' by default) and exactly one
    event is emitted, [onSubscriptionCancelled] with that result; when
    the request fails, exactly one [onError] of type
    [subscription_cancellation] is emitted and the error is thrown. *)
Theorem cancelSubscription_purges_and_reports callbacks config id reason w token w1 r w' :
  getAccessToken callbacks config w = (Ok token, w1) ->
  cancelSubscription callbacks config id reason w = (r, w') ->
  purged (JS.Str id) w' /\
  requests w' = mkRequest "POST" (cancel_url config id) :: requests w1 /\
  match r with
  | Ok result =>
      JS.get result "status" = JS.Str "CANCELLED" /\
      JS.get result "subscriptionId" = JS.Str id /\
      JS.get result "reason" = JS.Str (default "customer request" reason) /\
      emitted w' = (onSubscriptionCancelled, result) :: emitted w
  | Throw e =>
      emitted w' = (onError, cancellation_report id e) :: emitted w
  end.
Proof. apply cancelSubscription_outcome. Qed.

(* ================================================================== *)
(** ** Creating a plan: the product first *)

Section Plan.

Variable callbacks : Callbacks.
Variable config : PayPalConfig.

Lemma createPlan_outcome a w token w1 r w' :
  missing_string (plan_name a) = false ->
  missing_number (plan_price a) = false ->
  getAccessToken callbacks config w = (Ok token, w1) ->
  JS.truthy token = true ->
  createPlan callbacks config a w = (r, w') ->
  match r with
  | Ok plan =>
      requests w' = plan_request config :: product_request config :: requests w1 /\
      emitted w' = emitted w /\
      JS.get plan "planId" = JS.get (JS.get plan "rawResponse") "id" /\
      JS.get plan "price" = JS.Num (default S754_nan (plan_price a))
  | Throw e =>
      (requests w' = product_request config :: requests w1 /\ emitted w' = emitted w) \/
      (requests w' = plan_request config :: product_request config :: requests w1 /\
       emitted w' = (onError, error_report "plan_creation" e) :: emitted w)
  end.
Proof.
  intros Hname Hprice Htoken Htruthy H.
  unfold createPlan in H. cbv zeta in H. rewrite Hname, Hprice in H.
  unfold bind at 1 in H. rewrite Htoken in H.
  apply getAccessToken_stores in Htoken as Hstored. destruct Hstored as [Htc Hexp].
  assert (Hhit : getAccessToken callbacks config w1 = (Ok (tokenCache w1), w1)).
  { apply getAccessToken_hit; [now rewrite Htc | exact Hexp]. }
  unfold createProduct in H. unfold bind at 1 2 in H. rewrite Hhit in H.
  fold (product_request config) (plan_request config) in H.
  unfold product_request, plan_request in *.
  apply getAccessToken_ok_emitted in Htoken.
  run_inv H.
  all: inversion H; subst; clear H.
  all: repeat match goal with
       | E : emit _ _ _ _ = _ |- _ =>
           let Hr := fresh "Hr" in
           apply emit_fields in E as (Hr & ? & ? & _); try discriminate Hr
       | E : request _ _ _ = _ |- _ =>
           apply request_logs in E as (? & _ & ? & _)
       end.
  all: unfold error_report; simpl in *.
  all: try (left; split; congruence).
  all: try (right; split; congruence).
  repeat split; try congruence.
  destruct (plan_price a) as [[]|]; simpl in *; try discriminate; reflexivity.
Qed.

End Plan.

(** X6.  [createPlan] with valid arguments and a usable token creates
    the product first and the plan second.  When the product request
    fails, the plan is never requested and no event is emitted: the
    error goes to the caller only.  When the plan request fails,
    [onError] is emitted once with type [plan_creation].  When both
    succeed, nothing is emitted; the result carries the provider's plan
    id and the price as given. *)
Theorem createPlan_creates_the_product_first callbacks config a w token w1 r w' :
  missing_string (plan_name a) = false ->
  missing_number (plan_price a) = false ->
  getAccessToken callbacks config w = (Ok token, w1) ->
  JS.truthy token = true ->
  createPlan callbacks config a w = (r, w') ->
  match r with
  | Ok plan =>
      requests w' = plan_request config :: product_request config :: requests w1 /\
      emitted w' = emitted w /\
      JS.get plan "planId" = JS.get (JS.get plan "rawResponse") "id" /\
      JS.get plan "price" = JS.Num (default S754_nan (plan_price a))
  | Throw e =>
      (requests w' = product_request config :: requests w1 /\ emitted w' = emitted w) \/
      (requests w' = plan_request config :: product_request config :: requests w1 /\
       emitted w' = (onError, error_report "plan_creation" e) :: emitted w)
  end.
Proof. apply createPlan_outcome. Qed.

(* ================================================================== *)
(** ** Verifying an order: the capture *)

Section Capture.

Variable callbacks : Callbacks.
Variable config : PayPalConfig.

Ltac logs :=
  repeat match goal with
  | E : emit _ _ _ _ = _ |- _ =>
      let Hr := fresh "Hr" in
      apply emit_fields in E as (Hr & ? & ? & _); try discriminate Hr
  | E : request _ _ _ = _ |- _ =>
      apply request_logs in E as (? & _ & ? & _)
  end.

Lemma verifyOrder_requests id w token w1 first w2 :
  getAccessToken callbacks config w = (Ok token, w1) ->
  request "GET" (baseUrl config ++ "/v2/checkout/orders/" ++ id) w1 = (Ok first, w2) ->
  requests (snd (verifyOrder callbacks config id w)) =
    if JS.str_is (JS.get first "status") "APPROVED"
    then capture_request config id :: order_request config id :: requests w1
    else order_request config id :: requests w1.
Proof.
  intros Htoken Hreq.
  destruct (verifyOrder callbacks config id w) as [r w'] eqn:H. simpl.
  unfold verifyOrder in H. unfold bind at 1 in H. rewrite Htoken in H.
  unfold try_catch, bind at 1 in H. rewrite Hreq in H.
  apply request_logs in Hreq as (_ & _ & Hq & _).
  unfold capture_request, order_request.
  unfold prop at 1 in H.
  destruct (JS.nullish first) eqn:Hnull.
  - replace (JS.str_is (JS.get first "status") "APPROVED") with false
      by (destruct first; try discriminate; reflexivity).
    run_inv H. all: inversion H; subst; clear H. all: logs. all: simpl in *; congruence.
  - unfold bind at 1, ret at 1 in H.
    destruct (JS.str_is (JS.get first "status") "APPROVED") eqn:Hst.
    + run_inv H. all: inversion H; subst; clear H. all: logs. all: simpl in *; congruence.
    + run_inv H. all: inversion H; subst; clear H. all: logs. all: simpl in *; congruence.
Qed.

Lemma verifyOrder_reports_the_capture id w token w1 first w2 result w' :
  getAccessToken callbacks config w = (Ok token, w1) ->
  request "GET" (baseUrl config ++ "/v2/checkout/orders/" ++ id) w1 = (Ok first, w2) ->
  verifyOrder callbacks config id w = (Ok result, w') ->
  JS.get result "status" = JS.get (JS.get result "rawResponse") "status" /\
  if JS.str_is (JS.get first "status") "APPROVED"
  then exists w3,
      request "POST" (baseUrl config ++ "/v2/checkout/orders/" ++ id ++ "/capture") w2
      = (Ok (JS.get result "rawResponse"), w3)
  else JS.get result "rawResponse" = first.
Proof.
  intros Htoken Hreq H.
  unfold verifyOrder in H. unfold bind at 1 in H. rewrite Htoken in H.
  unfold try_catch, bind at 1 in H. rewrite Hreq in H.
  unfold prop at 1 in H.
  destruct (JS.nullish first) eqn:Hnull.
  - run_inv H. 
  - unfold bind at 1, ret at 1 in H.
    destruct (JS.str_is (JS.get first "status") "APPROVED") eqn:Hst.
    + run_inv H. all: inversion H; subst; clear H.
      all: cbn [JS.get JS.assoc String.eqb Ascii.eqb Bool.eqb].
      all: split; [reflexivity | eexists; reflexivity].
    + run_inv H. all: inversion H; subst; clear H.
      all: split; reflexivity.
Qed.

End Capture.

(** X7.  With the token at hand and a first reply to its GET,
    [verifyOrder] sends a second request, the capture, exactly when that
    reply says APPROVED; otherwise the GET is its only request, whether
    it returns or throws.  The status it returns is the one of the
    response it reports: the reply of the capture after an APPROVED
    order, the first reply otherwise. *)
Theorem verifyOrder_captures_approved_orders callbacks config id w token w1 first w2 :
  getAccessToken callbacks config w = (Ok token, w1) ->
  request "GET" (baseUrl config ++ "/v2/checkout/orders/" ++ id) w1 = (Ok first, w2) ->
  requests (snd (verifyOrder callbacks config id w)) =
    (if JS.str_is (JS.get first "status") "APPROVED"
     then capture_request config id :: order_request config id :: requests w1
     else order_request config id :: requests w1)
  /\
  (forall result w',
      verifyOrder callbacks config id w = (Ok result, w') ->
      JS.get result "status" = JS.get (JS.get result "rawResponse") "status" /\
      if JS.str_is (JS.get first "status") "APPROVED"
      then exists w3,
          request "POST" (baseUrl config ++ "/v2/checkout/orders/" ++ id ++ "/capture") w2
          = (Ok (JS.get result "rawResponse"), w3)
      else JS.get result "rawResponse" = first).
Proof.
  intros Htoken Hreq. split.
  - eapply verifyOrder_requests; eauto.
  - intros result w' H. eapply verifyOrder_reports_the_capture; eauto.
Qed.

(* ================================================================== *)
(** ** The metadata a verification reports *)

Lemma get_delete_other (m : JSMap.t) (k k' : JS.value) :
  JSMap.key_eqb k k' = false -> JSMap.get (JSMap.delete m k) k' = JSMap.get m k'.
Proof.
  intros Hk. induction m as [|[k0 v0] r IH]; simpl; [reflexivity|].
  destruct (JSMap.key_eqb k0 k) eqn:E; simpl.
  - rewrite (key_eqb_congr _ _ _ E), Hk. exact IH.
  - now rewrite IH.
Qed.

Lemma has_delete_mono (m : JSMap.t) (k k' : JS.value) :
  JSMap.has (JSMap.delete m k) k' = true -> JSMap.has m k' = true.
Proof.
  induction m as [|[k0 v0] r IH]; simpl; [discriminate|].
  destruct (JSMap.key_eqb k0 k); simpl; destruct (JSMap.key_eqb k0 k'); auto.
Qed.


Lemma get_after_timers (key : JS.value) (ts : list (Z * JS.value)) :
  Forall (fun t => JSMap.key_eqb (snd t) key = false) ts ->
  forall m, JSMap.get (fold_left (fun m t => JSMap.delete m (snd t)) ts m) key = JSMap.get m key.
Proof.
  induction 1 as [|t r Ht Hr IH]; intros m; simpl; [reflexivity|].
  rewrite IH. now apply get_delete_other.
Qed.

Lemma absent_after_timers (key : JS.value) (ts : list (Z * JS.value)) : forall m,
  JSMap.has m key = false ->
  JSMap.has (fold_left (fun m t => JSMap.delete m (snd t)) ts m) key = false.
Proof.
  induction ts as [|t r IH]; intros m H; simpl; [exact H|].
  apply IH. destruct (JSMap.has (JSMap.delete m (snd t)) key) eqn:E; [|reflexivity].
  apply has_delete_mono in E. congruence.
Qed.

Lemma present_after_timers (key : JS.value) (ts : list (Z * JS.value)) m :
  JSMap.has (fold_left (fun m t => JSMap.delete m (snd t)) ts m) key = true ->
  JSMap.has m key = true.
Proof.
  intros H. destruct (JSMap.has m key) eqn:E; [reflexivity|].
  rewrite (absent_after_timers key ts m E) in H. discriminate.
Qed.

Lemma has_delete_equal (m : JSMap.t) (k key : JS.value) :
  JSMap.key_eqb k key = true -> JSMap.has (JSMap.delete m k) key = false.
Proof.
  intros Hk. induction m as [|[k0 v0] r IH]; simpl; [reflexivity|].
  destruct (JSMap.key_eqb k0 k) eqn:E; [exact IH|]. simpl.
  replace (JSMap.key_eqb k0 key) with false; [exact IH|].
  rewrite (key_eqb_sym k0 key), (key_eqb_sym k key) in *.
  rewrite (key_eqb_congr _ _ k0 Hk), (key_eqb_sym k k0). now rewrite E.
Qed.

(** A timer that runs deletes its key. *)
Lemma deleted_by_timer (key : JS.value) (ts : list (Z * JS.value)) : forall m,
  Exists (fun t => JSMap.key_eqb (snd t) key = true) ts ->
  JSMap.has (fold_left (fun m t => JSMap.delete m (snd t)) ts m) key = false.
Proof.
  induction ts as [|t r IH]; intros m H; simpl; [inversion H|].
  inversion H as [? ? Ht|? ? Hr]; subst.
  - apply absent_after_timers. now apply has_delete_equal.
  - now apply IH.
Qed.


Lemma holds_until_basic d key v : basic (holds_until d key v).
Proof.
  constructor; try (intros x w H; exact H).
  intros dt w H. unfold holds_until, elapse, fire_timers in *. simpl. intros Hnow.
  destruct H as [Hget Hts]; [lia|]. split.
  - rewrite get_after_timers; [exact Hget|].
    unfold no_timer_before in Hts. rewrite Forall_forall in *. intros t Ht.
    apply filter_In in Ht as [Ht Hdue]. unfold due in Hdue. apply Z.leb_le in Hdue.
    destruct (JSMap.key_eqb (snd t) key) eqn:E; [|reflexivity].
    specialize (Hts t Ht E). lia.
  - now apply no_timer_before_filter.
Qed.

Section Reported.

Variable callbacks : Callbacks.
Variable config : PayPalConfig.
Variable I : World -> Prop.
Hypothesis I_basic : basic I.

(** Carry [I] along the equations of a run. *)
Ltac carry :=
  repeat match goal with
  | Hx : I ?a, E : getAccessToken _ _ ?a = (_, ?b) |- _ =>
      apply (keeps_run_eq _ _ _ _ _ (keeps_getAccessToken callbacks config I I_basic) Hx) in E;
      clear Hx
  | Hx : I ?a, E : request _ _ ?a = (_, ?b) |- _ =>
      apply (keeps_run_eq _ _ _ _ _ (keeps_request I I_basic _ _) Hx) in E;
      clear Hx
  end.

Ltac read_point :=
  match goal with
  | Hx : I ?a, E : emit _ _ _ ?a = _ |- _ =>
      apply emit_fields in E as (_ & _ & _ & ? & _ & ? & _);
      exists a; split; [exact Hx|]; split; [simpl; congruence|]; reflexivity
  | Hx : I ?a, E : emit _ _ _ (set_metadataCache _ ?a) = _ |- _ =>
      apply emit_fields in E as (_ & _ & _ & ? & _ & ? & _);
      exists a; split; [exact Hx|]; split; [simpl in *; congruence|]; reflexivity
  | Hx : I ?a |- _ =>
      exists a; split; [exact Hx|]; split; reflexivity
  end.

(** The metadata in the result is what the cache held, or the empty
    object, at a moment when the clock already showed the time at which
    the call returns. *)
Lemma verifyOrder_reads id w result w' :
  I w ->
  verifyOrder callbacks config id w = (Ok result, w') ->
  exists wr, I wr /\ clock wr = clock w' /\
    JS.get result "metadata"
    = JS.or_else (JSMap.get (metadataCache wr) (JS.Str id)) (JS.Obj []).
Proof.
  intros Hw H. unfold verifyOrder in H. run_inv H.
  all: inversion H; subst; clear H.
  all: carry.
  all: cbn [JS.get JS.assoc String.eqb Ascii.eqb Bool.eqb].
  all: read_point.
Qed.

Lemma verifySubscription_reads id w result w' :
  I w ->
  verifySubscription callbacks config id w = (Ok result, w') ->
  exists wr, I wr /\ clock wr = clock w' /\
    JS.get result "metadata"
    = JS.or_else (JSMap.get (metadataCache wr) (JS.Str id)) (JS.Obj []).
Proof.
  intros Hw H. unfold verifySubscription in H. run_inv H.
  all: inversion H; subst; clear H.
  all: carry.
  all: cbn [JS.get JS.assoc String.eqb Ascii.eqb Bool.eqb].
  all: read_point.
Qed.

Lemma cancelSubscription_reads id reason w result w' :
  I w ->
  cancelSubscription callbacks config id reason w = (Ok result, w') ->
  exists wr, I wr /\ clock wr = clock w' /\
    JS.get result "metadata"
    = JS.or_else (JSMap.get (metadataCache wr) (JS.Str id)) (JS.Obj []).
Proof.
  intros Hw H. unfold cancelSubscription in H. cbv zeta in H. run_inv H.
  all: inversion H; subst; clear H.
  all: carry.
  all: cbn [JS.get JS.assoc String.eqb Ascii.eqb Bool.eqb].
  all: read_point.
Qed.

End Reported.

Section RoundTrip.

Variable callbacks : Callbacks.
Variable config : PayPalConfig.

(** Right after a creation under a fresh key. *)
Lemma holds_after_creation key v w w1 ts dt :
  JSMap.get (metadataCache w1) key = v ->
  timers w1 = (clock w1 + hour, key) :: ts -> incl ts (timers w) ->
  no_timer_for key (timers w) ->
  holds_until (clock w1 + hour) key v (elapse dt w1).
Proof.
  intros Hget Ht Hts Hfresh.
  apply (basic_elapse _ (holds_until_basic _ key v)).
  intros _. split; [exact Hget|].
  rewrite Ht. constructor; [simpl; lia|].
  apply no_timer_for_before. eapply no_timer_for_incl; eauto.
Qed.

Lemma order_metadata_round_trip a w created w1 id dt result w2 :
  createOrder callbacks config a w = (Ok created, w1) ->
  JS.get created "orderId" = JS.Str id ->
  no_timer_for (JS.Str id) (timers w) ->
  verifyOrder callbacks config id (elapse dt w1) = (Ok result, w2) ->
  clock w2 < clock w1 + hour ->
  JS.get result "metadata"
  = JS.or_else (default (JS.Obj []) (order_metadata a)) (JS.Obj []).
Proof.
  intros Hc Hid Hfresh Hv Hclock.
  destruct (createOrder_post _ _ _ _ _ _ Hc) as (_ & Hget & ts & Ht & Hts).
  rewrite Hid in *.
  assert (Hheld := holds_after_creation _ _ _ _ _ dt Hget Ht Hts Hfresh).
  destruct (verifyOrder_reads callbacks config _ (holds_until_basic _ _ _) _ _ _ _ Hheld Hv)
    as (wr & Hwr & Hclk & Hmeta).
  rewrite Hmeta. destruct Hwr as [-> _]; [lia | reflexivity].
Qed.

Lemma subscription_metadata_round_trip a w created w1 id dt result w2 :
  createSubscription callbacks config a w = (Ok created, w1) ->
  JS.get created "subscriptionId" = JS.Str id ->
  no_timer_for (JS.Str id) (timers w) ->
  verifySubscription callbacks config id (elapse dt w1) = (Ok result, w2) ->
  clock w2 < clock w1 + hour ->
  JS.get result "metadata"
  = JS.or_else (default (JS.Obj []) (sub_metadata a)) (JS.Obj []).
Proof.
  intros Hc Hid Hfresh Hv Hclock.
  destruct (createSubscription_post _ _ _ _ _ _ Hc) as (_ & Hget & ts & Ht & Hts).
  rewrite Hid in *.
  assert (Hheld := holds_after_creation _ _ _ _ _ dt Hget Ht Hts Hfresh).
  destruct (verifySubscription_reads callbacks config _ (holds_until_basic _ _ _)
              _ _ _ _ Hheld Hv) as (wr & Hwr & Hclk & Hmeta).
  rewrite Hmeta. destruct Hwr as [-> _]; [lia | reflexivity].
Qed.

Lemma cancelled_metadata_round_trip a w created w1 id dt reason result w2 :
  createSubscription callbacks config a w = (Ok created, w1) ->
  JS.get created "subscriptionId" = JS.Str id ->
  no_timer_for (JS.Str id) (timers w) ->
  cancelSubscription callbacks config id reason (elapse dt w1) = (Ok result, w2) ->
  clock w2 < clock w1 + hour ->
  JS.get result "metadata"
  = JS.or_else (default (JS.Obj []) (sub_metadata a)) (JS.Obj []).
Proof.
  intros Hc Hid Hfresh Hv Hclock.
  destruct (createSubscription_post _ _ _ _ _ _ Hc) as (_ & Hget & ts & Ht & Hts).
  rewrite Hid in *.
  assert (Hheld := holds_after_creation _ _ _ _ _ dt Hget Ht Hts Hfresh).
  destruct (cancelSubscription_reads callbacks config _ (holds_until_basic _ _ _)
              _ _ _ _ _ Hheld Hv) as (wr & Hwr & Hclk & Hmeta).
  rewrite Hmeta. destruct Hwr as [-> _]; [lia | reflexivity].
Qed.

(** After the hour the timer has run. *)
Lemma expired_after_creation key w1 ts dt :
  timers w1 = (clock w1 + hour, key) :: ts ->
  hour <= Z.of_N dt ->
  purged key (elapse dt w1).
Proof.
  intros Ht Hdt. unfold purged, elapse, fire_timers. simpl.
  apply deleted_by_timer. rewrite Ht. simpl.
  replace (due (clock w1 + Z.of_N dt) (clock w1 + hour, key)) with true
    by (symmetry; apply Z.leb_le; simpl; lia).
  constructor. simpl. apply key_eqb_refl.
Qed.

End RoundTrip.

(** X8.  The metadata given to [createOrder] comes back from
    [verifyOrder]: when the provider's order id is the string the
    verification is called with, no older timer is pending for it and
    the verification returns before the hour is over, the [metadata] of
    its result is the metadata of the creation (the empty object when
    that was a falsy value).  The same holds from [createSubscription]
    to [verifySubscription] and to [cancelSubscription]. *)
Theorem verification_reports_the_created_metadata callbacks config :
  (forall a w created w1 id dt result w2,
      createOrder callbacks config a w = (Ok created, w1) ->
      JS.get created "orderId" = JS.Str id ->
      no_timer_for (JS.Str id) (timers w) ->
      verifyOrder callbacks config id (elapse dt w1) = (Ok result, w2) ->
      clock w2 < clock w1 + hour ->
      JS.get result "metadata"
      = JS.or_else (default (JS.Obj []) (order_metadata a)) (JS.Obj []))
  /\
  (forall a w created w1 id dt result w2,
      createSubscription callbacks config a w = (Ok created, w1) ->
      JS.get created "subscriptionId" = JS.Str id ->
      no_timer_for (JS.Str id) (timers w) ->
      verifySubscription callbacks config id (elapse dt w1) = (Ok result, w2) ->
      clock w2 < clock w1 + hour ->
      JS.get result "metadata"
      = JS.or_else (default (JS.Obj []) (sub_metadata a)) (JS.Obj []))
  /\
  (forall a w created w1 id dt reason result w2,
      createSubscription callbacks config a w = (Ok created, w1) ->
      JS.get created "subscriptionId" = JS.Str id ->
      no_timer_for (JS.Str id) (timers w) ->
      cancelSubscription callbacks config id reason (elapse dt w1) = (Ok result, w2) ->
      clock w2 < clock w1 + hour ->
      JS.get result "metadata"
      = JS.or_else (default (JS.Obj []) (sub_metadata a)) (JS.Obj [])).
Proof.
  split; [|split].
  - apply order_metadata_round_trip.
  - apply subscription_metadata_round_trip.
  - apply cancelled_metadata_round_trip.
Qed.


(** X10.  The entry a creation stores does not outlive the hour: once
    an hour or more has passed since [createOrder] or
    [createSubscription] returned, the timer set at the creation has
    run and the cache holds nothing under the provider's id. *)
Theorem cached_metadata_expires_after_an_hour callbacks config :
  (forall a w created w1 dt,
      createOrder callbacks config a w = (Ok created, w1) ->
      hour <= Z.of_N dt ->
      purged (JS.get created "orderId") (elapse dt w1))
  /\
  (forall a w created w1 dt,
      createSubscription callbacks config a w = (Ok created, w1) ->
      hour <= Z.of_N dt ->
      purged (JS.get created "subscriptionId") (elapse dt w1)).
Proof.
  split; intros a w created w1 dt Hc Hdt.
  - destruct (createOrder_post _ _ _ _ _ _ Hc) as (_ & _ & ts & Ht & _).
    eapply expired_after_creation; eauto.
  - destruct (createSubscription_post _ _ _ _ _ _ Hc) as (_ & _ & ts & Ht & _).
    eapply expired_after_creation; eauto.
Qed.

(* ================================================================== *)
(** ** Every entry of the cache has its timer *)

Lemma has_set_inv (m : JSMap.t) (k v key : JS.value) :
  JSMap.has (JSMap.set m k v) key = true ->
  JSMap.key_eqb k key = true \/ JSMap.has m key = true.
Proof.
  induction m as [|[k0 v0] r IH]; simpl.
  - destruct (JSMap.key_eqb k key); auto.
  - destruct (JSMap.key_eqb k0 k) eqn:E; simpl; destruct (JSMap.key_eqb k0 key) eqn:E'; auto.
Qed.

Lemma expiring_elapse dt w : expiring w -> expiring (elapse dt w).
Proof.
  intros Htimed key Hhas. unfold elapse, fire_timers in *. simpl in *.
  apply present_after_timers in Hhas as Hwas.
  apply Htimed in Hwas. apply Exists_exists in Hwas as (t & Hin & Hkey & Hdue).
  destruct (due (clock w + Z.of_N dt) t) eqn:Hfired.
  - exfalso.
    rewrite deleted_by_timer in Hhas; [discriminate|].
    apply Exists_exists. exists t. split; [|exact Hkey].
    apply filter_In. auto.
  - apply Exists_exists. exists t. split; [|split; [exact Hkey | lia]].
    apply filter_In. split; [exact Hin|]. now rewrite Hfired.
Qed.

Lemma expiring_basic : basic expiring.
Proof.
  constructor; try (intros x w H; exact H).
  intros dt w. apply expiring_elapse.
Qed.

Lemma expiring_delete k w :
  expiring w -> expiring (set_metadataCache (JSMap.delete (metadataCache w) k) w).
Proof.
  intros Ht key Hhas. simpl in *. apply has_delete_mono in Hhas. now apply Ht.
Qed.

(** Storing an entry and setting its timer, as the creations do. *)
Lemma expiring_set_timer k v w :
  expiring w ->
  expiring (set_timers ((clock w + hour, k) :: timers w)
              (set_metadataCache (JSMap.set (metadataCache w) k v) w)).
Proof.
  intros Ht key Hhas. simpl in *. apply has_set_inv in Hhas as [Hk|Hold].
  - apply Exists_cons_hd. simpl. split; [exact Hk | lia].
  - apply Exists_cons_tl. now apply Ht.
Qed.

Section Expiring.

Variable callbacks : Callbacks.
Variable config : PayPalConfig.

Lemma keeps_expiring_delete key : keeps expiring (cache_delete key).
Proof. apply keeps_modify. intros w. apply expiring_delete. Qed.

Lemma keeps_expiring_set_timer {A} k v (rest : M A) :
  keeps expiring rest ->
  keeps expiring (cache_set k v ;;; setTimeout_delete k hour ;;; rest).
Proof.
  intros Hrest w Hw. unfold bind, cache_set, setTimeout_delete, modify.
  apply Hrest. simpl. now apply expiring_set_timer.
Qed.

Ltac step :=
  match goal with
  | |- keeps _ (bind (cache_set _ _) _) => apply keeps_expiring_set_timer
  | |- keeps _ (bind _ _) => apply keeps_bind; [|intros ?]
  | |- keeps _ (try_catch _ _) => apply keeps_try_catch; [|intros ?]
  | |- keeps _ (ret _) => apply keeps_ret
  | |- keeps _ (throw _) => apply keeps_throw
  | |- keeps _ (prop _ _) => apply keeps_prop
  | |- keeps _ (read _) => apply keeps_read
  | |- keeps _ (emit _ _ _) => apply keeps_emit, expiring_basic
  | |- keeps _ (request _ _) => apply keeps_request, expiring_basic
  | |- keeps _ (approve_link _) => apply keeps_approve_link
  | |- keeps _ (cache_get_or_empty _) => apply keeps_cache_get
  | |- keeps _ (cache_delete _) => apply keeps_expiring_delete
  | |- keeps _ (getAccessToken _ _) => apply keeps_getAccessToken, expiring_basic
  | |- keeps _ generateId => apply keeps_generateId_from, expiring_basic
  | |- keeps _ (if ?b then _ else _) => destruct b
  | |- keeps _ (match ?o with Some _ => _ | None => _ end) => destruct o
  end.

Lemma keeps_expiring_run op : keeps expiring (run callbacks config op).
Proof.
  destruct op; simpl.
  - apply keeps_getAccessToken, expiring_basic.
  - unfold createOrder. cbv zeta. repeat step.
  - unfold verifyOrder. cbv zeta. repeat step.
  - apply keeps_createPlan, expiring_basic.
  - unfold createSubscription. cbv zeta. repeat step.
  - unfold verifySubscription. cbv zeta. repeat step.
  - unfold cancelSubscription. cbv zeta. repeat step.
  - apply keeps_createCharge, expiring_basic.
  - apply keeps_verifyCharge, expiring_basic.
  - apply keeps_bind; [apply keeps_elapse, expiring_basic | intros; apply keeps_ret].
Qed.

Lemma expiring_run_all ops : forall w,
  expiring w -> expiring (run_all callbacks config ops w).
Proof.
  induction ops as [|op r IH]; intros w Hw; simpl; [exact Hw|].
  apply IH. apply keeps_snd; [apply keeps_expiring_run | exact Hw].
Qed.

End Expiring.

(** What [expiring] gives: an entry that is in the cache now is gone
    once an hour has passed. *)
Lemma expiring_entry_expires w key dt :
  expiring w -> hour <= Z.of_N dt -> purged key (elapse dt w).
Proof.
  intros Ht Hdt. unfold purged.
  destruct (JSMap.has (metadataCache (elapse dt w)) key) eqn:Hhas; [|reflexivity].
  unfold elapse, fire_timers in Hhas. simpl in Hhas.
  apply present_after_timers in Hhas as Hwas.
  apply Ht in Hwas. apply Exists_exists in Hwas as (t & Hin & Hkey & Hdue).
  rewrite deleted_by_timer in Hhas; [discriminate|].
  apply Exists_exists. exists t. split; [|exact Hkey].
  apply filter_In. split; [exact Hin|]. unfold due. apply Z.leb_le. lia.
Qed.

(** X11.  The cache never holds an entry without a timer: from a world
    in which every key of the cache has a pending timer that deletes it
    within the hour (an empty cache, say), every sequence of calls and
    waits leads to such a world again, whatever the calls returned or
    threw.  Hence whatever is in the cache at some moment is gone once
    one more hour has passed: time alone empties the cache. *)
Theorem every_entry_expires_within_the_hour callbacks config ops w :
  expiring w ->
  expiring (run_all callbacks config ops w) /\
  forall dt, hour <= Z.of_N dt ->
    metadataCache (elapse dt (run_all callbacks config ops w)) = [].
Proof.
  intros Hw.
  assert (H := expiring_run_all callbacks config ops w Hw).
  split; [exact H|]. intros dt Hdt.
  destruct (metadataCache (elapse dt (run_all callbacks config ops w)))
    as [|[k v] r] eqn:E; [reflexivity|].
  assert (Hp := expiring_entry_expires _ k dt H Hdt).
  unfold purged in Hp. rewrite E in Hp. simpl in Hp.
  now rewrite key_eqb_refl in Hp.
Qed.

(* ================================================================== *)
(** ** The Coinbase adapter *)

Lemma cache_within_basic w0 : basic (cache_within w0).
Proof.
  constructor; try (intros x w H; exact H).
  intros dt w H key Hhas. unfold elapse, fire_timers in Hhas. simpl in Hhas.
  apply present_after_timers in Hhas. now apply H.
Qed.

Section Charges.

Variable callbacks : Callbacks.

Ltac logs :=
  repeat match goal with
  | E : emit _ _ _ _ = _ |- _ =>
      let Hr := fresh "Hr" in
      apply emit_fields in E as (Hr & _ & ? & _ & _ & _ & ? & ? & _); try discriminate Hr
  | E : request _ _ _ = _ |- _ =>
      apply request_logs in E as (_ & _ & ? & ? & ? & _)
  end.

Lemma createCharge_logs a w r w' :
  createCharge callbacks a w = (r, w') ->
  tokenCache w' = tokenCache w /\ tokenExpiry w' = tokenExpiry w /\
  (requests w' = requests w \/
   requests w' = mkRequest "POST" (coinbaseUrl ++ "/charges") :: requests w).
Proof.
  intros H. unfold createCharge in H. cbv zeta in H.
  run_inv H.
  all: inversion H; subst; clear H; logs.
  all: repeat split; try congruence; try (left; congruence); try (right; congruence).
Qed.

Lemma verifyCharge_logs id w r w' :
  verifyCharge callbacks id w = (r, w') ->
  tokenCache w' = tokenCache w /\ tokenExpiry w' = tokenExpiry w /\
  requests w' = mkRequest "GET" (coinbaseUrl ++ "/charges/" ++ id) :: requests w.
Proof.
  intros H. unfold verifyCharge in H. cbv zeta in H.
  run_inv H.
  all: inversion H; subst; clear H; logs.
  all: repeat split; congruence.
Qed.

Lemma verifyCharge_latest id w result w' :
  verifyCharge callbacks id w = (Ok result, w') ->
  let charge := JS.get result "rawResponse" in
  (forall entries,
      JS.get charge "timeline" = JS.Arr entries ->
      JS.get result "status" = JS.opt_get (last entries JS.Undefined) "status") /\
  (JS.get charge "timeline" = JS.Arr [] ->
   JS.get result "status" = JS.Undefined /\ emitted w' = emitted w) /\
  JS.get result "metadata" = JS.get charge "metadata".
Proof.
  intros H. assert (Hd := verifyCharge_dispatch _ _ _ _ _ H).
  unfold verifyCharge in H. run_inv H.
  all: inversion H; subst; clear H.
  all: cbn [JS.get JS.assoc String.eqb Ascii.eqb Bool.eqb] in *.
  all: split; [intros entries ->; reflexivity|].
  all: split; [|reflexivity].
  all: intros Ht; rewrite Ht in *; split; [reflexivity|].
  all: exact Hd.
Qed.

End Charges.

(** X12.  The Coinbase calls do not use the PayPal token or the
    metadata cache: [createCharge] and [verifyCharge] leave the cached
    token and its expiry time as they are, send no credential exchange
    ([verifyCharge] sends exactly its one GET, [createCharge] its one
    POST or, when its arguments are rejected, nothing), store nothing in
    the cache and set no timer. *)
Theorem coinbase_calls_leave_paypal_alone callbacks :
  (forall a w r w',
      createCharge callbacks a w = (r, w') ->
      tokenCache w' = tokenCache w /\ tokenExpiry w' = tokenExpiry w /\
      (requests w' = requests w \/
       requests w' = mkRequest "POST" (coinbaseUrl ++ "/charges") :: requests w) /\
      cache_within w w' /\ incl (timers w') (timers w))
  /\
  (forall id w r w',
      verifyCharge callbacks id w = (r, w') ->
      tokenCache w' = tokenCache w /\ tokenExpiry w' = tokenExpiry w /\
      requests w' = mkRequest "GET" (coinbaseUrl ++ "/charges/" ++ id) :: requests w /\
      cache_within w w' /\ incl (timers w') (timers w)).
Proof.
  split.
  - intros a w r w' H.
    destruct (createCharge_logs _ _ _ _ _ H) as (Htc & Hte & Hq).
    repeat split; try assumption.
    + eapply keeps_run_eq; [apply keeps_createCharge, (cache_within_basic w) | | exact H].
      intros key Hk; exact Hk.
    + eapply (keeps_run_eq (timers_among w));
        [apply keeps_createCharge, timers_among_basic | | exact H].
      apply incl_refl.
  - intros id w r w' H.
    destruct (verifyCharge_logs _ _ _ _ _ H) as (Htc & Hte & Hq).
    repeat split; try assumption.
    + eapply keeps_run_eq; [apply keeps_verifyCharge, (cache_within_basic w) | | exact H].
      intros key Hk; exact Hk.
    + eapply (keeps_run_eq (timers_among w));
        [apply keeps_verifyCharge, timers_among_basic | | exact H].
      apply incl_refl.
Qed.

(** X13.  [verifyCharge] reports the status of the last entry of the
    provider's timeline, whatever came before it; with an empty timeline
    it returns a result whose status is undefined and emits nothing.
    The metadata it reports is the one in the provider's record of the
    charge. *)
Theorem verifyCharge_reports_the_latest_status callbacks id w result w' :
  verifyCharge callbacks id w = (Ok result, w') ->
  let charge := JS.get result "rawResponse" in
  (forall entries,
      JS.get charge "timeline" = JS.Arr entries ->
      JS.get result "status" = JS.opt_get (last entries JS.Undefined) "status") /\
  (JS.get charge "timeline" = JS.Arr [] ->
   JS.get result "status" = JS.Undefined /\ emitted w' = emitted w) /\
  JS.get result "metadata" = JS.get charge "metadata".
Proof. apply verifyCharge_latest. Qed.

(* ================================================================== *)
(** ** The shape of a digest *)

Lemma compress_length h block :
  List.length (Sha256.compress h block) = Nat.min (List.length h) 8.
Proof.
  unfold Sha256.compress. cbv zeta. now rewrite length_map, length_combine.
Qed.

Lemma compress_all_length bl : forall h,
  List.length h = 8%nat -> List.length (fold_left Sha256.compress bl h) = 8%nat.
Proof.
  induction bl as [|b r IH]; intros h Hh; simpl; [exact Hh|].
  apply IH. now rewrite compress_length, Hh.
Qed.

Lemma flat_bytes_length ws :
  List.length (flat_map Sha256.bytes_of_word ws) = (4 * List.length ws)%nat.
Proof.
  induction ws as [|x r IH]; [reflexivity|].
  cbn [flat_map]. rewrite length_app, IH. simpl. lia.
Qed.

Lemma digest_length msg : List.length (Sha256.digest msg) = 32%nat.
Proof.
  unfold Sha256.digest. cbv zeta.
  rewrite flat_bytes_length, compress_all_length; reflexivity.
Qed.

Lemma hmac_length key msg : List.length (Hmac.hmac_sha256 key msg) = 32%nat.
Proof. unfold Hmac.hmac_sha256. cbv zeta. apply digest_length. Qed.

Lemma hex_length bs : String.length (hex bs) = (2 * List.length bs)%nat.
Proof. induction bs as [|b r IH]; simpl; [reflexivity | rewrite IH; lia]. Qed.

Lemma hex_digit_lower k : 0 <= k < 16 -> is_lower_hex (hex_digit k) = true.
Proof.
  intros Hk.
  assert (k = 0 \/ k = 1 \/ k = 2 \/ k = 3 \/ k = 4 \/ k = 5 \/ k = 6 \/ k = 7 \/
          k = 8 \/ k = 9 \/ k = 10 \/ k = 11 \/ k = 12 \/ k = 13 \/ k = 14 \/ k = 15)
    as Hcases by lia.
  repeat (destruct Hcases as [->|Hcases]; [reflexivity|]). subst. reflexivity.
Qed.

Lemma hex_lower bs :
  Forall is_byte bs -> forallb is_lower_hex (list_ascii_of_string (hex bs)) = true.
Proof.
  induction 1 as [|b r Hb Hr IH]; [reflexivity|].
  destruct (byte_nibbles b Hb) as (Hh & Hl & _).
  cbn [hex list_ascii_of_string forallb].
  now rewrite !hex_digit_lower, IH.
Qed.

(** X14.  [sha256(data)] of a string is a string of exactly 64
    characters, each a digit of lower-case hex. *)
Theorem sha256_is_64_hex_digits s :
  exists h,
    sha256 (JS.Str s) = Ok h /\
    String.length h = 64%nat /\
    forallb is_lower_hex (list_ascii_of_string h) = true.
Proof.
  eexists. split; [reflexivity|]. split.
  - now rewrite hex_length, digest_length.
  - apply hex_lower, digest_bytes.
Qed.

(** X15.  [verifyWebhook] accepts a signature only if it is a string of
    exactly 64 digits of lower-case hex: a header that is missing, is
    written in upper case or carries a prefix is rejected, whatever the
    payload and the secret. *)
Theorem accepted_signature_is_64_hex_digits payload signature secret :
  verifyWebhook payload signature secret = Ok true ->
  exists s,
    signature = JS.Str s /\
    String.length s = 64%nat /\
    forallb is_lower_hex (list_ascii_of_string s) = true.
Proof.
  unfold verifyWebhook. destruct secret; try discriminate.
  destruct payload; try discriminate.
  destruct signature; try discriminate. simpl.
  intros H. injection H as Heq. apply String.eqb_eq in Heq. subst.
  eexists. split; [reflexivity|]. split.
  - now rewrite hex_length, hmac_length.
  - apply hex_lower, hmac_bytes.
Qed.

Lemma accepted_signature_witness :
  verifyWebhook (JS.Str "{}") (JS.Str (webhook_signature "{}" "whsec")) (JS.Str "whsec")
  = Ok true /\
  exists s,
    JS.Str (webhook_signature "{}" "whsec") = JS.Str s /\
    String.length s = 64%nat /\
    forallb is_lower_hex (list_ascii_of_string s) = true.
Proof.
  assert (H : verifyWebhook (JS.Str "{}") (JS.Str (webhook_signature "{}" "whsec"))
                (JS.Str "whsec") = Ok true) by (vm_compute; reflexivity).
  split; [exact H|].
  exact (accepted_signature_is_64_hex_digits _ _ _ H).
Defined.

(* ================================================================== *)
(** ** The route handlers *)

Lemma try_catch_returns {A} (body : M A) handler w :
  (forall e w1, exists a w2, handler e w1 = (Ok a, w2)) ->
  exists a w', try_catch body handler w = (Ok a, w').
Proof.
  intros Hh. unfold try_catch. destruct (body w) as [[a|e] w1]; [eauto | apply Hh].
Qed.

(** On a string the general verification is [verifyCharge]. *)
Lemma verifyChargeOf_string callbacks id :
  verifyChargeOf callbacks (JS.Str id) = verifyCharge callbacks id.
Proof. reflexivity. Qed.

Section Routes.

Variable g : Gateway.

Lemma handle_returns h req w : exists answer w', handle g h req w = (Ok answer, w').
Proof.
  destruct h; simpl.
  - eexists; eexists; reflexivity.
  - apply try_catch_returns. intros; eexists; eexists; reflexivity.
  - apply try_catch_returns. intros; eexists; eexists; reflexivity.
  - unfold cancelRoute. cbv zeta. unfold bind.
    destruct (missing_string (lookup "token" (query req))).
    + eexists; eexists; reflexivity.
    + match goal with
      | |- context [try_catch ?b ?h w] =>
          destruct (try_catch_returns b h w) as (a & w' & ->)
      end; [intros; eexists; eexists; reflexivity|].
      eexists; eexists; reflexivity.
  - apply try_catch_returns. intros; eexists; eexists; reflexivity.
  - apply try_catch_returns. intros; eexists; eexists; reflexivity.
  - eexists; eexists; reflexivity.
Qed.

(** The three routes the providers send the buyer back to. *)
Lemma paypalVerifyRoute_answer config req w :
  match lookup "token" (query req) with
  | Some (String c r) =>
      let orderId := String c r in
      let run := verifyOrder (gateway_callbacks g) config orderId w in
      exists answer,
        paypalVerifyRoute g config req w = (Ok answer, snd run) /\
        (answer = Redirect (redirect_error (redirects g)) \/
         exists result,
           fst run = Ok result /\ JS.get result "status" = JS.Str "COMPLETED" /\
           answer = Redirect (redirect_success (redirects g) ++ "?" ++
                              JSText.URLSearchParams
                                [("payment_id", JS.Str orderId); ("provider", JS.Str "paypal");
                                 ("amount", JS.get result "amount");
                                 ("currency", JS.get result "currency")]))
  | _ => paypalVerifyRoute g config req w = (Ok (Status 400 (refusal "missing_token")), w)
  end.
Proof.
  unfold paypalVerifyRoute. cbv zeta.
  destruct (lookup "token" (query req)) as [[|c r]|]; try reflexivity.
  simpl. unfold try_catch, bind.
  destruct (verifyOrder (gateway_callbacks g) config (String c r) w) as [[result|e] w'].
  - destruct (JS.get result "status") eqn:Hs; simpl;
      try (eexists; split; [reflexivity | left; reflexivity]).
    destruct (String.eqb s "COMPLETED") eqn:E.
    + apply String.eqb_eq in E. subst.
      eexists; split; [reflexivity|]. right. exists result. auto.
    + eexists; split; [reflexivity | left; reflexivity].
  - eexists; split; [reflexivity | left; reflexivity].
Qed.

Lemma paypalSubscriptionVerifyRoute_answer config req w :
  match lookup "subscription_id" (query req) with
  | Some (String c r) =>
      let subscriptionId := String c r in
      let run := verifySubscription (gateway_callbacks g) config subscriptionId w in
      exists answer,
        paypalSubscriptionVerifyRoute g config req w = (Ok answer, snd run) /\
        (answer = Redirect (redirect_subscriptionError (redirects g)) \/
         exists result,
           fst run = Ok result /\ JS.get result "status" = JS.Str "ACTIVE" /\
           answer = Redirect (redirect_subscriptionSuccess (redirects g) ++ "?" ++
                              JSText.URLSearchParams
                                [("payment_id", JS.Str subscriptionId);
                                 ("provider", JS.Str "paypal")]))
  | _ => paypalSubscriptionVerifyRoute g config req w
         = (Ok (Status 400 (refusal "missing_subscription_id")), w)
  end.
Proof.
  unfold paypalSubscriptionVerifyRoute. cbv zeta.
  destruct (lookup "subscription_id" (query req)) as [[|c r]|]; try reflexivity.
  simpl. unfold try_catch, bind.
  destruct (verifySubscription (gateway_callbacks g) config (String c r) w) as [[result|e] w'].
  - destruct (JS.get result "status") eqn:Hs; simpl;
      try (eexists; split; [reflexivity | left; reflexivity]).
    destruct (String.eqb s "ACTIVE") eqn:E.
    + apply String.eqb_eq in E. subst.
      eexists; split; [reflexivity|]. right. exists result. auto.
    + eexists; split; [reflexivity | left; reflexivity].
  - eexists; split; [reflexivity | left; reflexivity].
Qed.

Lemma coinbaseVerifyRoute_answer req w :
  match lookup "code" (query req) with
  | Some (String c r) =>
      let run := verifyCharge (gateway_callbacks g) (String c r) w in
      exists answer,
        coinbaseVerifyRoute g req w = (Ok answer, snd run) /\
        (answer = Redirect (redirect_error (redirects g)) \/
         exists result,
           fst run = Ok result /\ JS.get result "status" = JS.Str "COMPLETED" /\
           answer = Redirect (redirect_success (redirects g) ++ "?" ++
                              JSText.URLSearchParams
                                [("payment_id", JS.get result "chargeId");
                                 ("provider", JS.Str "coinbase");
                                 ("amount", JS.get result "amount");
                                 ("currency", JS.get result "currency")]))
  | _ => coinbaseVerifyRoute g req w = (Ok (Status 400 (refusal "missing_code")), w)
  end.
Proof.
  unfold coinbaseVerifyRoute. cbv zeta.
  destruct (lookup "code" (query req)) as [[|c r]|]; try reflexivity.
  simpl. unfold try_catch, bind.
  destruct (verifyCharge (gateway_callbacks g) (String c r) w) as [[result|e] w'].
  - destruct (JS.get result "status") eqn:Hs; simpl;
      try (eexists; split; [reflexivity | left; reflexivity]).
    destruct (String.eqb s "COMPLETED") eqn:E.
    + apply String.eqb_eq in E. subst.
      eexists; split; [reflexivity|]. right. exists result. auto.
    + eexists; split; [reflexivity | left; reflexivity].
  - eexists; split; [reflexivity | left; reflexivity].
Qed.

Lemma cancelRoute_answer config req w :
  cancelRoute g config req w =
  (Ok (Redirect (redirect_cancelled (redirects g))),
   match lookup "token" (query req) with
   | Some (String c r) => snd (verifyOrder (gateway_callbacks g) config (String c r) w)
   | _ => w
   end).
Proof.
  unfold cancelRoute. cbv zeta.
  destruct (lookup "token" (query req)) as [[|c r]|]; try reflexivity.
  simpl. unfold try_catch, bind.
  destruct (verifyOrder (gateway_callbacks g) config (String c r) w) as [[result|e] w'];
    reflexivity.
Qed.

End Routes.

Section Webhook.

Variable g : Gateway.

Lemma coinbaseWebhookRoute_answer secret req w :
  let checked := verifyWebhook (JSText.JSON_stringify (body req))
                               (header "x-cc-webhook-signature" req) (JS.Str secret) in
  let inner := JS.opt_get (body req) "event" in
  exists answer w',
    coinbaseWebhookRoute g secret req w = (Ok answer, w') /\
    match checked with
    | Ok true =>
        if JS.str_is (JS.opt_get inner "type") "charge:confirmed" then
          if JS.nullish (JS.get inner "data") then
            answer = Status 500 (refusal "webhook_error") /\ w' = w
          else
            let run := verifyChargeOf (gateway_callbacks g)
                                      (JS.get (JS.get inner "data") "id") w in
            w' = snd run /\
            answer = match fst run with
                     | Ok _ => Status 200 (JS.Obj [("ok", JS.Bool true)])
                     | Throw _ => Status 500 (refusal "webhook_error")
                     end
        else
          w' = w /\
          answer = if JS.nullish inner then Status 500 (refusal "webhook_error")
                   else Status 200 (JS.Obj [("ok", JS.Bool true)])
    | Ok false => answer = Status 401 (refusal "invalid_signature") /\ w' = w
    | Throw _ => answer = Status 500 (refusal "webhook_error") /\ w' = w
    end.
Proof.
  cbv zeta. unfold coinbaseWebhookRoute, try_catch, bind, prop, ret, throw, JS.opt_get.
  destruct (verifyWebhook (JSText.JSON_stringify (body req))
              (header "x-cc-webhook-signature" req) (JS.Str secret)) as [[|]|e];
    cbn [negb];
    try (eexists; eexists; split; [reflexivity | split; reflexivity]).
  destruct (JS.nullish (body req));
    [cbn [JS.get JS.str_is JS.nullish];
     eexists; eexists; split; [reflexivity | split; reflexivity]|].
  destruct (JS.nullish (JS.get (body req) "event"));
    [cbn [JS.get JS.str_is JS.nullish];
     eexists; eexists; split; [reflexivity | split; reflexivity]|].
  destruct (JS.str_is (JS.get (JS.get (body req) "event") "type") "charge:confirmed");
    [|eexists; eexists; split; [reflexivity | split; reflexivity]].
  destruct (JS.nullish (JS.get (JS.get (body req) "event") "data"));
    [eexists; eexists; split; [reflexivity | split; reflexivity]|].
  destruct (verifyChargeOf (gateway_callbacks g)
              (JS.get (JS.get (JS.get (body req) "event") "data") "id") w) as [[result|e] w1];
    eexists; eexists; split; [reflexivity | split; reflexivity | reflexivity | split; reflexivity].
Qed.

End Webhook.

(** X16.  No route handler lets an exception out: whatever the request
    and whatever the provider does, each of the handlers the constructor
    registers answers (with a redirect, a status and a JSON body, or the
    status page). *)
Theorem handlers_never_throw g h req w :
  exists answer w', handle g h req w = (Ok answer, w').
Proof. apply handle_returns. Qed.

(** X17.  The three routes the providers send the buyer back to.
    Without their parameter ([token], [subscription_id], [code]; absent
    or empty) they answer 400 with an error code and do nothing else.
    With it they run the verification, end in the world it ends in, and
    redirect to the success address, with the payment in the query
    string, only when the verification returned a result whose status is
    COMPLETED (ACTIVE for a subscription); in every other case, a thrown
    error included, they redirect to the error address. *)
Theorem return_routes_redirect_by_status g :
  (forall config req w,
      match lookup "token" (query req) with
      | Some (String c r) =>
          let orderId := String c r in
          let run := verifyOrder (gateway_callbacks g) config orderId w in
          exists answer,
            paypalVerifyRoute g config req w = (Ok answer, snd run) /\
            (answer = Redirect (redirect_error (redirects g)) \/
             exists result,
               fst run = Ok result /\ JS.get result "status" = JS.Str "COMPLETED" /\
               answer = Redirect (redirect_success (redirects g) ++ "?" ++
                                  JSText.URLSearchParams
                                    [("payment_id", JS.Str orderId);
                                     ("provider", JS.Str "paypal");
                                     ("amount", JS.get result "amount");
                                     ("currency", JS.get result "currency")]))
      | _ => paypalVerifyRoute g config req w = (Ok (Status 400 (refusal "missing_token")), w)
      end)
  /\
  (forall config req w,
      match lookup "subscription_id" (query req) with
      | Some (String c r) =>
          let subscriptionId := String c r in
          let run := verifySubscription (gateway_callbacks g) config subscriptionId w in
          exists answer,
            paypalSubscriptionVerifyRoute g config req w = (Ok answer, snd run) /\
            (answer = Redirect (redirect_subscriptionError (redirects g)) \/
             exists result,
               fst run = Ok result /\ JS.get result "status" = JS.Str "ACTIVE" /\
               answer = Redirect (redirect_subscriptionSuccess (redirects g) ++ "?" ++
                                  JSText.URLSearchParams
                                    [("payment_id", JS.Str subscriptionId);
                                     ("provider", JS.Str "paypal")]))
      | _ => paypalSubscriptionVerifyRoute g config req w
             = (Ok (Status 400 (refusal "missing_subscription_id")), w)
      end)
  /\
  (forall req w,
      match lookup "code" (query req) with
      | Some (String c r) =>
          let run := verifyCharge (gateway_callbacks g) (String c r) w in
          exists answer,
            coinbaseVerifyRoute g req w = (Ok answer, snd run) /\
            (answer = Redirect (redirect_error (redirects g)) \/
             exists result,
               fst run = Ok result /\ JS.get result "status" = JS.Str "COMPLETED" /\
               answer = Redirect (redirect_success (redirects g) ++ "?" ++
                                  JSText.URLSearchParams
                                    [("payment_id", JS.get result "chargeId");
                                     ("provider", JS.Str "coinbase");
                                     ("amount", JS.get result "amount");
                                     ("currency", JS.get result "currency")]))
      | _ => coinbaseVerifyRoute g req w = (Ok (Status 400 (refusal "missing_code")), w)
      end).
Proof.
  split; [|split].
  - apply paypalVerifyRoute_answer.
  - apply paypalSubscriptionVerifyRoute_answer.
  - apply coinbaseVerifyRoute_answer.
Qed.

(** X18.  The cancel route always redirects to the cancelled address.
    With a [token] it first runs [verifyOrder] on it and ignores what
    that throws: the world is the one the verification leaves.  So, once
    the access token is at hand, the cached metadata of that order is
    gone; and when the verification returns, the one event it emitted is
    the one for the provider's status ([onPaymentCancelled] only for
    VOIDED or CANCELLED, [onPaymentFailed] for an order merely
    created). *)
Theorem cancel_route_verifies_and_redirects g config req w :
  cancelRoute g config req w =
  (Ok (Redirect (redirect_cancelled (redirects g))),
   match lookup "token" (query req) with
   | Some (String c r) => snd (verifyOrder (gateway_callbacks g) config (String c r) w)
   | _ => w
   end)
  /\
  (forall c r token w1,
      lookup "token" (query req) = Some (String c r) ->
      getAccessToken (gateway_callbacks g) config w = (Ok token, w1) ->
      purged (JS.Str (String c r)) (snd (cancelRoute g config req w)))
  /\
  (forall c r result w1,
      lookup "token" (query req) = Some (String c r) ->
      verifyOrder (gateway_callbacks g) config (String c r) w = (Ok result, w1) ->
      emitted (snd (cancelRoute g config req w)) =
      (dispatched "order" (Some (order_status (JS.get result "status"))) result
       ++ emitted w)%list).
Proof.
  split; [apply cancelRoute_answer|]. split.
  - intros c r token w1 Hq Htoken. rewrite cancelRoute_answer, Hq. simpl.
    eapply verifyOrder_purges; eauto.
  - intros c r result w1 Hq Hv. rewrite cancelRoute_answer, Hq. simpl.
    rewrite Hv. simpl. eapply verifyOrder_dispatch; eauto.
Qed.

(** X19.  The webhook route.  The signature header is checked against
    the HMAC of [JSON.stringify] of the parsed body.  A signature that
    does not match is answered 401, and a check that throws (no body, no
    string to sign) 500; in both cases nothing else happens.  With a
    matching signature an event other than [charge:confirmed] is
    answered 200 (500 when the body has no [event]) and changes nothing;
    a [charge:confirmed] event runs [verifyCharge] on [event.data.id] and
    is answered 200 when that returns and 500 when it throws. *)
Theorem webhook_route_checks_the_signature_first g secret req w :
  let checked := verifyWebhook (JSText.JSON_stringify (body req))
                               (header "x-cc-webhook-signature" req) (JS.Str secret) in
  let inner := JS.opt_get (body req) "event" in
  exists answer w',
    coinbaseWebhookRoute g secret req w = (Ok answer, w') /\
    match checked with
    | Ok true =>
        if JS.str_is (JS.opt_get inner "type") "charge:confirmed" then
          if JS.nullish (JS.get inner "data") then
            answer = Status 500 (refusal "webhook_error") /\ w' = w
          else
            let run := verifyChargeOf (gateway_callbacks g)
                                      (JS.get (JS.get inner "data") "id") w in
            w' = snd run /\
            answer = match fst run with
                     | Ok _ => Status 200 (JS.Obj [("ok", JS.Bool true)])
                     | Throw _ => Status 500 (refusal "webhook_error")
                     end
        else
          w' = w /\
          answer = if JS.nullish inner then Status 500 (refusal "webhook_error")
                   else Status 200 (JS.Obj [("ok", JS.Bool true)])
    | Ok false => answer = Status 401 (refusal "invalid_signature") /\ w' = w
    | Throw _ => answer = Status 500 (refusal "webhook_error") /\ w' = w
    end.
Proof. apply coinbaseWebhookRoute_answer. Qed.

(* ================================================================== *)
(** ** The status page redirects *)

Lemma assoc_assign_same ps k v : JS.assoc k (assign ps k v) = v.
Proof.
  induction ps as [|[k' v'] r IH]; simpl.
  - now rewrite String.eqb_refl.
  - destruct (String.eqb k' k) eqn:E; simpl; rewrite String.eqb_sym, E; auto.
Qed.

Lemma assoc_assign_other ps k v k0 :
  k0 <> k -> JS.assoc k0 (assign ps k v) = JS.assoc k0 ps.
Proof.
  intros Hk. induction ps as [|[k' v'] r IH]; simpl.
  - apply String.eqb_neq in Hk. now rewrite Hk.
  - destruct (String.eqb k' k) eqn:E; simpl.
    + apply String.eqb_eq in E. subst k'.
      apply String.eqb_neq in Hk. now rewrite Hk.
    + now rewrite IH.
Qed.

Lemma assoc_spread k (q : list (string * string)) :
  JS.assoc k (map (fun p => (fst p, JS.Str (snd p))) q)
  = match lookup k q with
    | Some v => JS.Str v
    | None => JS.Undefined
    end.
Proof.
  induction q as [|[k' v'] r IH]; simpl; [reflexivity|].
  destruct (String.eqb k k'); auto.
Qed.

(** X20.  The five status routes redirect to the status page under the
    base path with the query of the request, in which [status] (and, on
    the two subscription routes, [type]) is fixed by the route: a
    [status] or [type] parameter sent by the browser is overwritten, and
    every other parameter is passed on with its value. *)
Theorem status_routes_fix_the_status g status subscription req :
  (forall w,
      statusRedirectRoute g status subscription req w
      = (Ok (Redirect (basePath g ++ "/payment-status.html?" ++
                       JSText.URLSearchParams (status_query req status subscription))), w))
  /\
  JS.assoc "status" (status_query req status subscription) = JS.Str status /\
  (if subscription
   then JS.assoc "type" (status_query req status subscription) = JS.Str "subscription"
   else True) /\
  (forall k,
      k <> "status" -> (if subscription then k <> "type" else True) ->
      JS.assoc k (status_query req status subscription)
      = match lookup k (query req) with
        | Some v => JS.Str v
        | None => JS.Undefined
        end).
Proof.
  split; [reflexivity|]. unfold status_query. cbv zeta.
  destruct subscription.
  - split; [|split].
    + rewrite assoc_assign_other by discriminate. apply assoc_assign_same.
    + apply assoc_assign_same.
    + intros k Hs Ht. rewrite !assoc_assign_other by assumption. apply assoc_spread.
  - split; [|split].
    + apply assoc_assign_same.
    + exact Logic.I.
    + intros k Hs _. rewrite assoc_assign_other by assumption. apply assoc_spread.
Qed.

(* ================================================================== *)
(** ** The constructor *)

Lemma endsWith_slash_app d : endsWith_slash (d ++ "/") = true.
Proof.
  induction d as [|c r IH]; [reflexivity|].
  simpl. destruct (r ++ "/") eqn:E; [|exact IH].
  destruct r; discriminate.
Qed.

Lemma slice_but_last_app d : slice_but_last (d ++ "/") = d.
Proof.
  induction d as [|c r IH]; [reflexivity|].
  simpl. destruct (r ++ "/") eqn:E; [destruct r; discriminate|].
  now rewrite IH.
Qed.

Lemma missing_string_false o :
  missing_string o = false -> exists s, o = Some s /\ s <> EmptyString.
Proof.
  destruct o as [s|]; simpl; [|discriminate].
  intros H. exists s. split; [reflexivity|]. now apply String.eqb_neq.
Qed.

(** What a constructor that returns has checked and built. *)
Lemma constructor_ok web o g :
  constructor web o = Ok g ->
  options_app o = true /\ web = true /\
  missing_string (options_domain o) = false /\
  domain g = (let given := default EmptyString (options_domain o) in
              if endsWith_slash given then slice_but_last given else given) /\
  basePath g = default "/payments" (options_basePath o) /\
  redirects g = default default_redirects (options_redirects o) /\
  gateway_callbacks g = options_callbacks o /\
  match options_paypal o with
  | Some p =>
      missing_string (paypal_clientId p) = false /\
      missing_string (paypal_clientSecret p) = false /\
      paypal g = Some (mkPayPalConfig (default EmptyString (paypal_clientId p))
                                      (default EmptyString (paypal_clientSecret p))
                                      (paypal_sandbox p))
  | None => paypal g = None
  end /\
  match options_coinbase o with
  | Some c =>
      missing_string (coinbase_apiKey c) = false /\
      coinbase g = Some (mkCoinbaseConfig (default EmptyString (coinbase_apiKey c))
                                          (coinbase_webhookSecret c))
  | None => coinbase g = None
  end.
Proof.
  unfold constructor. cbv zeta.
  destruct (options_app o); [|discriminate]. simpl negb. cbv iota.
  destruct (missing_string (options_domain o)); [discriminate|].
  destruct web; [|discriminate]. simpl negb. cbv iota.
  destruct (options_paypal o) as [p|].
  - destruct (missing_string (paypal_clientId p)); [discriminate|].
    destruct (missing_string (paypal_clientSecret p)); [discriminate|].
    destruct (options_coinbase o) as [c|].
    + destruct (missing_string (coinbase_apiKey c)); [discriminate|].
      intros H; inversion H; subst; clear H. simpl. repeat split; reflexivity.
    + intros H; inversion H; subst; clear H. simpl. repeat split; reflexivity.
  - destruct (options_coinbase o) as [c|].
    + destruct (missing_string (coinbase_apiKey c)); [discriminate|].
      intros H; inversion H; subst; clear H. simpl. repeat split; reflexivity.
    + intros H; inversion H; subst; clear H. simpl. repeat split; reflexivity.
Qed.

(** X21.  The constructor takes one trailing slash off the domain, so
    a domain written with or without it gives the same addresses:
    [getUrl(path)] is the domain without that slash, then the base path
    ('/payments' unless given), then the path. *)
Theorem getUrl_ignores_one_trailing_slash web o g d path :
  constructor web o = Ok g ->
  options_domain o = Some (d ++ "/") \/
  (options_domain o = Some d /\ endsWith_slash d = false) ->
  domain g = d /\
  getUrl g path = d ++ default "/payments" (options_basePath o) ++ path.
Proof.
  intros H Hd. apply constructor_ok in H as (_ & _ & _ & Hdom & Hbase & _).
  assert (Hg : domain g = d).
  { rewrite Hdom. cbv zeta. destruct Hd as [->|[-> Hno]]; simpl.
    - now rewrite endsWith_slash_app, slice_but_last_app.
    - now rewrite Hno. }
  split; [exact Hg|]. unfold getUrl. now rewrite Hg, Hbase.
Qed.

(** The handlers of [registerRoutes] and what they need. *)
Lemma registerRoutes_needs g r :
  In r (registerRoutes g) ->
  match route_handler r with
  | PayPalVerify c | PayPalSubscriptionVerify c | Cancel c => paypal g = Some c
  | CoinbaseVerify => coinbase g <> None
  | CoinbaseWebhook s =>
      s <> EmptyString /\ exists c, coinbase g = Some c /\ webhookSecret c = Some s
  | _ => False
  end.
Proof.
  unfold registerRoutes. intros H. apply in_app_or in H as [H|H].
  - destruct (paypal g) as [c|]; [|inversion H].
    simpl in H. destruct H as [<-|[<-|[<-|[]]]]; reflexivity.
  - destruct (coinbase g) as [c|]; [|inversion H].
    simpl in H. destruct H as [<-|H]; [simpl; discriminate|].
    destruct (missing_string (webhookSecret c)) eqn:E; [inversion H|].
    simpl in H. destruct H as [<-|[]]. simpl.
    apply missing_string_false in E as (s & Es & Hs). rewrite Es. simpl.
    split; [exact Hs | eauto].
Qed.

(** X22.  A gateway the constructor returns is complete: it was given
    an app and a domain, a PayPal adapter exists exactly when [paypal]
    was given and then holds a non-empty client id and secret, a
    Coinbase adapter exactly when [coinbase] was given and then holds a
    non-empty API key.  Every route it registers has what its handler
    uses: the PayPal routes (the cancel route among them) the PayPal
    adapter, the Coinbase route the Coinbase adapter, and the webhook
    route is registered only with a non-empty webhook secret. *)
Theorem constructed_gateway_is_complete web o g :
  constructor web o = Ok g ->
  (options_app o = true /\ missing_string (options_domain o) = false) /\
  (paypal g = None <-> options_paypal o = None) /\
  (coinbase g = None <-> options_coinbase o = None) /\
  (forall c, paypal g = Some c ->
             clientId c <> EmptyString /\ clientSecret c <> EmptyString) /\
  (forall c, coinbase g = Some c -> apiKey c <> EmptyString) /\
  (forall r, In r (routes g) ->
     match route_handler r with
     | PayPalVerify c | PayPalSubscriptionVerify c | Cancel c => paypal g = Some c
     | CoinbaseVerify => coinbase g <> None
     | CoinbaseWebhook s =>
         s <> EmptyString /\ exists c, coinbase g = Some c /\ webhookSecret c = Some s
     | _ => True
     end).
Proof.
  intros H. apply constructor_ok in H as (Happ & _ & Hdom & _ & _ & _ & _ & Hp & Hc).
  split; [auto|]. split; [|split; [|split; [|split]]].
  - destruct (options_paypal o) as [p|].
    + destruct Hp as (_ & _ & ->). split; discriminate.
    + rewrite Hp. tauto.
  - destruct (options_coinbase o) as [c|].
    + destruct Hc as (_ & ->). split; discriminate.
    + rewrite Hc. tauto.
  - intros c Hg. destruct (options_paypal o) as [p|]; [|congruence].
    destruct Hp as (Hid & Hsec & Hg'). rewrite Hg' in Hg. inversion Hg; subst; clear Hg.
    apply missing_string_false in Hid as (s1 & -> & H1).
    apply missing_string_false in Hsec as (s2 & -> & H2). simpl. auto.
  - intros c Hg. destruct (options_coinbase o) as [c0|]; [|congruence].
    destruct Hc as (Hkey & Hg'). rewrite Hg' in Hg. inversion Hg; subst; clear Hg.
    apply missing_string_false in Hkey as (s1 & -> & H1). simpl. auto.
  - intros r Hr. unfold routes in Hr. destruct Hr as [<-|Hr]; [exact Logic.I|].
    apply in_app_or in Hr as [Hr|Hr].
    + apply registerRoutes_needs in Hr. destruct (route_handler r); auto; contradiction.
    + unfold registerRedirectRoutes in Hr. simpl in Hr.
      destruct Hr as [<-|[<-|[<-|[<-|[<-|[]]]]]]; exact Logic.I.
Qed.

(* ================================================================== *)
(** ** Every failure is reported once *)

Section Reports.

Variable callbacks : Callbacks.
Variable config : PayPalConfig.

Lemma auth_reported_once tag w e w' :
  getAccessToken callbacks config w = (Throw e, w') -> reported_once tag e w w'.
Proof.
  intros H. apply getAccessToken_failure in H as (_ & _ & _ & He & _).
  eexists. split; [exact He|]. split; [reflexivity | right; reflexivity].
Qed.

(** After the token: the events of a run that threw. *)
Ltac report :=
  repeat match goal with
  | E : emit _ onError _ _ = _ |- _ =>
      let Hr := fresh "Hr" in
      apply emit_fields in E as (Hr & ? & _); try discriminate Hr
  | E : emit _ _ _ _ = (Throw _, _) |- _ =>
      apply emit_fields in E as (E & _); discriminate E
  | E : emit _ _ _ _ = _ |- _ =>
      let Hr := fresh "Hr" in
      apply emit_fields in E as (Hr & ? & _); try discriminate Hr
  | E : request _ _ _ = _ |- _ =>
      apply request_logs in E as (? & _)
  | E : approve_link _ _ = _ |- _ => apply approve_link_same in E; subst
  | E : getAccessToken _ _ _ = (Ok _, _) |- _ => apply getAccessToken_ok_emitted in E
  end;
  try solve
    [ eexists; split;
      [ simpl in *; etransitivity; [eassumption|]; f_equal; congruence
      | split; [reflexivity | left; reflexivity] ] ].

Lemma verifyOrder_reported_once id w e w' :
  verifyOrder callbacks config id w = (Throw e, w') ->
  reported_once "order_verification" e w w'.
Proof.
  intros H. unfold verifyOrder in H. unfold bind at 1 in H.
  destruct (getAccessToken callbacks config w) as [[token|e0] w1] eqn:Htoken.
  - run_inv H. all: inversion H; subst; clear H. all: report.
  - inversion H; subst. now apply auth_reported_once.
Qed.

Lemma verifySubscription_reported_once id w e w' :
  verifySubscription callbacks config id w = (Throw e, w') ->
  reported_once "subscription_verification" e w w'.
Proof.
  intros H. unfold verifySubscription in H. unfold bind at 1 in H.
  destruct (getAccessToken callbacks config w) as [[token|e0] w1] eqn:Htoken.
  - run_inv H. all: inversion H; subst; clear H. all: report.
  - inversion H; subst. now apply auth_reported_once.
Qed.

Lemma createOrder_reported_once a w e w' :
  createOrder callbacks config a w = (Throw e, w') ->
  missing_string (order_title a) = false ->
  missing_number (order_price a) = false ->
  reported_once "order_creation" e w w'.
Proof.
  intros H Ht Hp. unfold createOrder in H.
  destruct (customId_drawn (order_customId a) w) as (id & w0 & Hgen & _ & He0 & _).
  unfold bind at 1 in H. rewrite Hgen in H. cbv zeta in H. rewrite Ht, Hp in H.
  unfold bind at 1 in H.
  destruct (getAccessToken callbacks config w0) as [[token|e0] w1] eqn:Htoken.
  - run_inv H. all: inversion H; subst; clear H. all: report.
  - inversion H; subst. apply (auth_reported_once "order_creation") in Htoken.
    destruct Htoken as (r & Hr & Hrest). exists r. split; [congruence | exact Hrest].
Qed.

Lemma createSubscription_reported_once a w e w' :
  createSubscription callbacks config a w = (Throw e, w') ->
  missing_string (sub_planId a) = false ->
  reported_once "subscription_creation" e w w'.
Proof.
  intros H Hp. unfold createSubscription in H.
  destruct (customId_drawn (sub_customId a) w) as (id & w0 & Hgen & _ & He0 & _).
  unfold bind at 1 in H. rewrite Hgen in H. cbv zeta in H. rewrite Hp in H.
  unfold bind at 1 in H.
  destruct (getAccessToken callbacks config w0) as [[token|e0] w1] eqn:Htoken.
  - run_inv H. all: inversion H; subst; clear H. all: report.
  - inversion H; subst. apply (auth_reported_once "subscription_creation") in Htoken.
    destruct Htoken as (r & Hr & Hrest). exists r. split; [congruence | exact Hrest].
Qed.

Lemma createCharge_reported_once a w e w' :
  createCharge callbacks a w = (Throw e, w') ->
  missing_string (charge_title a) = false ->
  missing_number (charge_price a) = false ->
  reported_once "charge_creation" e w w'.
Proof.
  intros H Ht Hp. unfold createCharge in H. cbv zeta in H. rewrite Ht, Hp in H.
  run_inv H. all: inversion H; subst; clear H. all: report.
Qed.

Lemma verifyCharge_reported_once id w e w' :
  verifyCharge callbacks id w = (Throw e, w') ->
  reported_once "charge_verification" e w w'.
Proof.
  intros H. unfold verifyCharge in H.
  run_inv H. all: inversion H; subst; clear H. all: report.
Qed.

End Reports.

(** X23.  A call that fails after its arguments were accepted reports
    the failure exactly once: when [createOrder], [createSubscription],
    [createCharge], [verifyOrder], [verifySubscription] or
    [verifyCharge] throws, exactly one event was emitted since the call
    began, an [onError] whose record carries the detail of the thrown
    error and the type tag of the operation, or [auth] when the access
    token could not be had.  No status or creation event goes with
    it. *)
Theorem failures_are_reported_once callbacks config :
  (forall a w e w',
      createOrder callbacks config a w = (Throw e, w') ->
      missing_string (order_title a) = false ->
      missing_number (order_price a) = false ->
      reported_once "order_creation" e w w')
  /\
  (forall a w e w',
      createSubscription callbacks config a w = (Throw e, w') ->
      missing_string (sub_planId a) = false ->
      reported_once "subscription_creation" e w w')
  /\
  (forall a w e w',
      createCharge callbacks a w = (Throw e, w') ->
      missing_string (charge_title a) = false ->
      missing_number (charge_price a) = false ->
      reported_once "charge_creation" e w w')
  /\
  (forall id w e w',
      verifyOrder callbacks config id w = (Throw e, w') ->
      reported_once "order_verification" e w w')
  /\
  (forall id w e w',
      verifySubscription callbacks config id w = (Throw e, w') ->
      reported_once "subscription_verification" e w w')
  /\
  (forall id w e w',
      verifyCharge callbacks id w = (Throw e, w') ->
      reported_once "charge_verification" e w w').
Proof.
  repeat split.
  - apply createOrder_reported_once.
  - apply createSubscription_reported_once.
  - apply createCharge_reported_once.
  - apply verifyOrder_reported_once.
  - apply verifySubscription_reported_once.
  - apply verifyCharge_reported_once.
Qed.

(* ================================================================== *)
(** ** The approval link *)

Lemma find_approve_first l : forall w found w',
  find_approve l w = (Ok found, w') ->
  found = JS.Undefined \/
  exists before after,
    l = (before ++ found :: after)%list /\
    Forall (fun x => JS.str_is (JS.get x "rel") "approve" = false) before /\
    JS.str_is (JS.get found "rel") "approve" = true.
Proof.
  induction l as [|link rest IH]; intros w found w' H; simpl in H.
  - inversion H. auto.
  - unfold bind, prop in H. destruct (JS.nullish link) eqn:Hn; [discriminate|].
    unfold ret at 1 in H.
    destruct (JS.str_is (JS.get link "rel") "approve") eqn:Hrel.
    + inversion H; subst. right. exists [], rest. auto.
    + apply IH in H as [->|(before & after & -> & Hb & Hf)]; [auto|].
      right. exists (link :: before), after. auto.
Qed.

Lemma approve_link_first resp w url w' :
  approve_link resp w = (Ok url, w') -> first_approve resp url.
Proof.
  unfold approve_link, bind. unfold prop at 1.
  destruct (JS.nullish resp); [discriminate|]. unfold ret at 1.
  destruct (JS.get resp "links") as [| | | | |l|] eqn:Hl; try discriminate.
  destruct (find_approve l w) as [[found|e] w1] eqn:Hf; [|discriminate].
  apply find_approve_first in Hf as [->|(before & after & -> & Hb & Hrel)].
  - discriminate.
  - unfold prop. destruct (JS.nullish found); [discriminate|].
    intros H. inversion H; subst. exists before, found, after. auto.
Qed.

Section Approval.

Variable callbacks : Callbacks.
Variable config : PayPalConfig.

Lemma createOrder_approval a w result w' :
  createOrder callbacks config a w = (Ok result, w') ->
  first_approve (JS.get result "rawResponse") (JS.get result "approvalUrl").
Proof.
  intros H. unfold createOrder in H.
  destruct (customId_drawn (order_customId a) w) as (id & w0 & Hgen & _).
  unfold bind at 1 in H. rewrite Hgen in H.
  run_inv H. inversion H; subst; clear H.
  cbn [JS.get JS.assoc String.eqb Ascii.eqb Bool.eqb].
  eapply approve_link_first; eassumption.
Qed.

Lemma createSubscription_approval a w result w' :
  createSubscription callbacks config a w = (Ok result, w') ->
  first_approve (JS.get result "rawResponse") (JS.get result "approvalUrl").
Proof.
  intros H. unfold createSubscription in H.
  destruct (customId_drawn (sub_customId a) w) as (id & w0 & Hgen & _).
  unfold bind at 1 in H. rewrite Hgen in H.
  run_inv H. inversion H; subst; clear H.
  cbn [JS.get JS.assoc String.eqb Ascii.eqb Bool.eqb].
  eapply approve_link_first; eassumption.
Qed.

Variable I : World -> Prop.
Hypothesis I_basic : basic I.

Ltac carry :=
  repeat match goal with
  | Hx : I ?a, E : getAccessToken _ _ ?a = (_, ?b) |- _ =>
      apply (keeps_run_eq _ _ _ _ _ (keeps_getAccessToken callbacks config I I_basic) Hx) in E;
      clear Hx
  | Hx : I ?a, E : request _ _ ?a = (_, ?b) |- _ =>
      apply (keeps_run_eq _ _ _ _ _ (keeps_request I I_basic _ _) Hx) in E;
      clear Hx
  | Hx : I ?a, E : approve_link _ ?a = (_, ?b) |- _ =>
      apply approve_link_same in E; subst b
  | Hx : I ?a, E : emit _ _ _ ?a = (_, ?b) |- _ =>
      apply (keeps_run_eq _ _ _ _ _ (keeps_emit callbacks I I_basic _ _) Hx) in E;
      clear Hx
  end.

(** A creation that throws has done to the world only what waiting,
    sending and emitting do. *)
Lemma createOrder_throw_keeps a w e w' :
  I w -> createOrder callbacks config a w = (Throw e, w') -> I w'.
Proof.
  intros Hw H. unfold createOrder in H.
  assert (Hgen : exists id w0,
             (match order_customId a with Some c => ret c | None => generateId end) w
             = (Ok id, w0) /\ I w0).
  { destruct (customId_drawn (order_customId a) w) as (id & w0 & Hgen & _).
    exists id, w0. split; [exact Hgen|].
    destruct (order_customId a).
    - inversion Hgen; subst. exact Hw.
    - eapply keeps_run_eq; [apply keeps_generateId_from, I_basic | exact Hw | exact Hgen]. }
  destruct Hgen as (id & w0 & Hgen & Hw0).
  unfold bind at 1 in H. rewrite Hgen in H.
  run_inv H. all: inversion H; subst; clear H. all: carry. all: try assumption.
  all: match goal with E : emit _ _ _ _ = (Throw _, _) |- _ =>
         apply emit_fields in E as (E & _); discriminate E end.
Qed.

Lemma createSubscription_throw_keeps a w e w' :
  I w -> createSubscription callbacks config a w = (Throw e, w') -> I w'.
Proof.
  intros Hw H. unfold createSubscription in H.
  assert (Hgen : exists id w0,
             (match sub_customId a with Some c => ret c | None => generateId end) w
             = (Ok id, w0) /\ I w0).
  { destruct (customId_drawn (sub_customId a) w) as (id & w0 & Hgen & _).
    exists id, w0. split; [exact Hgen|].
    destruct (sub_customId a).
    - inversion Hgen; subst. exact Hw.
    - eapply keeps_run_eq; [apply keeps_generateId_from, I_basic | exact Hw | exact Hgen]. }
  destruct Hgen as (id & w0 & Hgen & Hw0).
  unfold bind at 1 in H. rewrite Hgen in H.
  run_inv H. all: inversion H; subst; clear H. all: carry. all: try assumption.
  all: match goal with E : emit _ _ _ _ = (Throw _, _) |- _ =>
         apply emit_fields in E as (E & _); discriminate E end.
Qed.

End Approval.

(** X24.  The [approvalUrl] a creation returns is taken from the
    provider's reply: it is the [href] of the first of its [links] whose
    [rel] is 'approve'.  When the reply has no such link (or no links at
    all) the creation throws; and a [createOrder] or
    [createSubscription] that throws, for this or any other reason, has
    stored nothing in the cache and set no timer. *)
Theorem approval_link_or_nothing_stored callbacks config :
  (forall a w result w',
      createOrder callbacks config a w = (Ok result, w') ->
      first_approve (JS.get result "rawResponse") (JS.get result "approvalUrl"))
  /\
  (forall a w result w',
      createSubscription callbacks config a w = (Ok result, w') ->
      first_approve (JS.get result "rawResponse") (JS.get result "approvalUrl"))
  /\
  (forall a w e w',
      createOrder callbacks config a w = (Throw e, w') ->
      cache_within w w' /\ incl (timers w') (timers w))
  /\
  (forall a w e w',
      createSubscription callbacks config a w = (Throw e, w') ->
      cache_within w w' /\ incl (timers w') (timers w)).
Proof.
  split; [|split; [|split]].
  - apply createOrder_approval.
  - apply createSubscription_approval.
  - intros a w e w' H. split.
    + eapply (createOrder_throw_keeps callbacks config _ (cache_within_basic w)); [|exact H].
      intros key Hk; exact Hk.
    + eapply (createOrder_throw_keeps callbacks config _ (timers_among_basic w)); [|exact H].
      apply incl_refl.
  - intros a w e w' H. split.
    + eapply (createSubscription_throw_keeps callbacks config _ (cache_within_basic w));
        [|exact H].
      intros key Hk; exact Hk.
    + eapply (createSubscription_throw_keeps callbacks config _ (timers_among_basic w));
        [|exact H].
      apply incl_refl.
Qed.

(* ================================================================== *)
(** ** More runs of the model, and instances of the theorems above *)

(** Numbers, query strings and JSON as the platform prints them. *)
Example number_to_string_examples :
  map (fun s => JSText.number_to_string (Sample.lit s))
      ["39.98"; "0.1"; "100"; "1e21"; "123456789012345680000"; "0.000001"; "1e-7";
       "-42.5"; "5e-324"; "1.7976931348623157e308"]
  = ["39.98"; "0.1"; "100"; "1e+21"; "123456789012345680000"; "0.000001"; "1e-7";
     "-42.5"; "5e-324"; "1.7976931348623157e+308"] /\
  JSText.number_to_string (JS.mul (Sample.lit "0.1") (Sample.lit "3")) = "0.30000000000000004".
Proof. vm_compute. split; reflexivity. Qed.

Example URLSearchParams_example :
  JSText.URLSearchParams
    [("payment_id", JS.Str "5O19 0127&x=1/~"); ("amount", JS.Num (Sample.lit "39.98"));
     ("list", JS.Arr [JS.Num (JS.of_Z 1); JS.Null; JS.Str "x"]); ("none", JS.Undefined)]
  = "payment_id=5O19+0127%26x%3D1%2F%7E&amount=39.98&list=1%2C%2Cx&none=undefined".
Proof. vm_compute. reflexivity. Qed.

Example JSON_stringify_example :
  JSText.JSON_stringify
    (JS.Obj [("n", JS.Num (Sample.lit "1.50")); ("u", JS.Undefined);
             ("l", JS.Arr [JS.Undefined; JS.Bool true; JS.Num S754_nan]);
             ("s", JS.Str ("a" ++ JSText.double_quote ++ JSText.backslash))])
  = JS.Str ("{" ++ JSText.double_quote ++ "n" ++ JSText.double_quote ++ ":1.5," ++
            JSText.double_quote ++ "l" ++ JSText.double_quote ++ ":[null,true,null]," ++
            JSText.double_quote ++ "s" ++ JSText.double_quote ++ ":" ++
            JSText.double_quote ++ "a" ++ JSText.backslash ++ JSText.double_quote ++
            JSText.backslash ++ JSText.backslash ++ JSText.double_quote ++ "}").
Proof. vm_compute. reflexivity. Qed.

Example sha256_example :
  sha256 (JS.Str "dSyncPay")
  = Ok "6a59647f729854adf77d2ecfd5b21777be80079f7dee3e1a3b8e5692863aa6c3".
Proof. vm_compute. reflexivity. Qed.

(** The site of the samples: the routes it registers, the buyer coming
    back from PayPal, a signed and a forged webhook. *)
Example site_scenario :
  constructor true Shop.options = Ok Shop.gateway /\
  map (fun r => (route_method r, route_path r)) (routes Shop.gateway)
  = [("GET", "/payments/payment-status.html"); ("GET", "/payments/paypal/verify");
     ("GET", "/payments/paypal/subscription/verify"); ("GET", "/payments/cancel");
     ("GET", "/payments/coinbase/verify"); ("POST", "/payments/webhook/coinbase");
     ("GET", "/payment-success"); ("GET", "/payment-error"); ("GET", "/payment-cancelled");
     ("GET", "/subscription-success"); ("GET", "/subscription-error")] /\
  fst (handle Shop.gateway (PayPalVerify Sample.config) Shop.back Sample.returning)
  = Ok (Redirect "/payment-success?payment_id=5O190127TN364715T&provider=paypal&amount=39.98&currency=EUR") /\
  fst (handle Shop.gateway (StatusRedirect "success" true) Shop.landing Sample.started)
  = Ok (Redirect "/payments/payment-status.html?payment_id=5O190127TN364715T&status=success&provider=paypal&type=subscription") /\
  Shop.signature = "27326d71e719290c7b0bdd1585ea2dde9dd8f44bce8d3bfe7a826da6d228c45d" /\
  fst (handle Shop.gateway (CoinbaseWebhook "whsec") Shop.signed Sample.lapsed)
  = Ok (Status 200 (JS.Obj [("ok", JS.Bool true)])) /\
  map fst (emitted (snd (handle Shop.gateway (CoinbaseWebhook "whsec") Shop.signed
                           Sample.lapsed)))
  = [onPaymentFailed] /\
  handle Shop.gateway (CoinbaseWebhook "whsec") Shop.forged Sample.lapsed
  = (Ok (Status 401 (refusal "invalid_signature")), Sample.lapsed).
Proof. vm_compute. repeat split; reflexivity. Qed.

(* ------------------------------------------------------------------ *)
(** *** Instances *)

Lemma creation_arguments_witness :
  (exists e,
     createPlan Sample.silent Sample.config Shop.unnamed Shop.planning
     = (Throw e, Shop.planning) /\
     (message e = "missing name" \/ message e = "missing price") /\
     response e = JS.Undefined) /\
  (exists e w',
     createSubscription Sample.silent Sample.config Shop.planless Shop.planning
     = (Throw e, w') /\
     message e = "missing planId" /\ response e = JS.Undefined /\ w' = Shop.planning) /\
  (exists e,
     createCharge Sample.silent Shop.untitled Shop.planning = (Throw e, Shop.planning) /\
     (message e = "missing title" \/ message e = "missing price") /\
     response e = JS.Undefined).
Proof.
  split; [|split].
  - exact (proj1 (creation_arguments_are_checked_first Sample.silent Sample.config)
                 Shop.unnamed Shop.planning (or_introl eq_refl)).
  - exact (proj1 (proj2 (creation_arguments_are_checked_first Sample.silent Sample.config))
                 Shop.planless Shop.planning eq_refl).
  - exact (proj2 (proj2 (creation_arguments_are_checked_first Sample.silent Sample.config))
                 Shop.untitled Shop.planning (or_introl eq_refl)).
Defined.

Lemma failed_exchange_witness :
  fst (getAccessToken Sample.silent Sample.config Sample.stale)
  = Throw (plain_error "fetch failed") /\
  let w' := snd (getAccessToken Sample.silent Sample.config Sample.stale) in
  tokenCache w' = tokenCache Sample.stale /\ tokenExpiry w' = tokenExpiry Sample.stale /\
  requests w' = mkRequest "POST" (token_url Sample.config) :: requests Sample.stale /\
  emitted w' = (onError, error_report "auth" (plain_error "fetch failed"))
               :: emitted Sample.stale /\
  JS.truthy (tokenCache Sample.stale)
  && expiry_after (tokenExpiry Sample.stale) (clock Sample.stale) = false.
Proof.
  assert (H : getAccessToken Sample.silent Sample.config Sample.stale
              = (Throw (plain_error "fetch failed"),
                 snd (getAccessToken Sample.silent Sample.config Sample.stale)))
    by (vm_compute; reflexivity).
  split; [vm_compute; reflexivity|].
  exact (failed_exchange_is_reported_once Sample.silent Sample.config _ _ _ H).
Defined.

Lemma creation_emits_witness :
  createOrder Sample.silent Sample.config Sample.widget Sample.checkout
  = (Ok Sample.created, Sample.pending) /\
  emitted Sample.pending = (onPaymentCreated, Sample.created) :: emitted Sample.checkout /\
  exists id, JS.get Sample.created "transactionId" = JS.Str id /\
             transaction_id_of (order_customId Sample.widget) id.
Proof.
  assert (H : createOrder Sample.silent Sample.config Sample.widget Sample.checkout
              = (Ok Sample.created, Sample.pending)) by (vm_compute; reflexivity).
  split; [exact H|].
  exact (proj1 (creation_emits_the_returned_result Sample.silent Sample.config) _ _ _ _ H).
Defined.

Lemma cancelSubscription_witness :
  getAccessToken Sample.silent Sample.config Shop.cancelling
  = (Ok (JS.Str "A21AAFs9"), Shop.cancelling) /\
  let run := cancelSubscription Sample.silent Sample.config "I-BW452GLLEP1G" None
                                Shop.cancelling in
  purged (JS.Str "I-BW452GLLEP1G") (snd run) /\
  requests (snd run)
  = mkRequest "POST" (cancel_url Sample.config "I-BW452GLLEP1G") :: requests Shop.cancelling /\
  match fst run with
  | Ok result =>
      JS.get result "status" = JS.Str "CANCELLED" /\
      JS.get result "subscriptionId" = JS.Str "I-BW452GLLEP1G" /\
      JS.get result "reason" = JS.Str "customer request" /\
      emitted (snd run) = (onSubscriptionCancelled, result) :: emitted Shop.cancelling
  | Throw e =>
      emitted (snd run)
      = (onError, cancellation_report "I-BW452GLLEP1G" e) :: emitted Shop.cancelling
  end.
Proof.
  assert (H : getAccessToken Sample.silent Sample.config Shop.cancelling
              = (Ok (JS.Str "A21AAFs9"), Shop.cancelling)) by (vm_compute; reflexivity).
  split; [exact H|].
  exact (cancelSubscription_purges_and_reports Sample.silent Sample.config
           "I-BW452GLLEP1G" None Shop.cancelling _ _ _ _ H (surjective_pairing _)).
Defined.

Lemma createPlan_witness :
  getAccessToken Sample.silent Sample.config Shop.planning
  = (Ok (JS.Str "A21AAFs9"), Shop.planning) /\
  let run := createPlan Sample.silent Sample.config Shop.pro Shop.planning in
  match fst run with
  | Ok plan =>
      requests (snd run)
      = plan_request Sample.config :: product_request Sample.config
        :: requests Shop.planning /\
      emitted (snd run) = emitted Shop.planning /\
      JS.get plan "planId" = JS.get (JS.get plan "rawResponse") "id" /\
      JS.get plan "price" = JS.Num (default S754_nan (plan_price Shop.pro))
  | Throw e =>
      (requests (snd run) = product_request Sample.config :: requests Shop.planning /\
       emitted (snd run) = emitted Shop.planning) \/
      (requests (snd run)
       = plan_request Sample.config :: product_request Sample.config
         :: requests Shop.planning /\
       emitted (snd run)
       = (onError, error_report "plan_creation" e) :: emitted Shop.planning)
  end.
Proof.
  assert (H : getAccessToken Sample.silent Sample.config Shop.planning
              = (Ok (JS.Str "A21AAFs9"), Shop.planning)) by (vm_compute; reflexivity).
  split; [exact H|].
  exact (createPlan_creates_the_product_first Sample.silent Sample.config Shop.pro
           Shop.planning _ _ _ _ eq_refl eq_refl H eq_refl (surjective_pairing _)).
Defined.

Lemma verifyOrder_capture_witness :
  getAccessToken Sample.silent Sample.config Shop.approving
  = (Ok (JS.Str "A21AAFs9"), Shop.approving) /\
  requests (snd (verifyOrder Sample.silent Sample.config "5O190127TN364715T" Shop.approving))
  = capture_request Sample.config "5O190127TN364715T"
    :: order_request Sample.config "5O190127TN364715T" :: requests Shop.approving.
Proof.
  assert (H : getAccessToken Sample.silent Sample.config Shop.approving
              = (Ok (JS.Str "A21AAFs9"), Shop.approving)) by (vm_compute; reflexivity).
  split; [exact H|].
  exact (proj1 (verifyOrder_captures_approved_orders Sample.silent Sample.config
                  "5O190127TN364715T" Shop.approving _ _
                  (JS.Obj [("id", JS.Str "5O190127TN364715T"); ("status", JS.Str "APPROVED");
                           ("purchase_units",
                            JS.Arr [JS.Obj [("custom_id", JS.Str "tx-1001");
                                            ("amount",
                                             JS.Obj [("currency_code", JS.Str "EUR");
                                                     ("value", JS.Str "39.98")])]])])
                  (snd (request "GET"
                          (baseUrl Sample.config ++ "/v2/checkout/orders/" ++
                           "5O190127TN364715T") Shop.approving))
                  H ltac:(vm_compute; reflexivity))).
Defined.

Lemma metadata_round_trip_witness :
  createOrder Sample.silent Sample.config Sample.widget Shop.shopping
  = (Ok Sample.created, Shop.ordered) /\
  verifyOrder Sample.silent Sample.config "5O190127TN364715T"
              (elapse (Sample.minutes 20) Shop.ordered) = (Ok Shop.reported, Shop.closed) /\
  JS.get Shop.reported "metadata" = JS.Obj [("userId", JS.Str "123")].
Proof.
  assert (H : createOrder Sample.silent Sample.config Sample.widget Shop.shopping
              = (Ok Sample.created, Shop.ordered)) by (vm_compute; reflexivity).
  assert (H' : verifyOrder Sample.silent Sample.config "5O190127TN364715T"
                 (elapse (Sample.minutes 20) Shop.ordered) = (Ok Shop.reported, Shop.closed))
    by (vm_compute; reflexivity).
  split; [exact H|]. split; [exact H'|].
  exact (proj1 (verification_reports_the_created_metadata Sample.silent Sample.config)
               Sample.widget Shop.shopping Sample.created Shop.ordered
               "5O190127TN364715T" (Sample.minutes 20) Shop.reported Shop.closed
               H eq_refl (Forall_nil _) H' ltac:(vm_compute; reflexivity)).
Defined.


Lemma cached_metadata_expiry_witness :
  createOrder Sample.silent Sample.config Sample.widget Sample.checkout
  = (Ok Sample.created, Sample.pending) /\
  JSMap.has (metadataCache Sample.pending) (JS.get Sample.created "orderId") = true /\
  purged (JS.get Sample.created "orderId") (elapse (Sample.minutes 60) Sample.pending).
Proof.
  assert (H : createOrder Sample.silent Sample.config Sample.widget Sample.checkout
              = (Ok Sample.created, Sample.pending)) by (vm_compute; reflexivity).
  split; [exact H|]. split; [vm_compute; reflexivity|].
  exact (proj1 (cached_metadata_expires_after_an_hour Sample.silent Sample.config)
               Sample.widget Sample.checkout Sample.created Sample.pending
               (Sample.minutes 60) H ltac:(vm_compute; discriminate)).
Defined.

Lemma every_entry_expires_witness :
  expiring Sample.checkout /\
  expiring (run_all Sample.silent Sample.config
              [CreateOrder Sample.widget; Wait (Sample.minutes 40)] Sample.checkout) /\
  metadataCache
    (elapse (Sample.minutes 60)
       (run_all Sample.silent Sample.config
          [CreateOrder Sample.widget; Wait (Sample.minutes 40)] Sample.checkout)) = [].
Proof.
  assert (H : expiring Sample.checkout) by (intros key Hk; discriminate Hk).
  split; [exact H|].
  destruct (every_entry_expires_within_the_hour Sample.silent Sample.config
              [CreateOrder Sample.widget; Wait (Sample.minutes 40)] Sample.checkout H)
    as [He Hgone].
  split; [exact He|].
  apply Hgone. vm_compute. discriminate.
Defined.

Lemma coinbase_calls_witness :
  let run := verifyCharge Sample.silent "66BEOV2A" Sample.awaiting in
  tokenCache (snd run) = tokenCache Sample.awaiting /\
  tokenExpiry (snd run) = tokenExpiry Sample.awaiting /\
  requests (snd run)
  = mkRequest "GET" (coinbaseUrl ++ "/charges/" ++ "66BEOV2A") :: requests Sample.awaiting /\
  cache_within Sample.awaiting (snd run) /\ incl (timers (snd run)) (timers Sample.awaiting).
Proof.
  exact (proj2 (coinbase_calls_leave_paypal_alone Sample.silent)
               "66BEOV2A" Sample.awaiting _ _ (surjective_pairing _)).
Defined.

Lemma verifyCharge_latest_witness :
  verifyCharge Sample.silent "66BEOV2A" Sample.lapsed
  = (Ok Shop.expired, snd (verifyCharge Sample.silent "66BEOV2A" Sample.lapsed)) /\
  JS.get Shop.expired "status" = JS.Str "EXPIRED" /\
  JS.get Shop.expired "metadata" = JS.Obj [("userId", JS.Str "123")].
Proof.
  assert (H : verifyCharge Sample.silent "66BEOV2A" Sample.lapsed
              = (Ok Shop.expired, snd (verifyCharge Sample.silent "66BEOV2A" Sample.lapsed)))
    by (vm_compute; reflexivity).
  split; [exact H|].
  destruct (verifyCharge_reports_the_latest_status Sample.silent _ _ _ _ H)
    as (Hlast & _ & Hmeta).
  split.
  - exact (Hlast [JS.Obj [("status", JS.Str "CREATED")]; JS.Obj [("status", JS.Str "PENDING")];
                  JS.Obj [("status", JS.Str "EXPIRED")]] eq_refl).
  - exact Hmeta.
Defined.

Lemma cancel_route_witness :
  cancelRoute Shop.gateway Sample.config Shop.back Sample.returning
  = (Ok (Redirect "/payment-cancelled"),
     snd (verifyOrder Sample.silent Sample.config "5O190127TN364715T" Sample.returning)) /\
  JSMap.has (metadataCache Sample.returning) (JS.Str "5O190127TN364715T") = true /\
  purged (JS.Str "5O190127TN364715T")
         (snd (cancelRoute Shop.gateway Sample.config Shop.back Sample.returning)) /\
  emitted (snd (cancelRoute Shop.gateway Sample.config Shop.back Sample.returning))
  = (onPaymentCompleted, Sample.verified) :: emitted Sample.returning.
Proof.
  destruct (cancel_route_verifies_and_redirects Shop.gateway Sample.config Shop.back
              Sample.returning) as (Hrun & Hpurged & Hemitted).
  split; [exact Hrun|]. split; [vm_compute; reflexivity|]. split.
  - exact (Hpurged _ _ (JS.Str "A21AAFs9") Sample.returning eq_refl
             ltac:(vm_compute; reflexivity)).
  - exact (Hemitted _ _ Sample.verified Sample.settled eq_refl
             ltac:(vm_compute; reflexivity)).
Defined.

Lemma status_routes_witness :
  JS.assoc "status" (status_query Shop.landing "success" true) = JS.Str "success" /\
  JS.assoc "type" (status_query Shop.landing "success" true) = JS.Str "subscription" /\
  JS.assoc "payment_id" (status_query Shop.landing "success" true)
  = JS.Str "5O190127TN364715T".
Proof.
  destruct (status_routes_fix_the_status Shop.gateway "success" true Shop.landing)
    as (_ & Hstatus & Htype & Hother).
  split; [exact Hstatus|]. split; [exact Htype|].
  exact (Hother "payment_id" ltac:(discriminate) ltac:(discriminate)).
Defined.

Lemma getUrl_witness :
  constructor true Shop.options = Ok Shop.gateway /\
  domain Shop.gateway = "https://shop.example" /\
  getUrl Shop.gateway "/paypal/verify" = "https://shop.example/payments/paypal/verify".
Proof.
  assert (H : constructor true Shop.options = Ok Shop.gateway) by reflexivity.
  split; [exact H|].
  exact (getUrl_ignores_one_trailing_slash true Shop.options Shop.gateway
           "https://shop.example" "/paypal/verify" H (or_introl eq_refl)).
Defined.

Lemma constructed_gateway_witness :
  constructor true Shop.options = Ok Shop.gateway /\
  (forall c, paypal Shop.gateway = Some c ->
             clientId c <> EmptyString /\ clientSecret c <> EmptyString) /\
  (forall r, In r (routes Shop.gateway) ->
     match route_handler r with
     | PayPalVerify c | PayPalSubscriptionVerify c | Cancel c => paypal Shop.gateway = Some c
     | CoinbaseVerify => coinbase Shop.gateway <> None
     | CoinbaseWebhook s =>
         s <> EmptyString /\
         exists c, coinbase Shop.gateway = Some c /\ webhookSecret c = Some s
     | _ => True
     end).
Proof.
  assert (H : constructor true Shop.options = Ok Shop.gateway) by reflexivity.
  split; [exact H|].
  destruct (constructed_gateway_is_complete true Shop.options Shop.gateway H)
    as (_ & _ & _ & Hp & _ & Hr).
  split; [exact Hp | exact Hr].
Defined.

Lemma failures_reported_witness :
  fst (createOrder Sample.silent Sample.config Sample.widget Sample.rejecting)
  = Throw (mkError "http error: 422" (JS.Obj [("name", JS.Str "UNPROCESSABLE_ENTITY")])) /\
  reported_once "order_creation"
    (mkError "http error: 422" (JS.Obj [("name", JS.Str "UNPROCESSABLE_ENTITY")]))
    Sample.rejecting
    (snd (createOrder Sample.silent Sample.config Sample.widget Sample.rejecting)).
Proof.
  assert (H : createOrder Sample.silent Sample.config Sample.widget Sample.rejecting
              = (Throw (mkError "http error: 422"
                          (JS.Obj [("name", JS.Str "UNPROCESSABLE_ENTITY")])),
                 snd (createOrder Sample.silent Sample.config Sample.widget Sample.rejecting)))
    by (vm_compute; reflexivity).
  split; [vm_compute; reflexivity|].
  exact (proj1 (failures_are_reported_once Sample.silent Sample.config)
               Sample.widget Sample.rejecting _ _ H eq_refl eq_refl).
Defined.

Lemma approval_link_witness :
  createOrder Sample.silent Sample.config Sample.widget Sample.checkout
  = (Ok Sample.created, Sample.pending) /\
  JS.get Sample.created "approvalUrl" = JS.Str "https://paypal/approve" /\
  first_approve (JS.get Sample.created "rawResponse") (JS.get Sample.created "approvalUrl").
Proof.
  assert (H : createOrder Sample.silent Sample.config Sample.widget Sample.checkout
              = (Ok Sample.created, Sample.pending)) by (vm_compute; reflexivity).
  split; [exact H|]. split; [reflexivity|].
  exact (proj1 (approval_link_or_nothing_stored Sample.silent Sample.config) _ _ _ _ H).
Defined.
